(** * Inventory ledger and purchase-order workflow of the L2 backend

    A shallow embedding of the Flask/SQLAlchemy request handlers of
    [routes/inventory.py], [routes/barcode.py], [routes/purchase_orders.py]
    and [routes/reports.py], over the tables declared in [models.py].

    Modelling conventions.
    - Python integers are [Z]; JSON request fields are integers or strings
      of the type the handler expects.  A key that may be absent from the
      request body is an [option].
    - Timestamps are seconds on the server clock; the reading of
      [datetime.utcnow()] is the parameter [now] of every handler.
    - A table is the list of its rows in insertion order.  Primary keys are
      allocated by auto-increment.  The [id] column of [stock_movements] is
      never read by a handler and is represented by the position of the row.
    - The ORM session is explicit: a handler works on a working copy of the
      database; [commit] has the database check the declared constraints
      (primary keys, unique constraints, foreign keys) and the range of the
      [db.Integer] columns, and publishes the working copy; whatever is not
      committed when the request ends is discarded.
    - Monetary amounts ([DECIMAL(10, 2)] columns) are integer amounts. *)

From Stdlib Require Import ZArith List String Bool Lia QArith DecimalString.
Import ListNotations.
Local Open Scope string_scope.
Local Open Scope list_scope.
Local Open Scope Z_scope.


(** ** Tables ([models.py]) *)

Record Product := {
  prod_id : Z;
  prod_name : string;
  prod_sku : string;
  prod_barcode : option string
}.

Record Inventory := {
  inv_id : Z;
  inv_product_id : Z;
  inv_warehouse_id : Z;
  inv_quantity : Z;
  inv_reorder_level : Z;
  inv_max_stock_level : Z;
  inv_last_updated : Z
}.

Record StockMovement := {
  mv_product_id : Z;
  mv_warehouse_id : Z;
  mv_movement_type : string;
  mv_quantity : Z;
  mv_reference_type : option string;
  mv_reference_id : option Z;
  mv_notes : option string;
  mv_created_at : Z
}.

Record PurchaseOrder := {
  po_id : Z;
  po_order_number : string;
  po_supplier_id : Z;
  po_status : string;
  po_order_date : Z;
  po_expected_delivery : option Z;
  po_actual_delivery : option Z;
  po_total_amount : Z;
  po_notes : option string
}.

Record PurchaseOrderItem := {
  poi_id : Z;
  poi_purchase_order_id : Z;
  poi_product_id : Z;
  poi_quantity : Z;
  poi_unit_price : Z;
  poi_received_quantity : Z
}.

(** The database: one list per table; of [warehouses] and [suppliers] only
    the primary keys are ever consulted. *)
Record DB := {
  products : list Product;
  warehouses : list Z;
  suppliers : list Z;
  inventory : list Inventory;
  stock_movements : list StockMovement;
  purchase_orders : list PurchaseOrder;
  purchase_order_items : list PurchaseOrderItem
}.

Definition empty_db : DB :=
  {| products := []; warehouses := []; suppliers := []; inventory := [];
     stock_movements := []; purchase_orders := []; purchase_order_items := [] |}.

(** *** Attribute assignment on rows *)

Definition inv_with_quantity (q : Z) (r : Inventory) : Inventory :=
  {| inv_id := inv_id r; inv_product_id := inv_product_id r;
     inv_warehouse_id := inv_warehouse_id r; inv_quantity := q;
     inv_reorder_level := inv_reorder_level r;
     inv_max_stock_level := inv_max_stock_level r;
     inv_last_updated := inv_last_updated r |}.

Definition inv_with_reorder_level (v : Z) (r : Inventory) : Inventory :=
  {| inv_id := inv_id r; inv_product_id := inv_product_id r;
     inv_warehouse_id := inv_warehouse_id r; inv_quantity := inv_quantity r;
     inv_reorder_level := v;
     inv_max_stock_level := inv_max_stock_level r;
     inv_last_updated := inv_last_updated r |}.

Definition inv_with_max_stock_level (v : Z) (r : Inventory) : Inventory :=
  {| inv_id := inv_id r; inv_product_id := inv_product_id r;
     inv_warehouse_id := inv_warehouse_id r; inv_quantity := inv_quantity r;
     inv_reorder_level := inv_reorder_level r;
     inv_max_stock_level := v;
     inv_last_updated := inv_last_updated r |}.

Definition inv_with_last_updated (t : Z) (r : Inventory) : Inventory :=
  {| inv_id := inv_id r; inv_product_id := inv_product_id r;
     inv_warehouse_id := inv_warehouse_id r; inv_quantity := inv_quantity r;
     inv_reorder_level := inv_reorder_level r;
     inv_max_stock_level := inv_max_stock_level r;
     inv_last_updated := t |}.

Definition po_with_status (s : string) (o : PurchaseOrder) : PurchaseOrder :=
  {| po_id := po_id o; po_order_number := po_order_number o;
     po_supplier_id := po_supplier_id o; po_status := s;
     po_order_date := po_order_date o;
     po_expected_delivery := po_expected_delivery o;
     po_actual_delivery := po_actual_delivery o;
     po_total_amount := po_total_amount o; po_notes := po_notes o |}.

Definition po_with_actual_delivery (t : option Z) (o : PurchaseOrder) : PurchaseOrder :=
  {| po_id := po_id o; po_order_number := po_order_number o;
     po_supplier_id := po_supplier_id o; po_status := po_status o;
     po_order_date := po_order_date o;
     po_expected_delivery := po_expected_delivery o;
     po_actual_delivery := t;
     po_total_amount := po_total_amount o; po_notes := po_notes o |}.

Definition po_with_total_amount (a : Z) (o : PurchaseOrder) : PurchaseOrder :=
  {| po_id := po_id o; po_order_number := po_order_number o;
     po_supplier_id := po_supplier_id o; po_status := po_status o;
     po_order_date := po_order_date o;
     po_expected_delivery := po_expected_delivery o;
     po_actual_delivery := po_actual_delivery o;
     po_total_amount := a; po_notes := po_notes o |}.

Definition poi_with_received_quantity (q : Z) (i : PurchaseOrderItem) : PurchaseOrderItem :=
  {| poi_id := poi_id i; poi_purchase_order_id := poi_purchase_order_id i;
     poi_product_id := poi_product_id i; poi_quantity := poi_quantity i;
     poi_unit_price := poi_unit_price i; poi_received_quantity := q |}.

(** *** Table-level updates on the database *)

Definition db_with_inventory (l : list Inventory) (d : DB) : DB :=
  {| products := products d; warehouses := warehouses d; suppliers := suppliers d;
     inventory := l; stock_movements := stock_movements d;
     purchase_orders := purchase_orders d;
     purchase_order_items := purchase_order_items d |}.

Definition db_with_stock_movements (l : list StockMovement) (d : DB) : DB :=
  {| products := products d; warehouses := warehouses d; suppliers := suppliers d;
     inventory := inventory d; stock_movements := l;
     purchase_orders := purchase_orders d;
     purchase_order_items := purchase_order_items d |}.

Definition db_with_purchase_orders (l : list PurchaseOrder) (d : DB) : DB :=
  {| products := products d; warehouses := warehouses d; suppliers := suppliers d;
     inventory := inventory d; stock_movements := stock_movements d;
     purchase_orders := l;
     purchase_order_items := purchase_order_items d |}.

Definition db_with_purchase_order_items (l : list PurchaseOrderItem) (d : DB) : DB :=
  {| products := products d; warehouses := warehouses d; suppliers := suppliers d;
     inventory := inventory d; stock_movements := stock_movements d;
     purchase_orders := purchase_orders d;
     purchase_order_items := l |}.

(** ** Declared constraints

    [primary_key=True], [unique=True], [UniqueConstraint] and [ForeignKey]
    of [models.py], as one executable check of a database state. *)

Definition mem_Z (x : Z) (l : list Z) : bool := existsb (Z.eqb x) l.

Fixpoint unique_by {A : Type} (eqb : A -> A -> bool) (l : list A) : bool :=
  match l with
  | [] => true
  | x :: t => negb (existsb (eqb x) t) && unique_by eqb t
  end.

Definition pair_eqb (a b : Z * Z) : bool :=
  (fst a =? fst b) && (snd a =? snd b).

Definition inventory_rows_ok (product_ids warehouse_ids : list Z)
    (rows : list Inventory) : bool :=
  unique_by Z.eqb (map inv_id rows)
  && unique_by pair_eqb (map (fun r => (inv_product_id r, inv_warehouse_id r)) rows)
  && forallb (fun r => mem_Z (inv_product_id r) product_ids
                       && mem_Z (inv_warehouse_id r) warehouse_ids) rows.

Definition movement_rows_ok (product_ids warehouse_ids : list Z)
    (rows : list StockMovement) : bool :=
  forallb (fun m => mem_Z (mv_product_id m) product_ids
                    && mem_Z (mv_warehouse_id m) warehouse_ids) rows.

Definition order_rows_ok (supplier_ids : list Z) (rows : list PurchaseOrder) : bool :=
  unique_by Z.eqb (map po_id rows)
  && unique_by String.eqb (map po_order_number rows)
  && forallb (fun o => mem_Z (po_supplier_id o) supplier_ids) rows.

Definition item_rows_ok (order_ids product_ids : list Z)
    (rows : list PurchaseOrderItem) : bool :=
  unique_by Z.eqb (map poi_id rows)
  && forallb (fun i => mem_Z (poi_purchase_order_id i) order_ids
                       && mem_Z (poi_product_id i) product_ids) rows.

Definition constraints_ok (d : DB) : bool :=
  inventory_rows_ok (map prod_id (products d)) (warehouses d) (inventory d)
  && movement_rows_ok (map prod_id (products d)) (warehouses d) (stock_movements d)
  && order_rows_ok (suppliers d) (purchase_orders d)
  && item_rows_ok (map po_id (purchase_orders d)) (map prod_id (products d))
       (purchase_order_items d).

(** ** Column types

    [db.Integer] is [INT] in the MySQL schema that [app.py] configures and
    [init_db.py] creates: 32 bits, signed.  The server refuses a statement
    that writes a value outside this range.  (A backend chosen through
    [DATABASE_URL] may hold more, as SQLite's 64 bits do; what fits here
    fits there.)  The check covers the integer columns that take a value of
    the request or one computed from it; the key columns hold ids that the
    database gave out, or that a foreign key ties to such ids. *)

Definition INT_MIN : Z := -2147483648.
Definition INT_MAX : Z := 2147483647.

Definition fits_integer (z : Z) : bool := (INT_MIN <=? z) && (z <=? INT_MAX).

Definition inventory_fits (r : Inventory) : bool :=
  fits_integer (inv_quantity r) && fits_integer (inv_reorder_level r)
  && fits_integer (inv_max_stock_level r).

(** A nullable column, or a key that the request may leave out. *)
Definition fits_if_present (v : option Z) : bool :=
  match v with
  | Some x => fits_integer x
  | None => true
  end.

Definition movement_fits (m : StockMovement) : bool :=
  fits_integer (mv_quantity m) && fits_if_present (mv_reference_id m).

Definition item_fits (i : PurchaseOrderItem) : bool :=
  fits_integer (poi_quantity i) && fits_integer (poi_received_quantity i).

Definition columns_ok (d : DB) : bool :=
  forallb inventory_fits (inventory d)
  && forallb movement_fits (stock_movements d)
  && forallb item_fits (purchase_order_items d).

(** What the database accepts: a state that meets the declared constraints
    and whose values fit their columns. *)
Definition integrity_ok (d : DB) : bool := constraints_ok d && columns_ok d.

(** Auto-increment: one more than the largest key in the table. *)
Definition next_id (ids : list Z) : Z := 1 + fold_right Z.max 0 ids.

(** ** Responses and the request session *)

(** [jsonify({'success': True, ...}), status] and
    [jsonify({'success': False, 'error': ...}), status]. *)
Inductive Response :=
| Success (status : Z) (message : string)
| Failure (status : Z) (error : string).

(** Exceptions that the handlers' [except Exception] clause can meet: the
    [DatabaseError] with which a flush fails (SQLAlchemy's [IntegrityError]
    for a broken constraint, its [DataError] for a value outside its
    column), and the [NotFound] raised by [get_or_404]. *)
Inductive Exn := DatabaseError | HTTPNotFound.

(** The text of a database error is composed by the driver from the
    statement that failed.  The handlers pass it on unread; it is kept
    opaque, so that no statement can depend on which text it is. *)
Definition driver_text : string.
Proof. exact "DatabaseError"%string. Qed.

(** [str(e)].  For [NotFound] it is Werkzeug's "code name: description". *)
Definition str (e : Exn) : string :=
  match e with
  | DatabaseError => driver_text
  | HTTPNotFound =>
      "404 Not Found: The requested URL was not found on the server. If you entered the URL manually please check your spelling and try again."
  end.

Record Session := { committed : DB; working : DB }.

Inductive Outcome (A : Type) : Type :=
| Val (a : A)
| Return (r : Response)
| Raise (e : Exn).
Arguments Val {A} a.
Arguments Return {A} r.
Arguments Raise {A} e.

(** A handler body: reads and writes the session, and either continues
    with a value, leaves the function with [return], or raises. *)
Definition M (A : Type) : Type := Session -> Outcome A * Session.

Definition ret {A : Type} (a : A) : M A := fun s => (Val a, s).

Definition bind {A B : Type} (m : M A) (k : A -> M B) : M B :=
  fun s =>
    match m s with
    | (Val a, s') => k a s'
    | (Return r, s') => (Return r, s')
    | (Raise e, s') => (Raise e, s')
    end.

Notation "x <- m ;; k" := (bind m (fun x => k))
  (at level 61, m at next level, right associativity).
Notation "m ;;; k" := (bind m (fun _ => k))
  (at level 61, right associativity).

Definition return_ {A : Type} (r : Response) : M A := fun s => (Return r, s).
Definition raise {A : Type} (e : Exn) : M A := fun s => (Raise e, s).

Definition query {A : Type} (f : DB -> A) : M A :=
  fun s => (Val (f (working s)), s).

Definition update (f : DB -> DB) : M unit :=
  fun s => (Val tt, {| committed := committed s; working := f (working s) |}).

(** [for x in xs: body(x)] *)
Fixpoint for_each {A : Type} (xs : list A) (body : A -> M unit) : M unit :=
  match xs with
  | [] => ret tt
  | x :: rest => body x ;;; for_each rest body
  end.

(** *** Flush and commit

    [onupdate=datetime.utcnow] on [Inventory.last_updated]: a row whose
    column values differ from the stored ones is written with the current
    time. *)

Definition Inventory_eqb (a b : Inventory) : bool :=
  (inv_id a =? inv_id b) && (inv_product_id a =? inv_product_id b)
  && (inv_warehouse_id a =? inv_warehouse_id b)
  && (inv_quantity a =? inv_quantity b)
  && (inv_reorder_level a =? inv_reorder_level b)
  && (inv_max_stock_level a =? inv_max_stock_level b)
  && (inv_last_updated a =? inv_last_updated b).

Definition onupdate (now : Z) (stored : list Inventory) (r : Inventory) : Inventory :=
  match find (fun o => inv_id o =? inv_id r) stored with
  | Some o => if Inventory_eqb o r then r else inv_with_last_updated now r
  | None => r
  end.

Definition flush (now : Z) (s : Session) : DB :=
  db_with_inventory
    (map (onupdate now (inventory (committed s))) (inventory (working s)))
    (working s).

(** [db.session.commit()] *)
Definition commit (now : Z) : M unit :=
  fun s =>
    let d := flush now s in
    if integrity_ok d then (Val tt, {| committed := d; working := d |})
    else (Raise DatabaseError, s).

(** A view function is run on a session opened on the current database.
    [except Exception] rolls back and answers 500; when the request ends the
    session is removed, so the next request sees what was committed. *)
Definition run_view (body : M Response) (d : DB) : Response * DB :=
  match body {| committed := d; working := d |} with
  | (Val r, s) => (r, committed s)
  | (Return r, s) => (r, committed s)
  | (Raise e, s) => (Failure 500 (str e), committed s)
  end.

(** *** Queries and object access *)

Definition same_pair (product_id warehouse_id : Z) (r : Inventory) : bool :=
  (inv_product_id r =? product_id) && (inv_warehouse_id r =? warehouse_id).

(** [Inventory.query.filter_by(product_id=.., warehouse_id=..).first()] *)
Definition find_inventory (rows : list Inventory) (product_id warehouse_id : Z)
  : option Inventory :=
  find (same_pair product_id warehouse_id) rows.

Definition Inventory_first (product_id warehouse_id : Z) : M (option Inventory) :=
  query (fun d => find_inventory (inventory d) product_id warehouse_id).

(** An ORM object is a reference to its row: it is held by primary key and
    its attributes are read from and written to the working copy. *)
Definition get_inventory_row (rows : list Inventory) (id : Z) : option Inventory :=
  find (fun r => inv_id r =? id) rows.

Definition inv_get {A : Type} (id : Z) (attr : Inventory -> A) : M A :=
  fun s =>
    match get_inventory_row (inventory (working s)) id with
    | Some r => (Val (attr r), s)
    | None => (Raise HTTPNotFound, s)
    end.

Definition update_row (id : Z) (f : Inventory -> Inventory) (rows : list Inventory)
  : list Inventory :=
  map (fun r => if inv_id r =? id then f r else r) rows.

Definition inv_set (id : Z) (f : Inventory -> Inventory) : M unit :=
  update (fun d => db_with_inventory (update_row id f (inventory d)) d).

(** [Inventory(product_id=.., warehouse_id=.., quantity=0, ...)] followed by
    [db.session.add]; [last_updated] takes its column default. *)
Definition new_inventory (now product_id warehouse_id reorder_level max_stock_level : Z)
  : M Z :=
  fun s =>
    let d := working s in
    let id := next_id (map inv_id (inventory d)) in
    let row := {| inv_id := id; inv_product_id := product_id;
                  inv_warehouse_id := warehouse_id; inv_quantity := 0;
                  inv_reorder_level := reorder_level;
                  inv_max_stock_level := max_stock_level;
                  inv_last_updated := now |} in
    (Val id, {| committed := committed s;
                working := db_with_inventory (inventory d ++ [row]) d |}).

(** [db.session.add(StockMovement(...))] *)
Definition add_movement (m : StockMovement) : M unit :=
  update (fun d => db_with_stock_movements (stock_movements d ++ [m]) d).

(** The quantity on hand of a (product, warehouse) pair: that of its row,
    0 when the pair has no row. *)
Definition quantity_of (d : DB) (product_id warehouse_id : Z) : Z :=
  match find_inventory (inventory d) product_id warehouse_id with
  | Some r => inv_quantity r
  | None => 0
  end.

Definition movements_of (d : DB) (product_id warehouse_id : Z) : list StockMovement :=
  filter (fun m => (mv_product_id m =? product_id) && (mv_warehouse_id m =? warehouse_id))
    (stock_movements d).

(** Python's [f"{n}"] for an integer. *)
Definition fmt (n : Z) : string := NilZero.string_of_int (Z.to_int n).

(** ** [routes/inventory.py] *)

Record AdjustData := {
  adj_product_id : option Z;
  adj_warehouse_id : option Z;
  adj_quantity_change : option Z;
  adj_movement_type : option string;
  adj_reorder_level : option Z;
  adj_max_stock_level : option Z;
  adj_reference_type : option string;
  adj_reference_id : option Z;
  adj_notes : option string
}.

Definition get_default {A : Type} (o : option A) (d : A) : A :=
  match o with Some a => a | None => d end.

Definition adjust_inventory (now : Z) (data : AdjustData) : M Response :=
  match adj_product_id data, adj_warehouse_id data,
        adj_quantity_change data, adj_movement_type data with
  | Some product_id, Some warehouse_id, Some quantity_change, Some movement_type =>
      found <- Inventory_first product_id warehouse_id ;;
      inventory_item <-
        match found with
        | Some r => ret (inv_id r)
        | None =>
            new_inventory now product_id warehouse_id
              (get_default (adj_reorder_level data) 10)
              (get_default (adj_max_stock_level data) 1000)
        end ;;
      quantity <- inv_get inventory_item inv_quantity ;;
      let new_quantity := quantity + quantity_change in
      if new_quantity <? 0 then
        return_ (Failure 400 "Insufficient stock for this operation")
      else
        inv_set inventory_item (inv_with_quantity new_quantity) ;;;
        inv_set inventory_item (inv_with_last_updated now) ;;;
        add_movement
          {| mv_product_id := product_id; mv_warehouse_id := warehouse_id;
             mv_movement_type := movement_type;
             mv_quantity := Z.abs quantity_change;
             mv_reference_type := adj_reference_type data;
             mv_reference_id := adj_reference_id data;
             mv_notes := adj_notes data; mv_created_at := now |} ;;;
        commit now ;;;
        ret (Success 200 "Inventory adjusted successfully")
  | _, _, _, _ =>
      return_ (Failure 400
        "Product ID, Warehouse ID, quantity change, and movement type are required")
  end.

Record TransferData := {
  tr_product_id : option Z;
  tr_from_warehouse_id : option Z;
  tr_to_warehouse_id : option Z;
  tr_quantity : option Z
}.

Definition transfer_inventory (now : Z) (data : TransferData) : M Response :=
  match tr_product_id data, tr_from_warehouse_id data,
        tr_to_warehouse_id data, tr_quantity data with
  | Some product_id, Some from_warehouse_id, Some to_warehouse_id, Some quantity =>
      source <- Inventory_first product_id from_warehouse_id ;;
      match source with
      | None => return_ (Failure 400 "Insufficient stock in source warehouse")
      | Some src =>
          if inv_quantity src <? quantity then
            return_ (Failure 400 "Insufficient stock in source warehouse")
          else
            let source_inventory := inv_id src in
            dest <- Inventory_first product_id to_warehouse_id ;;
            dest_inventory <-
              match dest with
              | Some r => ret (inv_id r)
              | None => new_inventory now product_id to_warehouse_id 10 1000
              end ;;
            q <- inv_get source_inventory inv_quantity ;;
            inv_set source_inventory (inv_with_quantity (q - quantity)) ;;;
            q' <- inv_get dest_inventory inv_quantity ;;
            inv_set dest_inventory (inv_with_quantity (q' + quantity)) ;;;
            add_movement
              {| mv_product_id := product_id; mv_warehouse_id := from_warehouse_id;
                 mv_movement_type := "out"; mv_quantity := quantity;
                 mv_reference_type := Some "transfer"; mv_reference_id := None;
                 mv_notes := Some ("Transfer to warehouse " ++ fmt to_warehouse_id)%string;
                 mv_created_at := now |} ;;;
            add_movement
              {| mv_product_id := product_id; mv_warehouse_id := to_warehouse_id;
                 mv_movement_type := "in"; mv_quantity := quantity;
                 mv_reference_type := Some "transfer"; mv_reference_id := None;
                 mv_notes := Some ("Transfer from warehouse " ++ fmt from_warehouse_id)%string;
                 mv_created_at := now |} ;;;
            commit now ;;;
            ret (Success 200 "Inventory transferred successfully")
      end
  | _, _, _, _ =>
      return_ (Failure 400
        "Product ID, source warehouse, destination warehouse, and quantity are required")
  end.

(** The request body of the PUT: the keys it carries among the updatable
    ones, and whether it carries any other key. *)
Record UpdateData := {
  upd_quantity : option Z;
  upd_reorder_level : option Z;
  upd_max_stock_level : option Z;
  upd_other_keys : bool
}.

(** [not data]: the body is missing or an empty object. *)
Definition empty_body (data : UpdateData) : bool :=
  match upd_quantity data, upd_reorder_level data, upd_max_stock_level data with
  | None, None, None => negb (upd_other_keys data)
  | _, _, _ => false
  end.

(** [for field in updatable_fields: if field in data: setattr(...)] *)
Definition set_if_present (id : Z) (v : option Z) (setter : Z -> Inventory -> Inventory)
  : M unit :=
  match v with
  | Some x => inv_set id (setter x)
  | None => ret tt
  end.

Definition update_inventory_item (now : Z) (inventory_id : Z) (data : UpdateData)
  : M Response :=
  inventory_item <-
    (fun s => match get_inventory_row (inventory (working s)) inventory_id with
              | Some r => (Val (inv_id r), s)
              | None => (Raise HTTPNotFound, s)
              end) ;;
  if empty_body data then return_ (Failure 400 "No data provided")
  else
    set_if_present inventory_item (upd_quantity data) inv_with_quantity ;;;
    set_if_present inventory_item (upd_reorder_level data) inv_with_reorder_level ;;;
    set_if_present inventory_item (upd_max_stock_level data) inv_with_max_stock_level ;;;
    commit now ;;;
    ret (Success 200 "Inventory item updated successfully").

(** The three endpoints as transitions of the database. *)
Definition adjust (now : Z) (data : AdjustData) (d : DB) : Response * DB :=
  run_view (adjust_inventory now data) d.

Definition transfer (now : Z) (data : TransferData) (d : DB) : Response * DB :=
  run_view (transfer_inventory now data) d.

Definition put_inventory (now : Z) (inventory_id : Z) (data : UpdateData) (d : DB)
  : Response * DB :=
  run_view (update_inventory_item now inventory_id data) d.

(** ** [routes/barcode.py] *)

(** [Product.query.filter_by(barcode=barcode).first()] *)
Definition find_product_by_barcode (rows : list Product) (barcode : string)
  : option Product :=
  find (fun p => match prod_barcode p with
                 | Some b => String.eqb b barcode
                 | None => false
                 end) rows.

Record ScanData := {
  scan_barcode : option string;
  scan_warehouse_id : option Z;
  scan_quantity : option Z
}.

Definition scan_receive (now : Z) (data : ScanData) : M Response :=
  match scan_barcode data, scan_warehouse_id data, scan_quantity data with
  | Some barcode, Some warehouse_id, Some quantity =>
      if quantity <=? 0 then
        return_ (Failure 400 "Quantity must be greater than 0")
      else
        product <- query (fun d => find_product_by_barcode (products d) barcode) ;;
        match product with
        | None => return_ (Failure 404 "Product not found")
        | Some product =>
            found <- Inventory_first (prod_id product) warehouse_id ;;
            inventory_item <-
              match found with
              | Some r => ret (inv_id r)
              | None => new_inventory now (prod_id product) warehouse_id 10 1000
              end ;;
            old_quantity <- inv_get inventory_item inv_quantity ;;
            inv_set inventory_item (inv_with_quantity (old_quantity + quantity)) ;;;
            inv_set inventory_item (inv_with_last_updated now) ;;;
            add_movement
              {| mv_product_id := prod_id product; mv_warehouse_id := warehouse_id;
                 mv_movement_type := "in"; mv_quantity := quantity;
                 mv_reference_type := Some "barcode_scan"; mv_reference_id := None;
                 mv_notes := Some ("Barcode scan receive: " ++ barcode)%string;
                 mv_created_at := now |} ;;;
            commit now ;;;
            ret (Success 200 "Inventory received successfully")
        end
  | _, _, _ =>
      return_ (Failure 400 "Barcode, warehouse_id, and quantity are required")
  end.

Definition scan_issue (now : Z) (data : ScanData) : M Response :=
  match scan_barcode data, scan_warehouse_id data, scan_quantity data with
  | Some barcode, Some warehouse_id, Some quantity =>
      if quantity <=? 0 then
        return_ (Failure 400 "Quantity must be greater than 0")
      else
        product <- query (fun d => find_product_by_barcode (products d) barcode) ;;
        match product with
        | None => return_ (Failure 404 "Product not found")
        | Some product =>
            found <- Inventory_first (prod_id product) warehouse_id ;;
            match found with
            | None =>
                return_ (Failure 404
                  "No inventory found for this product in the warehouse")
            | Some r =>
                if inv_quantity r <? quantity then
                  return_ (Failure 400
                    ("Insufficient stock. Available: " ++ fmt (inv_quantity r)
                     ++ ", Requested: " ++ fmt quantity)%string)
                else
                  let inventory_item := inv_id r in
                  old_quantity <- inv_get inventory_item inv_quantity ;;
                  inv_set inventory_item (inv_with_quantity (old_quantity - quantity)) ;;;
                  inv_set inventory_item (inv_with_last_updated now) ;;;
                  add_movement
                    {| mv_product_id := prod_id product;
                       mv_warehouse_id := warehouse_id;
                       mv_movement_type := "out"; mv_quantity := quantity;
                       mv_reference_type := Some "barcode_scan";
                       mv_reference_id := None;
                       mv_notes := Some ("Barcode scan issue: " ++ barcode)%string;
                       mv_created_at := now |} ;;;
                  commit now ;;;
                  ret (Success 200 "Inventory issued successfully")
            end
        end
  | _, _, _ =>
      return_ (Failure 400 "Barcode, warehouse_id, and quantity are required")
  end.

Record CountData := {
  cnt_barcode : option string;
  cnt_warehouse_id : option Z;
  cnt_counted_quantity : option Z
}.

Definition scan_count (now : Z) (data : CountData) : M Response :=
  match cnt_barcode data, cnt_warehouse_id data, cnt_counted_quantity data with
  | Some barcode, Some warehouse_id, Some counted_quantity =>
      if counted_quantity <? 0 then
        return_ (Failure 400 "Counted quantity cannot be negative")
      else
        product <- query (fun d => find_product_by_barcode (products d) barcode) ;;
        match product with
        | None => return_ (Failure 404 "Product not found")
        | Some product =>
            found <- Inventory_first (prod_id product) warehouse_id ;;
            inventory_item <-
              match found with
              | Some r => ret (inv_id r)
              | None => new_inventory now (prod_id product) warehouse_id 10 1000
              end ;;
            old_quantity <- inv_get inventory_item inv_quantity ;;
            let adjustment := counted_quantity - old_quantity in
            inv_set inventory_item (inv_with_quantity counted_quantity) ;;;
            inv_set inventory_item (inv_with_last_updated now) ;;;
            (if negb (adjustment =? 0) then
               add_movement
                 {| mv_product_id := prod_id product;
                    mv_warehouse_id := warehouse_id;
                    mv_movement_type := "adjustment";
                    mv_quantity := Z.abs adjustment;
                    mv_reference_type := Some "barcode_count";
                    mv_reference_id := None;
                    mv_notes := Some ("Stock count adjustment: " ++ barcode
                                      ++ ". Old: " ++ fmt old_quantity
                                      ++ ", New: " ++ fmt counted_quantity)%string;
                    mv_created_at := now |}
             else ret tt) ;;;
            commit now ;;;
            ret (Success 200 "Stock count completed successfully")
        end
  | _, _, _ =>
      return_ (Failure 400 "Barcode, warehouse_id, and counted_quantity are required")
  end.

Definition count (now : Z) (data : CountData) (d : DB) : Response * DB :=
  run_view (scan_count now data) d.

Definition issue (now : Z) (data : ScanData) (d : DB) : Response * DB :=
  run_view (scan_issue now data) d.

(** ** [routes/purchase_orders.py] *)

(** Truth value of [data.get(key)] for an integer field: absent, null and 0
    are false. *)
Definition truthy (v : option Z) : bool :=
  match v with
  | Some z => negb (z =? 0)
  | None => false
  end.

Definition get_purchase_order (rows : list PurchaseOrder) (id : Z) : option PurchaseOrder :=
  find (fun o => po_id o =? id) rows.

Definition get_purchase_order_item (rows : list PurchaseOrderItem) (id : Z)
  : option PurchaseOrderItem :=
  find (fun i => poi_id i =? id) rows.

Definition get_product (rows : list Product) (id : Z) : option Product :=
  find (fun p => prod_id p =? id) rows.

(** [purchase_order.items] *)
Definition items_of (d : DB) (po : Z) : list PurchaseOrderItem :=
  filter (fun i => poi_purchase_order_id i =? po) (purchase_order_items d).

(** [PurchaseOrder.query.get_or_404(po_id)] *)
Definition PurchaseOrder_get_or_404 (id : Z) : M Z :=
  fun s =>
    match get_purchase_order (purchase_orders (working s)) id with
    | Some o => (Val (po_id o), s)
    | None => (Raise HTTPNotFound, s)
    end.

Definition po_get {A : Type} (id : Z) (attr : PurchaseOrder -> A) : M A :=
  fun s =>
    match get_purchase_order (purchase_orders (working s)) id with
    | Some o => (Val (attr o), s)
    | None => (Raise HTTPNotFound, s)
    end.

Definition po_set (id : Z) (f : PurchaseOrder -> PurchaseOrder) : M unit :=
  update (fun d =>
    db_with_purchase_orders
      (map (fun o => if po_id o =? id then f o else o) (purchase_orders d)) d).

Definition poi_set (id : Z) (f : PurchaseOrderItem -> PurchaseOrderItem) : M unit :=
  update (fun d =>
    db_with_purchase_order_items
      (map (fun i => if poi_id i =? id then f i else i) (purchase_order_items d)) d).

(** [db.session.flush()]: the pending rows are sent to the database, which
    checks them, without publishing them. *)
Definition session_flush (now : Z) : M unit :=
  fun s =>
    let d := flush now s in
    if integrity_ok d then (Val tt, {| committed := committed s; working := d |})
    else (Raise DatabaseError, s).

Record ItemData := {
  item_product_id : option Z;
  item_quantity : option Z;
  item_unit_price : option Z
}.

Record CreateData := {
  crt_supplier_id : option Z;
  crt_items : list ItemData;
  crt_expected_delivery : option Z;
  crt_notes : option string
}.

(** [Product.query.get(id)].  The session looks the key up among the objects
    it holds and asks the database only when it holds none; it flushes what
    is pending before the SELECT (autoflush), and the database may refuse
    that.  The session holds loaded rows weakly: of the products it holds
    the one that the loop variable [product] still refers to, [held]. *)
Definition Product_query_get (now : Z) (held : option Z) (id : Z) : M (option Product) :=
  if match held with Some h => h =? id | None => false end
  then query (fun d => get_product (products d) id)
  else session_flush now ;;; query (fun d => get_product (products d) id).

(** The loop over [data['items']]; [total_amount] is its accumulator and
    [held] the product loaded by the previous iteration. *)
Fixpoint create_items (now purchase_order_id : Z) (items : list ItemData)
    (held : option Z) (total_amount : Z) : M Z :=
  match items with
  | [] => ret total_amount
  | item_data :: rest =>
      if negb (truthy (item_product_id item_data))
         || negb (truthy (item_quantity item_data))
         || negb (truthy (item_unit_price item_data))
      then
        return_ (Failure 400
          "Product ID, quantity, and unit price are required for all items")
      else
        let product_id := get_default (item_product_id item_data) 0 in
        let quantity := get_default (item_quantity item_data) 0 in
        let unit_price := get_default (item_unit_price item_data) 0 in
        product <- Product_query_get now held product_id ;;
        match product with
        | None =>
            return_ (Failure 404
              ("Product with ID " ++ fmt product_id ++ " not found")%string)
        | Some _ =>
            update (fun d =>
              db_with_purchase_order_items
                (purchase_order_items d ++
                 [ {| poi_id := next_id (map poi_id (purchase_order_items d));
                      poi_purchase_order_id := purchase_order_id;
                      poi_product_id := product_id;
                      poi_quantity := quantity;
                      poi_unit_price := unit_price;
                      poi_received_quantity := 0 |} ]) d) ;;;
            create_items now purchase_order_id rest (Some product_id)
              (total_amount + quantity * unit_price)
        end
  end.

(** [order_number] is the value produced by [generate_order_number()]. *)
Definition create_purchase_order (now : Z) (order_number : string) (data : CreateData)
  : M Response :=
  if negb (truthy (crt_supplier_id data))
     || match crt_items data with [] => true | _ => false end
  then return_ (Failure 400 "Supplier ID and items are required")
  else
    let supplier_id := get_default (crt_supplier_id data) 0 in
    supplier <- query (fun d => mem_Z supplier_id (suppliers d)) ;;
    if negb supplier then return_ (Failure 404 "Supplier not found")
    else
      purchase_order <-
        (fun s =>
           let d := working s in
           let id := next_id (map po_id (purchase_orders d)) in
           (Val id,
            {| committed := committed s;
               working :=
                 db_with_purchase_orders
                   (purchase_orders d ++
                    [ {| po_id := id; po_order_number := order_number;
                         po_supplier_id := supplier_id; po_status := "pending";
                         po_order_date := now;
                         po_expected_delivery := crt_expected_delivery data;
                         po_actual_delivery := None; po_total_amount := 0;
                         po_notes := crt_notes data |} ]) d |})) ;;
      session_flush now ;;;
      total_amount <- create_items now purchase_order (crt_items data) None 0 ;;
      po_set purchase_order (po_with_total_amount total_amount) ;;;
      commit now ;;;
      ret (Success 201 "Purchase order created successfully").

Definition approve_purchase_order (now : Z) (po : Z) : M Response :=
  purchase_order <- PurchaseOrder_get_or_404 po ;;
  status <- po_get purchase_order po_status ;;
  if negb (String.eqb status "pending") then
    return_ (Failure 409 "Can only approve pending purchase orders")
  else
    po_set purchase_order (po_with_status "approved") ;;;
    commit now ;;;
    ret (Success 200 "Purchase order approved successfully").

Record ReceivedItem := {
  rcv_po_item_id : option Z;
  rcv_received_quantity : option Z
}.

Record ReceiveData := {
  rcv_warehouse_id : option Z;
  rcv_received_items : list ReceivedItem
}.

(** The body of the loop over [data['received_items']].  Its queries flush
    what is pending first; no path leaves the handler between a write and
    the commit, and a refusal at either place is answered alike, so the
    check is left to the commit. *)
Definition receive_line (now po warehouse_id : Z) (order_number : string)
    (received_item : ReceivedItem) : M unit :=
  let po_item_id := rcv_po_item_id received_item in
  let received_quantity := get_default (rcv_received_quantity received_item) 0 in
  if negb (truthy po_item_id) || (received_quantity <=? 0) then ret tt
  else
    found <- query (fun d =>
               get_purchase_order_item (purchase_order_items d)
                 (get_default po_item_id 0)) ;;
    match found with
    | None => ret tt
    | Some po_item =>
        if negb (poi_purchase_order_id po_item =? po) then ret tt
        else
          poi_set (poi_id po_item)
            (poi_with_received_quantity
               (poi_received_quantity po_item + received_quantity)) ;;;
          row <- Inventory_first (poi_product_id po_item) warehouse_id ;;
          inventory_item <-
            match row with
            | Some r => ret (inv_id r)
            | None => new_inventory now (poi_product_id po_item) warehouse_id 10 1000
            end ;;
          q <- inv_get inventory_item inv_quantity ;;
          inv_set inventory_item (inv_with_quantity (q + received_quantity)) ;;;
          add_movement
            {| mv_product_id := poi_product_id po_item;
               mv_warehouse_id := warehouse_id;
               mv_movement_type := "in"; mv_quantity := received_quantity;
               mv_reference_type := Some "purchase_order";
               mv_reference_id := Some po;
               mv_notes := Some ("Received from PO " ++ order_number)%string;
               mv_created_at := now |}
    end.

Definition all_received (items : list PurchaseOrderItem) : bool :=
  forallb (fun item => poi_quantity item <=? poi_received_quantity item) items.

Definition receive_purchase_order (now : Z) (po : Z) (data : ReceiveData) : M Response :=
  purchase_order <- PurchaseOrder_get_or_404 po ;;
  status <- po_get purchase_order po_status ;;
  if negb (String.eqb status "approved" || String.eqb status "ordered") then
    return_ (Failure 409 "Can only receive from approved or ordered purchase orders")
  else if negb (truthy (rcv_warehouse_id data))
          || match rcv_received_items data with [] => true | _ => false end
  then return_ (Failure 400 "Warehouse ID and received items are required")
  else
    let warehouse_id := get_default (rcv_warehouse_id data) 0 in
    order_number <- po_get purchase_order po_order_number ;;
    for_each (rcv_received_items data)
      (receive_line now po warehouse_id order_number) ;;;
    items <- query (fun d => items_of d purchase_order) ;;
    (if all_received items then
       po_set purchase_order (po_with_status "received") ;;;
       po_set purchase_order (po_with_actual_delivery (Some now))
     else ret tt) ;;;
    commit now ;;;
    ret (Success 200 "Items received and inventory updated successfully").

Definition cancel_purchase_order (now : Z) (po : Z) : M Response :=
  purchase_order <- PurchaseOrder_get_or_404 po ;;
  status <- po_get purchase_order po_status ;;
  if String.eqb status "received" || String.eqb status "cancelled" then
    return_ (Failure 409 "Cannot cancel purchase order in current status")
  else
    po_set purchase_order (po_with_status "cancelled") ;;;
    commit now ;;;
    ret (Success 200 "Purchase order cancelled successfully").

Definition create (now : Z) (order_number : string) (data : CreateData) (d : DB)
  : Response * DB :=
  run_view (create_purchase_order now order_number data) d.

Definition approve (now po : Z) (d : DB) : Response * DB :=
  run_view (approve_purchase_order now po) d.

Definition receive (now po : Z) (data : ReceiveData) (d : DB) : Response * DB :=
  run_view (receive_purchase_order now po data) d.

Definition cancel (now po : Z) (d : DB) : Response * DB :=
  run_view (cancel_purchase_order now po) d.

(** ** [routes/reports.py]: inventory turnover *)

Definition seconds_per_day : Z := 86400.

(** The rows of [Product JOIN StockMovement JOIN Inventory] (both joins on
    the product id) that pass the two filters of the query. *)
Definition turnover_join (start_date : Z) (d : DB)
  : list (Product * StockMovement * Inventory) :=
  flat_map (fun p =>
    flat_map (fun m =>
      flat_map (fun i =>
        if (prod_id p =? mv_product_id m) && (prod_id p =? inv_product_id i)
           && (start_date <=? mv_created_at m)
           && String.eqb (mv_movement_type m) "out"
        then [(p, m, i)] else [])
        (inventory d))
      (stock_movements d))
    (products d).

Definition sum_Z (l : list Z) : Z := fold_right Z.add 0 l.

(** One row of the grouped query: [func.sum(StockMovement.quantity)] and
    [func.avg(Inventory.quantity)] over the joined rows of one product. *)
Record TurnoverGroup := {
  grp_product : Product;
  grp_total_movement : Z;
  grp_avg_inventory : Q
}.

Definition turnover_data (start_date : Z) (d : DB) : list TurnoverGroup :=
  flat_map (fun p =>
    let rows := filter (fun t => prod_id (fst (fst t)) =? prod_id p)
                  (turnover_join start_date d) in
    match rows with
    | [] => []
    | _ :: _ =>
        [ {| grp_product := p;
             grp_total_movement := sum_Z (map (fun t => mv_quantity (snd (fst t))) rows);
             grp_avg_inventory :=
               Qmake (sum_Z (map (fun t => inv_quantity (snd t)) rows))
                     (Pos.of_nat (List.length rows)) |} ]
    end)
    (products d).

(** [round(x, 2)] on a decimal: to the nearest hundredth, ties to even. *)
Definition round_half_even (x : Q) : Z :=
  let n := Qnum x in
  let d := Zpos (Qden x) in
  let q := n / d in
  let r := n mod d in
  if 2 * r <? d then q
  else if d <? 2 * r then q + 1
  else if Z.even q then q else q + 1.

Definition round2 (x : Q) : Q := Qmake (round_half_even (x * 100)) 100.

Record TurnoverRow := {
  row_product_id : Z;
  row_product_name : string;
  row_sku : string;
  row_total_movement : Z;
  row_avg_inventory : Q;
  row_turnover_rate : Q
}.

Definition turnover_row (g : TurnoverGroup) : TurnoverRow :=
  let turnover_rate :=
    if Qlt_le_dec 0 (grp_avg_inventory g)
    then (inject_Z (grp_total_movement g) / grp_avg_inventory g)%Q
    else 0%Q in
  {| row_product_id := prod_id (grp_product g);
     row_product_name := prod_name (grp_product g);
     row_sku := prod_sku (grp_product g);
     row_total_movement := grp_total_movement g;
     row_avg_inventory := grp_avg_inventory g;
     row_turnover_rate := round2 turnover_rate |}.

(** [results.sort(key=lambda x: x['turnover_rate'], reverse=True)]: a stable
    sort into descending order of the key. *)
Fixpoint insert_desc (x : TurnoverRow) (l : list TurnoverRow) : list TurnoverRow :=
  match l with
  | [] => [x]
  | y :: t =>
      if Qle_bool (row_turnover_rate y) (row_turnover_rate x) then x :: y :: t
      else y :: insert_desc x t
  end.

Definition sort_desc (l : list TurnoverRow) : list TurnoverRow :=
  fold_right insert_desc [] l.

Definition get_inventory_turnover (now days : Z) (d : DB) : list TurnoverRow :=
  let start_date := now - days * seconds_per_day in
  sort_desc (map turnover_row (turnover_data start_date d)).

(** ** [routes/inventory.py]: creating an inventory item *)

Record NewInventoryData := {
  ninv_product_id : option Z;
  ninv_warehouse_id : option Z;
  ninv_quantity : option Z;
  ninv_reorder_level : option Z;
  ninv_max_stock_level : option Z
}.

Definition create_inventory_item (now : Z) (data : NewInventoryData) : M Response :=
  if negb (truthy (ninv_product_id data)) || negb (truthy (ninv_warehouse_id data)) then
    return_ (Failure 400 "Product ID and Warehouse ID are required")
  else
    let product_id := get_default (ninv_product_id data) 0 in
    let warehouse_id := get_default (ninv_warehouse_id data) 0 in
    product <- query (fun d => find (fun p => prod_id p =? product_id) (products d)) ;;
    warehouse <- query (fun d => mem_Z warehouse_id (warehouses d)) ;;
    match product with
    | None => return_ (Failure 404 "Product not found")
    | Some _ =>
        if negb warehouse then return_ (Failure 404 "Warehouse not found")
        else
          existing <- Inventory_first product_id warehouse_id ;;
          match existing with
          | Some _ =>
              return_ (Failure 409
                "Inventory item already exists for this product-warehouse combination")
          | None =>
              update (fun d =>
                db_with_inventory
                  (inventory d ++
                   [ {| inv_id := next_id (map inv_id (inventory d));
                        inv_product_id := product_id;
                        inv_warehouse_id := warehouse_id;
                        inv_quantity := get_default (ninv_quantity data) 0;
                        inv_reorder_level := get_default (ninv_reorder_level data) 10;
                        inv_max_stock_level :=
                          get_default (ninv_max_stock_level data) 1000;
                        inv_last_updated := now |} ]) d) ;;;
              commit now ;;;
              ret (Success 201 "Inventory item created successfully")
          end
    end.

Definition post_inventory (now : Z) (data : NewInventoryData) (d : DB) : Response * DB :=
  run_view (create_inventory_item now data) d.

(** ** [routes/purchase_orders.py]: updating an order *)

(** The body of the PUT.  A key that is present carries its value;
    [expected_delivery] and [notes] may be sent as null. *)
Record OrderUpdate := {
  upo_status : option string;
  upo_expected_delivery : option (option Z);
  upo_notes : option (option string);
  upo_other_keys : bool
}.

Definition empty_update (data : OrderUpdate) : bool :=
  match upo_status data, upo_expected_delivery data, upo_notes data with
  | None, None, None => negb (upo_other_keys data)
  | _, _, _ => false
  end.

Definition po_with_expected_delivery (t : option Z) (o : PurchaseOrder) : PurchaseOrder :=
  {| po_id := po_id o; po_order_number := po_order_number o;
     po_supplier_id := po_supplier_id o; po_status := po_status o;
     po_order_date := po_order_date o;
     po_expected_delivery := t;
     po_actual_delivery := po_actual_delivery o;
     po_total_amount := po_total_amount o; po_notes := po_notes o |}.

Definition po_with_notes (n : option string) (o : PurchaseOrder) : PurchaseOrder :=
  {| po_id := po_id o; po_order_number := po_order_number o;
     po_supplier_id := po_supplier_id o; po_status := po_status o;
     po_order_date := po_order_date o;
     po_expected_delivery := po_expected_delivery o;
     po_actual_delivery := po_actual_delivery o;
     po_total_amount := po_total_amount o; po_notes := n |}.

Definition set_order_field {A : Type} (id : Z) (v : option A)
    (setter : A -> PurchaseOrder -> PurchaseOrder) : M unit :=
  match v with
  | Some x => po_set id (setter x)
  | None => ret tt
  end.

Definition update_purchase_order (now : Z) (po : Z) (data : OrderUpdate) : M Response :=
  purchase_order <- PurchaseOrder_get_or_404 po ;;
  if empty_update data then return_ (Failure 400 "No data provided")
  else
    status <- po_get purchase_order po_status ;;
    if negb (String.eqb status "pending" || String.eqb status "approved") then
      return_ (Failure 409 "Cannot update purchase order in current status")
    else
      set_order_field purchase_order (upo_status data) po_with_status ;;;
      set_order_field purchase_order (upo_expected_delivery data)
        po_with_expected_delivery ;;;
      set_order_field purchase_order (upo_notes data) po_with_notes ;;;
      commit now ;;;
      ret (Success 200 "Purchase order updated successfully").

Definition put_order (now po : Z) (data : OrderUpdate) (d : DB) : Response * DB :=
  run_view (update_purchase_order now po data) d.

(** ** Sample data *)

Definition db1 : DB :=
  {| products := [ {| prod_id := 1; prod_name := "Widget"; prod_sku := "W-1";
                      prod_barcode := Some "000001" |} ];
     warehouses := [1; 2]; suppliers := [1];
     inventory := [ {| inv_id := 1; inv_product_id := 1; inv_warehouse_id := 1;
                       inv_quantity := 10; inv_reorder_level := 10;
                       inv_max_stock_level := 1000; inv_last_updated := 0 |} ];
     stock_movements := []; purchase_orders := []; purchase_order_items := [] |}.

Definition mk_adjust (p w c : Z) (ty : string) : AdjustData :=
  {| adj_product_id := Some p; adj_warehouse_id := Some w;
     adj_quantity_change := Some c; adj_movement_type := Some ty;
     adj_reorder_level := None; adj_max_stock_level := None;
     adj_reference_type := None; adj_reference_id := None; adj_notes := None |}.

Definition mk_transfer (p a b n : Z) : TransferData :=
  {| tr_product_id := Some p; tr_from_warehouse_id := Some a;
     tr_to_warehouse_id := Some b; tr_quantity := Some n |}.

(** ** Facts about tables *)

Section TableFacts.

Lemma mem_Z_In (x : Z) (l : list Z) : mem_Z x l = true <-> In x l.
Proof.
  unfold mem_Z. rewrite existsb_exists. split.
  - intros [y [Hy Heq]]. apply Z.eqb_eq in Heq. now subst.
  - intros H. exists x. split; [exact H | apply Z.eqb_refl].
Qed.

Lemma unique_by_NoDup (l : list Z) : unique_by Z.eqb l = true <-> NoDup l.
Proof.
  induction l as [|x t IH]; simpl.
  - split; [constructor | reflexivity].
  - rewrite andb_true_iff, negb_true_iff, IH. fold (mem_Z x t). split.
    + intros [Hx Ht]. constructor; [|exact Ht].
      intro Hin. apply mem_Z_In in Hin. congruence.
    + intros H. inversion H as [|? ? Hx Ht]; subst. split; [|exact Ht].
      destruct (mem_Z x t) eqn:E; [|reflexivity].
      apply mem_Z_In in E. contradiction.
Qed.

Lemma find_map_stable (A : Type) (P : A -> bool) (g : A -> A) (l : list A) :
  (forall x, P (g x) = P x) ->
  find P (map g l) = option_map g (find P l).
Proof.
  intros Hg. induction l as [|x t IH]; simpl; [reflexivity|].
  rewrite Hg. destruct (P x); [reflexivity | exact IH].
Qed.

Lemma find_snoc (A : Type) (P : A -> bool) (l : list A) (y : A) :
  find P (l ++ [y]) =
  match find P l with
  | Some x => Some x
  | None => if P y then Some y else None
  end.
Proof.
  induction l as [|x t IH]; simpl; [reflexivity|].
  destruct (P x); [reflexivity | exact IH].
Qed.

Lemma find_none_iff (A : Type) (P : A -> bool) (l : list A) :
  find P l = None <-> forall x, In x l -> P x = false.
Proof.
  split.
  - intros H x Hx. exact (find_none P l H x Hx).
  - induction l as [|x t IH]; simpl; intros H; [reflexivity|].
    rewrite (H x (or_introl eq_refl)). apply IH. intros y Hy. apply H. now right.
Qed.

Lemma fold_max_ge (l : list Z) (x : Z) : In x l -> x <= fold_right Z.max 0 l.
Proof.
  induction l as [|y t IH]; simpl; [contradiction|].
  intros [->|Hin]; [lia|]. specialize (IH Hin). lia.
Qed.

Lemma next_id_fresh (l : list Z) : ~ In (next_id l) l.
Proof.
  intros Hin. apply fold_max_ge in Hin. unfold next_id in Hin. lia.
Qed.

Lemma NoDup_snoc (l : list Z) (x : Z) : NoDup l -> ~ In x l -> NoDup (l ++ [x]).
Proof.
  intros Hl Hx. induction l as [|y t IH]; simpl.
  - constructor; [intros []|constructor].
  - inversion Hl as [|? ? Hy Ht]; subst. constructor.
    + rewrite in_app_iff. intros [H|[H|[]]]; [contradiction|].
      subst. apply Hx. now left.
    + apply IH; [exact Ht|]. intros H. apply Hx. now right.
Qed.

(** Rows of one table with distinct primary keys are equal when their
    keys are. *)
Lemma NoDup_key_inj (A : Type) (key : A -> Z) (l : list A) (x y : A) :
  NoDup (map key l) -> In x l -> In y l -> key x = key y -> x = y.
Proof.
  induction l as [|z t IH]; simpl; [contradiction|].
  intros Hnd Hx Hy Hk. inversion Hnd as [|? ? Hz Ht]; subst.
  destruct Hx as [->|Hx], Hy as [->|Hy]; try reflexivity.
  - exfalso. apply Hz. rewrite Hk. now apply in_map.
  - exfalso. apply Hz. rewrite <- Hk. now apply in_map.
  - now apply IH.
Qed.

Lemma find_key_of_member (A : Type) (key : A -> Z) (l : list A) (x : A) :
  NoDup (map key l) -> In x l ->
  find (fun r => key r =? key x) l = Some x.
Proof.
  intros Hnd Hx.
  destruct (find (fun r => key r =? key x) l) as [y|] eqn:E.
  - apply find_some in E. destruct E as [Hy Hk]. apply Z.eqb_eq in Hk.
    f_equal. now apply (NoDup_key_inj A key l).
  - apply (find_none _ _ E) in Hx. rewrite Z.eqb_refl in Hx. discriminate.
Qed.

End TableFacts.

(** ** What an accepted state gives *)

Section Accepted.

Variable d : DB.

Lemma integrity_constraints : integrity_ok d = true -> constraints_ok d = true.
Proof. unfold integrity_ok. rewrite andb_true_iff. tauto. Qed.

Lemma integrity_columns : integrity_ok d = true -> columns_ok d = true.
Proof. unfold integrity_ok. rewrite andb_true_iff. tauto. Qed.

Lemma integrity_intro :
  constraints_ok d = true -> columns_ok d = true -> integrity_ok d = true.
Proof. unfold integrity_ok. intros -> ->. reflexivity. Qed.

End Accepted.

Lemma fits_integer_spec (z : Z) :
  fits_integer z = true <-> INT_MIN <= z <= INT_MAX.
Proof. unfold fits_integer. rewrite andb_true_iff, !Z.leb_le. tauto. Qed.

(** A value between two values that fit their column fits it. *)
Lemma fits_integer_between (lo z hi : Z) :
  fits_integer lo = true -> fits_integer hi = true -> lo <= z <= hi ->
  fits_integer z = true.
Proof. rewrite !fits_integer_spec. lia. Qed.

(** ** Facts about the inventory table and the session *)

Definition keeps_keys (f : Inventory -> Inventory) : Prop :=
  forall r, inv_id (f r) = inv_id r
            /\ inv_product_id (f r) = inv_product_id r
            /\ inv_warehouse_id (f r) = inv_warehouse_id r.

Definition on_row (id : Z) (f : Inventory -> Inventory) (r : Inventory) : Inventory :=
  if inv_id r =? id then f r else r.

(** Unfolds table access and table update down to explicit records. *)
Ltac normalize_db :=
  cbv beta iota delta
    [db_with_inventory db_with_stock_movements db_with_purchase_orders
     db_with_purchase_order_items products warehouses suppliers inventory
     stock_movements purchase_orders purchase_order_items working committed].

(** Closes [run = if integrity_ok result then .. else ..] once the handler
    has been run up to its commit: the state checked on the left is
    convertible to the one named on the right. *)
Ltac settle_commit :=
  match goal with
  | |- ?L = (if integrity_ok ?y then _ else _) =>
      match L with
      | context [integrity_ok ?x] =>
          let X := fresh "X" in
          set (X := x); change y with X;
          destruct (integrity_ok X); reflexivity
      end
  end.

Section InventoryFacts.

Lemma update_row_map id f rows : update_row id f rows = map (on_row id f) rows.
Proof. reflexivity. Qed.

Lemma on_row_same id f r : inv_id r = id -> on_row id f r = f r.
Proof. intros <-. unfold on_row. now rewrite Z.eqb_refl. Qed.

Lemma on_row_diff id f r : inv_id r <> id -> on_row id f r = r.
Proof.
  intros H. unfold on_row. destruct (inv_id r =? id) eqn:E; [|reflexivity].
  apply Z.eqb_eq in E. contradiction.
Qed.

Lemma keeps_keys_quantity q : keeps_keys (inv_with_quantity q).
Proof. intros r. now repeat split. Qed.

Lemma keeps_keys_last_updated t : keeps_keys (inv_with_last_updated t).
Proof. intros r. now repeat split. Qed.

Lemma keeps_keys_reorder_level v : keeps_keys (inv_with_reorder_level v).
Proof. intros r. now repeat split. Qed.

Lemma keeps_keys_max_stock_level v : keeps_keys (inv_with_max_stock_level v).
Proof. intros r. now repeat split. Qed.

Lemma keeps_keys_on_row id f : keeps_keys f -> keeps_keys (on_row id f).
Proof.
  intros Hf r. unfold on_row. destruct (inv_id r =? id); [apply Hf | now repeat split].
Qed.

Lemma keeps_keys_onupdate now stored : keeps_keys (onupdate now stored).
Proof.
  intros r. unfold onupdate.
  destruct (find _ stored) as [o|]; [|now repeat split].
  destruct (Inventory_eqb o r); now repeat split.
Qed.

Lemma keeps_keys_compose f g : keeps_keys f -> keeps_keys g -> keeps_keys (fun r => g (f r)).
Proof.
  intros Hf Hg r. destruct (Hg (f r)) as (-> & -> & ->). apply Hf.
Qed.

Lemma onupdate_quantity now stored r :
  inv_quantity (onupdate now stored r) = inv_quantity r.
Proof.
  unfold onupdate. destruct (find _ stored) as [o|]; [|reflexivity].
  now destruct (Inventory_eqb o r).
Qed.

Lemma map_inv_id_keeps g rows :
  keeps_keys g -> map inv_id (map g rows) = map inv_id rows.
Proof.
  intros Hg. rewrite map_map. apply map_ext. intros r. apply Hg.
Qed.

Lemma map_pair_keeps g rows :
  keeps_keys g ->
  map (fun r => (inv_product_id r, inv_warehouse_id r)) (map g rows)
  = map (fun r => (inv_product_id r, inv_warehouse_id r)) rows.
Proof.
  intros Hg. rewrite map_map. apply map_ext. intros r.
  destruct (Hg r) as (_ & -> & ->). reflexivity.
Qed.

Lemma same_pair_keeps g p w r : keeps_keys g -> same_pair p w (g r) = same_pair p w r.
Proof.
  intros Hg. unfold same_pair. destruct (Hg r) as (_ & -> & ->). reflexivity.
Qed.

Lemma find_inventory_map g rows p w :
  keeps_keys g ->
  find_inventory (map g rows) p w = option_map g (find_inventory rows p w).
Proof.
  intros Hg. unfold find_inventory. apply find_map_stable.
  intros r. now apply same_pair_keeps.
Qed.

Lemma get_inventory_row_map g rows id :
  keeps_keys g ->
  get_inventory_row (map g rows) id = option_map g (get_inventory_row rows id).
Proof.
  intros Hg. unfold get_inventory_row. apply find_map_stable.
  intros r. destruct (Hg r) as (-> & _). reflexivity.
Qed.

Lemma same_pair_true p w r :
  same_pair p w r = true <-> inv_product_id r = p /\ inv_warehouse_id r = w.
Proof.
  unfold same_pair. rewrite andb_true_iff, !Z.eqb_eq. tauto.
Qed.

Lemma find_inventory_some rows p w r :
  find_inventory rows p w = Some r ->
  In r rows /\ inv_product_id r = p /\ inv_warehouse_id r = w.
Proof.
  intros H. apply find_some in H. destruct H as [Hin Hp].
  apply same_pair_true in Hp. tauto.
Qed.

(** The row returned by a query on the pair is the row its key denotes. *)
Lemma get_row_of_found rows p w r :
  NoDup (map inv_id rows) ->
  find_inventory rows p w = Some r ->
  get_inventory_row rows (inv_id r) = Some r.
Proof.
  intros Hnd Hf. apply find_inventory_some in Hf. destruct Hf as [Hin _].
  unfold get_inventory_row. now apply (find_key_of_member Inventory inv_id).
Qed.

(** Rows of another pair are not touched by an update of the row found
    for this pair. *)
Lemma on_row_other rows p w r p' w' x id f :
  NoDup (map inv_id rows) ->
  find_inventory rows p w = Some r -> inv_id r = id ->
  find_inventory rows p' w' = Some x ->
  (p', w') <> (p, w) ->
  on_row id f x = x.
Proof.
  intros Hnd Hr Hid Hx Hne. apply find_inventory_some in Hr, Hx.
  destruct Hr as (Hir & Hp & Hw), Hx as (Hix & Hp' & Hw').
  unfold on_row. destruct (inv_id x =? id) eqn:E; [|reflexivity].
  apply Z.eqb_eq in E. exfalso. apply Hne.
  assert (x = r) by (apply (NoDup_key_inj Inventory inv_id rows); congruence).
  subst x. congruence.
Qed.

Lemma quantity_of_flush now s p w :
  quantity_of (flush now s) p w = quantity_of (working s) p w.
Proof.
  unfold quantity_of, flush. simpl.
  rewrite find_inventory_map by apply keeps_keys_onupdate.
  destruct (find_inventory (inventory (working s)) p w); simpl;
    [apply onupdate_quantity | reflexivity].
Qed.

Lemma stock_movements_flush now s :
  stock_movements (flush now s) = stock_movements (working s).
Proof. reflexivity. Qed.

End InventoryFacts.

(** *** Fetching or creating the row of a pair

    The idiom shared by the handlers that write stock: query the row of the
    pair and create it with quantity 0 when there is none. *)

Section GetOrCreate.

Variables (now p w rl ms : Z).

Definition created_row (rows : list Inventory) : Inventory :=
  {| inv_id := next_id (map inv_id rows); inv_product_id := p;
     inv_warehouse_id := w; inv_quantity := 0; inv_reorder_level := rl;
     inv_max_stock_level := ms; inv_last_updated := now |}.

(** The table seen by the handler after the idiom. *)
Definition rows_with_pair (rows : list Inventory) : list Inventory :=
  match find_inventory rows p w with
  | Some _ => rows
  | None => rows ++ [created_row rows]
  end.

Definition row_of_pair (rows : list Inventory) : Inventory :=
  match find_inventory rows p w with
  | Some r => r
  | None => created_row rows
  end.

Lemma get_or_create_run (A : Type) (k : Z -> M A) (s : Session) :
  (found <- Inventory_first p w ;;
   inventory_item <-
     match found with
     | Some r => ret (inv_id r)
     | None => new_inventory now p w rl ms
     end ;;
   k inventory_item) s
  = k (inv_id (row_of_pair (inventory (working s))))
      {| committed := committed s;
         working := db_with_inventory (rows_with_pair (inventory (working s)))
                      (working s) |}.
Proof.
  unfold bind, Inventory_first, query, row_of_pair, rows_with_pair. simpl.
  destruct (find_inventory (inventory (working s)) p w) as [r|] eqn:E; simpl.
  - destruct s as [c [? ? ? ? ? ? ?]]; reflexivity.
  - reflexivity.
Qed.

Lemma find_rows_with_pair rows :
  find_inventory (rows_with_pair rows) p w = Some (row_of_pair rows).
Proof.
  unfold rows_with_pair, row_of_pair.
  destruct (find_inventory rows p w) as [r|] eqn:E; [exact E|].
  unfold find_inventory in *. rewrite find_snoc, E.
  unfold same_pair. simpl. now rewrite !Z.eqb_refl.
Qed.

Lemma find_rows_with_pair_other rows p' w' :
  (p', w') <> (p, w) ->
  find_inventory (rows_with_pair rows) p' w' = find_inventory rows p' w'.
Proof.
  intros Hne. unfold rows_with_pair.
  destruct (find_inventory rows p w) as [r|] eqn:E; [reflexivity|].
  unfold find_inventory. rewrite find_snoc.
  destruct (find (same_pair p' w') rows); [reflexivity|].
  destruct (same_pair p' w' (created_row rows)) eqn:Hs; [|reflexivity].
  apply same_pair_true in Hs. simpl in Hs. destruct Hs; subst. now contradiction Hne.
Qed.

Lemma NoDup_rows_with_pair rows :
  NoDup (map inv_id rows) -> NoDup (map inv_id (rows_with_pair rows)).
Proof.
  intros Hnd. unfold rows_with_pair.
  destruct (find_inventory rows p w); [exact Hnd|].
  rewrite map_app. simpl. apply NoDup_snoc; [exact Hnd | apply next_id_fresh].
Qed.

Lemma get_row_of_pair rows :
  NoDup (map inv_id rows) ->
  get_inventory_row (rows_with_pair rows) (inv_id (row_of_pair rows))
  = Some (row_of_pair rows).
Proof.
  intros Hnd. apply get_row_of_found with (p := p) (w := w).
  - now apply NoDup_rows_with_pair.
  - apply find_rows_with_pair.
Qed.

Lemma quantity_row_of_pair d :
  inv_quantity (row_of_pair (inventory d)) = quantity_of d p w.
Proof.
  unfold row_of_pair, quantity_of.
  now destruct (find_inventory (inventory d) p w).
Qed.

End GetOrCreate.

Lemma Inventory_eqb_refl r : Inventory_eqb r r = true.
Proof. unfold Inventory_eqb. now rewrite !Z.eqb_refl. Qed.

(** A flush leaves an inventory table that no handler touched as it is. *)
Lemma flush_untouched_inventory now rows :
  NoDup (map inv_id rows) -> map (onupdate now rows) rows = rows.
Proof.
  intros Hnd. rewrite <- (map_id rows) at 3. apply map_ext_in. intros r Hr.
  unfold onupdate.
  rewrite (find_key_of_member Inventory inv_id rows r Hnd Hr).
  now rewrite Inventory_eqb_refl.
Qed.
(** ** Values and their columns *)

(** A row update that leaves a row that fits its columns fitting them. *)
Definition keeps_fit (f : Inventory -> Inventory) : Prop :=
  forall r, inventory_fits r = true -> inventory_fits (f r) = true.

Section ColumnFacts.

Lemma keeps_fit_quantity q : fits_integer q = true -> keeps_fit (inv_with_quantity q).
Proof.
  intros Hq r. unfold inventory_fits. cbn [inv_with_quantity inv_quantity
    inv_reorder_level inv_max_stock_level]. rewrite !andb_true_iff. tauto.
Qed.

Lemma keeps_fit_reorder_level v :
  fits_integer v = true -> keeps_fit (inv_with_reorder_level v).
Proof.
  intros Hv r. unfold inventory_fits. cbn [inv_with_reorder_level inv_quantity
    inv_reorder_level inv_max_stock_level]. rewrite !andb_true_iff. tauto.
Qed.

Lemma keeps_fit_max_stock_level v :
  fits_integer v = true -> keeps_fit (inv_with_max_stock_level v).
Proof.
  intros Hv r. unfold inventory_fits. cbn [inv_with_max_stock_level inv_quantity
    inv_reorder_level inv_max_stock_level]. rewrite !andb_true_iff. tauto.
Qed.

Lemma keeps_fit_last_updated t : keeps_fit (inv_with_last_updated t).
Proof. intros r H. exact H. Qed.

Lemma keeps_fit_onupdate now stored : keeps_fit (onupdate now stored).
Proof.
  intros r H. unfold onupdate.
  destruct (find _ stored) as [o|]; [destruct (Inventory_eqb o r)|]; exact H.
Qed.

Lemma keeps_fit_on_row id f : keeps_fit f -> keeps_fit (on_row id f).
Proof.
  intros Hf r H. unfold on_row. destruct (inv_id r =? id); [now apply Hf | exact H].
Qed.

Lemma keeps_fit_id : keeps_fit (fun r => r).
Proof. intros r H. exact H. Qed.

Lemma rows_fit_map g rows :
  keeps_fit g ->
  forallb inventory_fits rows = true -> forallb inventory_fits (map g rows) = true.
Proof.
  intros Hg. rewrite !forallb_forall. intros H r Hr.
  apply in_map_iff in Hr. destruct Hr as (x & <- & Hx). apply Hg. now apply H.
Qed.

(** The rows after the get-or-create idiom fit when the levels of a row that
    had to be created do. *)
Lemma rows_fit_with_pair now p w rl ms rows :
  forallb inventory_fits rows = true ->
  (find_inventory rows p w = None ->
   fits_integer rl = true /\ fits_integer ms = true) ->
  forallb inventory_fits (rows_with_pair now p w rl ms rows) = true.
Proof.
  intros Hrows Hnew. unfold rows_with_pair.
  destruct (find_inventory rows p w) as [r|]; [exact Hrows|].
  destruct (Hnew eq_refl) as [Hrl Hms].
  rewrite forallb_app, Hrows. cbn [forallb]. unfold inventory_fits.
  cbn [created_row inv_quantity inv_reorder_level inv_max_stock_level].
  now rewrite Hrl, Hms.
Qed.

Lemma fits_default_levels : fits_integer 10 = true /\ fits_integer 1000 = true.
Proof. split; reflexivity. Qed.

Variable d : DB.
Hypothesis Hok : integrity_ok d = true.

Lemma columns_inventory : forallb inventory_fits (inventory d) = true.
Proof.
  pose proof (integrity_columns d Hok) as H.
  unfold columns_ok in H. rewrite !andb_true_iff in H. tauto.
Qed.

Lemma columns_movements : forallb movement_fits (stock_movements d) = true.
Proof.
  pose proof (integrity_columns d Hok) as H.
  unfold columns_ok in H. rewrite !andb_true_iff in H. tauto.
Qed.

Lemma columns_items : forallb item_fits (purchase_order_items d) = true.
Proof.
  pose proof (integrity_columns d Hok) as H.
  unfold columns_ok in H. rewrite !andb_true_iff in H. tauto.
Qed.

Lemma found_row_fits p w r :
  find_inventory (inventory d) p w = Some r -> inventory_fits r = true.
Proof.
  intros H. unfold find_inventory in H. apply find_some in H.
  pose proof columns_inventory as Hall. rewrite forallb_forall in Hall.
  apply Hall. tauto.
Qed.

Lemma found_quantity_fits p w r :
  find_inventory (inventory d) p w = Some r -> fits_integer (inv_quantity r) = true.
Proof.
  intros H. apply found_row_fits in H. unfold inventory_fits in H.
  rewrite !andb_true_iff in H. tauto.
Qed.

(** The quantity on hand of a pair fits the column. *)
Lemma quantity_of_fits p w : fits_integer (quantity_of d p w) = true.
Proof.
  unfold quantity_of.
  destruct (find_inventory (inventory d) p w) as [r|] eqn:E;
    [now apply (found_quantity_fits p w) | reflexivity].
Qed.

End ColumnFacts.

(** ** The adjust endpoint *)

Section Adjust.

Variables (now : Z) (data : AdjustData) (p w c : Z) (ty : string).
Hypothesis Hp : adj_product_id data = Some p.
Hypothesis Hw : adj_warehouse_id data = Some w.
Hypothesis Hc : adj_quantity_change data = Some c.
Hypothesis Hty : adj_movement_type data = Some ty.

Let rl := get_default (adj_reorder_level data) 10.
Let ms := get_default (adj_max_stock_level data) 1000.

Definition adjust_movement : StockMovement :=
  {| mv_product_id := p; mv_warehouse_id := w; mv_movement_type := ty;
     mv_quantity := Z.abs c;
     mv_reference_type := adj_reference_type data;
     mv_reference_id := adj_reference_id data;
     mv_notes := adj_notes data; mv_created_at := now |}.

(** The working copy that an accepted adjustment hands to [commit]. *)
Definition adjust_working (d : DB) : DB :=
  let rows := rows_with_pair now p w rl ms (inventory d) in
  let id := inv_id (row_of_pair now p w rl ms (inventory d)) in
  db_with_stock_movements (stock_movements d ++ [adjust_movement])
    (db_with_inventory
       (update_row id (inv_with_last_updated now)
          (update_row id (inv_with_quantity (quantity_of d p w + c)) rows))
       d).

Definition adjust_result (d : DB) : DB :=
  flush now {| committed := d; working := adjust_working d |}.

Lemma adjust_run (d : DB) :
  NoDup (map inv_id (inventory d)) ->
  adjust now data d =
  if quantity_of d p w + c <? 0 then
    (Failure 400 "Insufficient stock for this operation", d)
  else if integrity_ok (adjust_result d) then
    (Success 200 "Inventory adjusted successfully", adjust_result d)
  else (Failure 500 (str DatabaseError), d).
Proof.
  intros Hnd. unfold adjust, run_view, adjust_inventory.
  rewrite Hp, Hw, Hc, Hty. rewrite get_or_create_run. simpl.
  fold rl ms. unfold bind at 1. unfold inv_get at 1. simpl.
  rewrite get_row_of_pair by exact Hnd.
  rewrite quantity_row_of_pair.
  destruct (quantity_of d p w + c <? 0); [reflexivity|].
  unfold bind, inv_set, update, add_movement, commit, ret. simpl.
  change (flush now _) with (adjust_result d).
  destruct (integrity_ok (adjust_result d)); reflexivity.
Qed.

Lemma adjust_result_quantity (d : DB) :
  quantity_of (adjust_result d) p w = quantity_of d p w + c.
Proof.
  unfold adjust_result. rewrite quantity_of_flush.
  unfold quantity_of at 1, adjust_working. simpl.
  rewrite !update_row_map.
  rewrite !find_inventory_map
    by (apply keeps_keys_on_row;
        first [apply keeps_keys_quantity | apply keeps_keys_last_updated]).
  rewrite find_rows_with_pair. simpl.
  unfold on_row. simpl. rewrite Z.eqb_refl. simpl. rewrite Z.eqb_refl. reflexivity.
Qed.

Lemma adjust_result_other (d : DB) (p' w' : Z) :
  NoDup (map inv_id (inventory d)) ->
  (p', w') <> (p, w) ->
  quantity_of (adjust_result d) p' w' = quantity_of d p' w'.
Proof.
  intros Hnd Hne. unfold adjust_result. rewrite quantity_of_flush.
  unfold quantity_of, adjust_working. simpl.
  rewrite !update_row_map.
  rewrite !find_inventory_map
    by (apply keeps_keys_on_row;
        first [apply keeps_keys_quantity | apply keeps_keys_last_updated]).
  rewrite find_rows_with_pair_other by exact Hne.
  destruct (find_inventory (inventory d) p' w') as [x|] eqn:Hx; [|reflexivity].
  simpl.
  assert (Hx' : find_inventory (rows_with_pair now p w rl ms (inventory d)) p' w' = Some x)
    by (rewrite find_rows_with_pair_other; assumption).
  pose proof (@NoDup_rows_with_pair now p w rl ms _ Hnd) as Hnd'.
  pose proof (find_rows_with_pair now p w rl ms (inventory d)) as Hr.
  rewrite (@on_row_other _ _ _ _ _ _ _ _ (inv_with_quantity (quantity_of d p w + c))
             Hnd' Hr eq_refl Hx' Hne).
  rewrite (@on_row_other _ _ _ _ _ _ _ _ (inv_with_last_updated now)
             Hnd' Hr eq_refl Hx' Hne).
  reflexivity.
Qed.

Lemma adjust_result_movements (d : DB) :
  stock_movements (adjust_result d) = stock_movements d ++ [adjust_movement].
Proof. reflexivity. Qed.

End Adjust.

(** ** Constraints that hold in every committed state *)

Lemma integrity_inventory_ids (d : DB) :
  integrity_ok d = true -> NoDup (map inv_id (inventory d)).
Proof.
  intros Hok. apply integrity_constraints in Hok. revert Hok.
  unfold constraints_ok, inventory_rows_ok. rewrite !andb_true_iff.
  intros [[[[[H _] _] _] _] _]. now apply unique_by_NoDup.
Qed.

(** ** The ledger under sequences of adjustments *)

Definition is_success (r : Response) : bool :=
  match r with Success _ _ => true | Failure _ _ => false end.

(** A call is on the pair when its body names that product and warehouse. *)
Definition targets (p w : Z) (data : AdjustData) : bool :=
  match adj_product_id data, adj_warehouse_id data with
  | Some p', Some w' => (p' =? p) && (w' =? w)
  | _, _ => false
  end.

(** Calls are pairs of the clock reading and the request body. *)
Fixpoint run_adjusts (calls : list (Z * AdjustData)) (d : DB) : DB :=
  match calls with
  | [] => d
  | (now, data) :: rest => run_adjusts rest (snd (adjust now data d))
  end.

(** The quantity change and movement type of the calls on the pair that
    were answered with success, in order. *)
Fixpoint accepted (p w : Z) (calls : list (Z * AdjustData)) (d : DB)
  : list (Z * string) :=
  match calls with
  | [] => []
  | (now, data) :: rest =>
      (if is_success (fst (adjust now data d)) && targets p w data
       then [(get_default (adj_quantity_change data) 0,
              get_default (adj_movement_type data) "")]
       else [])
      ++ accepted p w rest (snd (adjust now data d))
  end.

(** Sign of a movement by its type, as the data model words it: stock
    coming in counts positively, stock going out negatively. *)
Definition sign_by_type (ty : string) : Z :=
  if String.eqb ty "in" then 1
  else if String.eqb ty "out" then -1
  else 0.

Definition signed_sum (ms : list StockMovement) : Z :=
  sum_Z (map (fun m => sign_by_type (mv_movement_type m) * mv_quantity m) ms).

(** The movement type of a call agrees with the sign of its change. *)
Definition sign_consistent (call : Z * string) : Prop :=
  (0 < fst call -> snd call = "in") /\ (fst call < 0 -> snd call = "out").

(** A pair is fresh when it has neither a row nor a movement. *)
Definition fresh (d : DB) (p w : Z) : Prop :=
  find_inventory (inventory d) p w = None /\ movements_of d p w = [].

Section AdjustSequences.

Lemma sum_Z_app (a b : list Z) : sum_Z (a ++ b) = sum_Z a + sum_Z b.
Proof.
  induction a as [|x a IH]; [reflexivity|].
  change (x + sum_Z (a ++ b) = x + sum_Z a + sum_Z b). rewrite IH. lia.
Qed.

Lemma adjust_missing_field now data d :
  adj_product_id data = None \/ adj_warehouse_id data = None
  \/ adj_quantity_change data = None \/ adj_movement_type data = None ->
  adjust now data d =
  (Failure 400
     "Product ID, Warehouse ID, quantity change, and movement type are required", d).
Proof.
  intros H. unfold adjust, run_view, adjust_inventory.
  destruct (adj_product_id data), (adj_warehouse_id data),
    (adj_quantity_change data), (adj_movement_type data);
    try reflexivity; destruct H as [H|[H|[H|H]]]; discriminate.
Qed.

(** An adjustment either fails and leaves the database as it was, or
    succeeds with the result described by [adjust_result]. *)
Lemma adjust_cases now data d :
  integrity_ok d = true ->
  (exists st e, adjust now data d = (Failure st e, d))
  \/ (exists p w c ty,
        adj_product_id data = Some p /\ adj_warehouse_id data = Some w
        /\ adj_quantity_change data = Some c /\ adj_movement_type data = Some ty
        /\ adjust now data d
           = (Success 200 "Inventory adjusted successfully",
              adjust_result now data p w c ty d)
        /\ integrity_ok (adjust_result now data p w c ty d) = true).
Proof.
  intros Hok.
  destruct (adj_product_id data) as [p|] eqn:Hp;
    [|left; eexists; eexists; apply adjust_missing_field; auto].
  destruct (adj_warehouse_id data) as [w|] eqn:Hw;
    [|left; eexists; eexists; apply adjust_missing_field; auto].
  destruct (adj_quantity_change data) as [c|] eqn:Hc;
    [|left; eexists; eexists; apply adjust_missing_field; auto].
  destruct (adj_movement_type data) as [ty|] eqn:Hty;
    [|left; eexists; eexists; apply adjust_missing_field; auto].
  rewrite (adjust_run now data p w c ty Hp Hw Hc Hty d (integrity_inventory_ids d Hok)).
  destruct (quantity_of d p w + c <? 0); [left; eauto|].
  destruct (integrity_ok (adjust_result now data p w c ty d)) eqn:E; [|left; eauto].
  right. exists p, w, c, ty. repeat split; auto.
Qed.

Lemma movements_of_snoc d p w m l :
  stock_movements d = l ++ [m] ->
  filter (fun x => (mv_product_id x =? p) && (mv_warehouse_id x =? w)) (l ++ [m])
  = filter (fun x => (mv_product_id x =? p) && (mv_warehouse_id x =? w)) l
    ++ (if (mv_product_id m =? p) && (mv_warehouse_id m =? w) then [m] else []).
Proof.
  intros _. rewrite filter_app. simpl.
  now destruct ((mv_product_id m =? p) && (mv_warehouse_id m =? w)).
Qed.

Definition type_and_quantity (m : StockMovement) : string * Z :=
  (mv_movement_type m, mv_quantity m).

Definition expected_movement (call : Z * string) : string * Z :=
  (snd call, Z.abs (fst call)).

(** One step: quantity and movements of the pair after a call. *)
Lemma adjust_step now data d p w :
  integrity_ok d = true ->
  let r := adjust now data d in
  let acc := accepted p w [(now, data)] d in
  integrity_ok (snd r) = true
  /\ quantity_of (snd r) p w = quantity_of d p w + sum_Z (map fst acc)
  /\ map type_and_quantity (movements_of (snd r) p w)
     = map type_and_quantity (movements_of d p w) ++ map expected_movement acc.
Proof.
  intros Hok. simpl. rewrite app_nil_r.
  destruct (adjust_cases now data d Hok) as
    [(st & e & ->) | (p' & w' & c & ty & Hp & Hw & Hc & Hty & -> & Hok')].
  - simpl. rewrite app_nil_r. repeat split; [exact Hok | lia].
  - simpl. split; [exact Hok'|].
    unfold targets. rewrite Hp, Hw, Hc, Hty. simpl.
    unfold movements_of. rewrite adjust_result_movements, filter_app. simpl.
    destruct ((p' =? p) && (w' =? w)) eqn:E.
    + apply andb_true_iff in E. destruct E as [E1 E2].
      apply Z.eqb_eq in E1, E2. subst p' w'.
      rewrite (adjust_result_quantity now data p w c ty d). simpl.
      rewrite map_app. split; [lia | reflexivity].
    + rewrite (@adjust_result_other now data p' w' c ty d p w
                 (integrity_inventory_ids d Hok)).
      * simpl. rewrite !app_nil_r. split; [lia | reflexivity].
      * intros Heq. inversion Heq; subst. now rewrite !Z.eqb_refl in E.
Qed.

Lemma run_adjusts_ledger calls : forall d p w,
  integrity_ok d = true ->
  quantity_of (run_adjusts calls d) p w
  = quantity_of d p w + sum_Z (map fst (accepted p w calls d))
  /\ map type_and_quantity (movements_of (run_adjusts calls d) p w)
     = map type_and_quantity (movements_of d p w)
       ++ map expected_movement (accepted p w calls d).
Proof.
  induction calls as [|[now data] rest IH]; intros d p w Hok.
  - simpl. rewrite app_nil_r. split; [lia | reflexivity].
  - destruct (adjust_step now data d p w Hok) as (Hok' & Hq & Hm).
    simpl in Hq, Hm. rewrite app_nil_r in Hq, Hm.
    destruct (IH (snd (adjust now data d)) p w Hok') as [IHq IHm].
    simpl. rewrite IHq, IHm, Hq, Hm. rewrite !map_app, sum_Z_app.
    split; [lia | now rewrite app_assoc].
Qed.

Lemma signed_sum_consistent (acc : list (Z * string)) (ms : list StockMovement) :
  Forall sign_consistent acc ->
  map type_and_quantity ms = map expected_movement acc ->
  signed_sum ms = sum_Z (map fst acc).
Proof.
  revert ms. induction acc as [|[c ty] acc IH]; intros ms Hc Hm.
  - destruct ms; [reflexivity | discriminate].
  - destruct ms as [|m ms]; [discriminate|].
    simpl in Hm. unfold type_and_quantity at 1, expected_movement at 1 in Hm.
    simpl in Hm. inversion Hm as [[Hty Hq Hrest]].
    inversion Hc as [|? ? [Hpos Hneg] Hc']; subst. simpl in Hpos, Hneg.
    unfold signed_sum in *. simpl.
    change (sign_by_type (mv_movement_type m) * mv_quantity m
            + sum_Z (map (fun m0 => sign_by_type (mv_movement_type m0) * mv_quantity m0) ms)
            = c + sum_Z (map fst acc)).
    rewrite (IH ms Hc' Hrest), Hq. f_equal.
    destruct (Z.lt_trichotomy c 0) as [Hlt|[->|Hgt]].
    + rewrite (Hneg Hlt). change (sign_by_type "out") with (-1). lia.
    + change (Z.abs 0) with 0. lia.
    + rewrite (Hpos Hgt). change (sign_by_type "in") with 1. lia.
Qed.

End AdjustSequences.

(** ** Constraints are kept by the writes of the stock handlers *)

Section IntegrityFacts.

Lemma unique_by_snoc (A : Type) (eqb : A -> A -> bool) (l : list A) (x : A) :
  unique_by eqb (l ++ [x])
  = unique_by eqb l && negb (existsb (fun y => eqb y x) l).
Proof.
  induction l as [|y t IH]; simpl; [reflexivity|].
  rewrite IH, existsb_app. simpl. rewrite orb_false_r.
  rewrite !negb_orb.
  destruct (existsb (eqb y) t), (eqb y x), (unique_by eqb t),
    (existsb (fun z => eqb z x) t); reflexivity.
Qed.

Variables (product_ids warehouse_ids : list Z).

Lemma inventory_rows_ok_map g rows :
  keeps_keys g ->
  inventory_rows_ok product_ids warehouse_ids (map g rows)
  = inventory_rows_ok product_ids warehouse_ids rows.
Proof.
  intros Hg. unfold inventory_rows_ok.
  rewrite map_inv_id_keeps, map_pair_keeps by exact Hg.
  f_equal. induction rows as [|r t IH]; simpl; [reflexivity|].
  rewrite IH. destruct (Hg r) as (_ & -> & ->). reflexivity.
Qed.

Lemma inventory_rows_ok_with_pair now p w rl ms rows :
  inventory_rows_ok product_ids warehouse_ids rows = true ->
  In p product_ids -> In w warehouse_ids ->
  inventory_rows_ok product_ids warehouse_ids (rows_with_pair now p w rl ms rows)
  = true.
Proof.
  intros Hok Hp Hw. unfold rows_with_pair.
  destruct (find_inventory rows p w) eqn:E; [exact Hok|].
  unfold inventory_rows_ok in *. rewrite !andb_true_iff in Hok.
  destruct Hok as [[Hid Hpair] Hfk].
  rewrite !map_app, forallb_app. cbn [map]. rewrite !unique_by_snoc. simpl.
  rewrite Hid, Hpair, Hfk. simpl.
  apply (proj2 (mem_Z_In _ _)) in Hp, Hw. rewrite Hp, Hw. simpl.
  rewrite andb_true_r.
  assert (H1 : existsb (fun y => y =? next_id (map inv_id rows)) (map inv_id rows) = false).
  { destruct (existsb _ _) eqn:Ex; [|reflexivity].
    apply existsb_exists in Ex. destruct Ex as [y [Hy Heq]].
    apply Z.eqb_eq in Heq. subst y. now apply next_id_fresh in Hy. }
  rewrite H1. clear H1. simpl.
  match goal with
  | |- negb (existsb ?f ?l) = true => destruct (existsb f l) eqn:Ex; [|reflexivity]
  end.
  apply existsb_exists in Ex. destruct Ex as [y [Hy Heq]].
  apply in_map_iff in Hy. destruct Hy as [r [<- Hr]].
  unfold find_inventory in E. apply (find_none _ _ E) in Hr.
  unfold pair_eqb in Heq. simpl in Heq. unfold same_pair in Hr. congruence.
Qed.

Lemma movement_rows_ok_snoc rows m :
  movement_rows_ok product_ids warehouse_ids (rows ++ [m])
  = movement_rows_ok product_ids warehouse_ids rows
    && (mem_Z (mv_product_id m) product_ids && mem_Z (mv_warehouse_id m) warehouse_ids).
Proof.
  unfold movement_rows_ok. rewrite forallb_app. simpl. now rewrite andb_true_r.
Qed.

(** Every row of a consistent inventory table names a known product and a
    known warehouse. *)
Lemma inventory_row_fk rows r :
  inventory_rows_ok product_ids warehouse_ids rows = true ->
  In r rows ->
  In (inv_product_id r) product_ids /\ In (inv_warehouse_id r) warehouse_ids.
Proof.
  unfold inventory_rows_ok. rewrite !andb_true_iff. intros [_ Hfk] Hr.
  rewrite forallb_forall in Hfk. specialize (Hfk r Hr).
  apply andb_true_iff in Hfk. now rewrite <- !mem_Z_In.
Qed.

End IntegrityFacts.

Section IntegrityOfDatabase.

Variable d : DB.
Hypothesis Hok : integrity_ok d = true.

Lemma integrity_inventory :
  inventory_rows_ok (map prod_id (products d)) (warehouses d) (inventory d) = true.
Proof.
  pose proof (integrity_constraints d Hok) as H.
  unfold constraints_ok in H. rewrite !andb_true_iff in H. tauto.
Qed.

Lemma integrity_movements :
  movement_rows_ok (map prod_id (products d)) (warehouses d) (stock_movements d) = true.
Proof.
  pose proof (integrity_constraints d Hok) as H.
  unfold constraints_ok in H. rewrite !andb_true_iff in H. tauto.
Qed.

Lemma integrity_orders : order_rows_ok (suppliers d) (purchase_orders d) = true.
Proof.
  pose proof (integrity_constraints d Hok) as H.
  unfold constraints_ok in H. rewrite !andb_true_iff in H. tauto.
Qed.

Lemma integrity_items :
  item_rows_ok (map po_id (purchase_orders d)) (map prod_id (products d))
    (purchase_order_items d) = true.
Proof.
  pose proof (integrity_constraints d Hok) as H.
  unfold constraints_ok in H. rewrite !andb_true_iff in H. tauto.
Qed.

End IntegrityOfDatabase.

(** ** The transfer endpoint *)

Section Transfer.

Variables (now : Z) (data : TransferData) (p a b n : Z).
Hypothesis Hp : tr_product_id data = Some p.
Hypothesis Ha : tr_from_warehouse_id data = Some a.
Hypothesis Hb : tr_to_warehouse_id data = Some b.
Hypothesis Hn : tr_quantity data = Some n.

Definition transfer_out : StockMovement :=
  {| mv_product_id := p; mv_warehouse_id := a;
     mv_movement_type := "out"; mv_quantity := n;
     mv_reference_type := Some "transfer"; mv_reference_id := None;
     mv_notes := Some ("Transfer to warehouse " ++ fmt b)%string;
     mv_created_at := now |}.

Definition transfer_in : StockMovement :=
  {| mv_product_id := p; mv_warehouse_id := b;
     mv_movement_type := "in"; mv_quantity := n;
     mv_reference_type := Some "transfer"; mv_reference_id := None;
     mv_notes := Some ("Transfer from warehouse " ++ fmt a)%string;
     mv_created_at := now |}.

(** The working copy handed to [commit]; [src] is the source row. *)
Definition transfer_working (d : DB) (src : Inventory) : DB :=
  let rows := rows_with_pair now p b 10 1000 (inventory d) in
  let dst := row_of_pair now p b 10 1000 (inventory d) in
  let debit := inv_with_quantity (inv_quantity src - n) in
  let q' := inv_quantity (on_row (inv_id src) debit dst) in
  db_with_stock_movements ((stock_movements d ++ [transfer_out]) ++ [transfer_in])
    (db_with_inventory
       (update_row (inv_id dst) (inv_with_quantity (q' + n))
          (update_row (inv_id src) debit rows))
       d).

Definition transfer_result (d : DB) (src : Inventory) : DB :=
  flush now {| committed := d; working := transfer_working d src |}.

Lemma in_rows_with_pair rows r :
  In r rows -> In r (rows_with_pair now p b 10 1000 rows).
Proof.
  intros H. unfold rows_with_pair.
  destruct (find_inventory rows p b); [exact H | apply in_or_app; now left].
Qed.

Lemma transfer_run (d : DB) :
  NoDup (map inv_id (inventory d)) ->
  transfer now data d =
  match find_inventory (inventory d) p a with
  | None => (Failure 400 "Insufficient stock in source warehouse", d)
  | Some src =>
      if inv_quantity src <? n then
        (Failure 400 "Insufficient stock in source warehouse", d)
      else if integrity_ok (transfer_result d src) then
        (Success 200 "Inventory transferred successfully", transfer_result d src)
      else (Failure 500 (str DatabaseError), d)
  end.
Proof.
  intros Hnd. unfold transfer, run_view, transfer_inventory.
  rewrite Hp, Ha, Hb, Hn.
  unfold bind at 1. unfold Inventory_first at 1, query at 1. simpl.
  destruct (find_inventory (inventory d) p a) as [src|] eqn:Hsrc; [|reflexivity].
  destruct (inv_quantity src <? n); [reflexivity|].
  rewrite get_or_create_run. simpl.
  unfold bind at 1. unfold inv_get at 1. simpl.
  assert (Hget : get_inventory_row (rows_with_pair now p b 10 1000 (inventory d))
                   (inv_id src) = Some src).
  { apply (find_key_of_member Inventory inv_id).
    - now apply NoDup_rows_with_pair.
    - apply in_rows_with_pair. now apply find_inventory_some in Hsrc. }
  rewrite Hget.
  unfold bind at 1. unfold inv_set at 1, update at 1. simpl.
  unfold bind at 1. unfold inv_get at 1. simpl.
  rewrite update_row_map, get_inventory_row_map
    by (apply keeps_keys_on_row, keeps_keys_quantity).
  rewrite get_row_of_pair by exact Hnd. simpl.
  unfold bind, inv_set, update, add_movement, commit, ret. simpl.
  change (flush now _) with (transfer_result d src).
  destruct (integrity_ok (transfer_result d src)); reflexivity.
Qed.

Section Accepted.

Variables (d : DB) (src : Inventory).
Hypothesis Hok : integrity_ok d = true.
Hypothesis Hsrc : find_inventory (inventory d) p a = Some src.

Let dst := row_of_pair now p b 10 1000 (inventory d).
Let rows1 := rows_with_pair now p b 10 1000 (inventory d).

Lemma transfer_rows_distinct : a <> b -> inv_id src <> inv_id dst.
Proof.
  intros Hab Heq.
  pose proof (find_rows_with_pair now p b 10 1000 (inventory d)) as Hd.
  apply find_inventory_some in Hd. destruct Hd as (Hdin & _ & Hdw).
  pose proof (find_inventory_some _ _ _ _ Hsrc) as (Hsin & _ & Hsw).
  assert (src = dst).
  { apply (NoDup_key_inj Inventory inv_id rows1).
    - apply NoDup_rows_with_pair. now apply integrity_inventory_ids.
    - now apply in_rows_with_pair.
    - exact Hdin.
    - exact Heq. }
  apply Hab. fold dst in Hdw. congruence.
Qed.

Lemma transfer_result_source :
  a <> b -> quantity_of (transfer_result d src) p a = inv_quantity src - n.
Proof.
  intros Hab. pose proof (transfer_rows_distinct Hab) as Hne.
  unfold transfer_result. rewrite quantity_of_flush.
  unfold quantity_of, transfer_working. simpl. rewrite !update_row_map.
  rewrite !find_inventory_map
    by (apply keeps_keys_on_row, keeps_keys_quantity).
  rewrite find_rows_with_pair_other by (intros H; inversion H; contradiction).
  rewrite Hsrc. simpl. fold dst.
  rewrite (on_row_same (inv_id src) _ src eq_refl).
  rewrite on_row_diff by exact Hne. reflexivity.
Qed.

Lemma transfer_result_destination :
  a <> b ->
  quantity_of (transfer_result d src) p b = quantity_of d p b + n.
Proof.
  intros Hab. pose proof (transfer_rows_distinct Hab) as Hne.
  unfold transfer_result. rewrite quantity_of_flush.
  unfold quantity_of at 1, transfer_working. simpl. rewrite !update_row_map.
  rewrite !find_inventory_map
    by (apply keeps_keys_on_row, keeps_keys_quantity).
  rewrite find_rows_with_pair. simpl. fold dst.
  rewrite !(on_row_diff (inv_id src) _ dst) by congruence.
  rewrite (on_row_same (inv_id dst) _ dst eq_refl). simpl.
  unfold dst. now rewrite quantity_row_of_pair.
Qed.

Lemma transfer_result_movements :
  stock_movements (transfer_result d src)
  = stock_movements d ++ [transfer_out; transfer_in].
Proof.
  unfold transfer_result, transfer_working. simpl. now rewrite <- app_assoc.
Qed.

Lemma transfer_result_constraints :
  In b (warehouses d) -> constraints_ok (transfer_result d src) = true.
Proof.
  intros Hb'.
  pose proof (integrity_inventory d Hok) as Hinv.
  pose proof (find_inventory_some _ _ _ _ Hsrc) as (Hsin & Hsp & Hsw).
  destruct (inventory_row_fk _ _ _ _ Hinv Hsin) as [Hpin Hain].
  rewrite Hsp in Hpin. rewrite Hsw in Hain.
  unfold constraints_ok, transfer_result, transfer_working. simpl.
  rewrite !update_row_map.
  rewrite !inventory_rows_ok_map
    by first [apply keeps_keys_onupdate
             | apply keeps_keys_on_row, keeps_keys_quantity].
  rewrite inventory_rows_ok_with_pair by assumption.
  rewrite !movement_rows_ok_snoc. simpl.
  rewrite (integrity_movements d Hok), (integrity_orders d Hok),
    (integrity_items d Hok).
  rewrite (proj2 (mem_Z_In _ _) Hpin), (proj2 (mem_Z_In _ _) Hain),
    (proj2 (mem_Z_In _ _) Hb').
  reflexivity.
Qed.

Lemma transfer_result_columns :
  a <> b ->
  fits_integer n = true ->
  fits_integer (inv_quantity src - n) = true ->
  fits_integer (quantity_of d p b + n) = true ->
  columns_ok (transfer_result d src) = true.
Proof.
  intros Hab Hn' Hsub Hadd. pose proof (transfer_rows_distinct Hab) as Hne.
  unfold columns_ok, transfer_result, transfer_working.
  cbn [flush inventory stock_movements purchase_order_items working committed
       db_with_inventory db_with_stock_movements].
  rewrite (columns_items d Hok), andb_true_r.
  apply andb_true_iff. split.
  - rewrite !update_row_map. fold dst.
    rewrite (on_row_diff (inv_id src) _ dst) by congruence.
    unfold dst at 2. rewrite quantity_row_of_pair.
    apply rows_fit_map; [apply keeps_fit_onupdate|].
    apply rows_fit_map; [now apply keeps_fit_on_row, keeps_fit_quantity|].
    apply rows_fit_map; [now apply keeps_fit_on_row, keeps_fit_quantity|].
    apply rows_fit_with_pair; [apply (columns_inventory d Hok)|].
    intros _. apply fits_default_levels.
  - rewrite !forallb_app, (columns_movements d Hok).
    unfold movement_fits, transfer_out, transfer_in. cbn [forallb mv_quantity mv_reference_id].
    now rewrite Hn'.
Qed.

(** The commit of a transfer between two warehouses succeeds when the
    destination warehouse exists and the quantities written fit their
    column. *)
Lemma transfer_result_integrity :
  In b (warehouses d) ->
  a <> b ->
  fits_integer n = true ->
  fits_integer (inv_quantity src - n) = true ->
  fits_integer (quantity_of d p b + n) = true ->
  integrity_ok (transfer_result d src) = true.
Proof.
  intros Hb' Hab Hn' Hsub Hadd. apply integrity_intro.
  - now apply transfer_result_constraints.
  - now apply transfer_result_columns.
Qed.

End Accepted.

End Transfer.

(** ** Writing the stock of one pair

    The shape shared by the committed results of the handlers that set the
    quantity of one (product, warehouse) pair and append movements of that
    pair. *)

Definition stock_write (now p w rl ms q : Z) (mvs : list StockMovement) (d : DB) : DB :=
  let rows := rows_with_pair now p w rl ms (inventory d) in
  let id := inv_id (row_of_pair now p w rl ms (inventory d)) in
  flush now
    {| committed := d;
       working :=
         db_with_stock_movements (stock_movements d ++ mvs)
           (db_with_inventory
              (update_row id (inv_with_last_updated now)
                 (update_row id (inv_with_quantity q) rows))
              d) |}.

Section StockWrite.

Variables (now p w rl ms q : Z) (mvs : list StockMovement) (d : DB).

Lemma stock_write_quantity : quantity_of (stock_write now p w rl ms q mvs d) p w = q.
Proof.
  unfold stock_write. rewrite quantity_of_flush.
  unfold quantity_of. simpl. rewrite !update_row_map.
  rewrite !find_inventory_map
    by (apply keeps_keys_on_row;
        first [apply keeps_keys_quantity | apply keeps_keys_last_updated]).
  rewrite find_rows_with_pair. simpl.
  rewrite (on_row_same _ _ _ eq_refl). simpl.
  now rewrite on_row_same by reflexivity.
Qed.

Lemma stock_write_other p' w' :
  NoDup (map inv_id (inventory d)) ->
  (p', w') <> (p, w) ->
  quantity_of (stock_write now p w rl ms q mvs d) p' w' = quantity_of d p' w'.
Proof.
  intros Hnd Hne. unfold stock_write. rewrite quantity_of_flush.
  unfold quantity_of. simpl. rewrite !update_row_map.
  rewrite !find_inventory_map
    by (apply keeps_keys_on_row;
        first [apply keeps_keys_quantity | apply keeps_keys_last_updated]).
  rewrite find_rows_with_pair_other by exact Hne.
  destruct (find_inventory (inventory d) p' w') as [x|] eqn:Hx; [|reflexivity].
  simpl.
  assert (Hx' : find_inventory (rows_with_pair now p w rl ms (inventory d)) p' w' = Some x)
    by (rewrite find_rows_with_pair_other; assumption).
  pose proof (@NoDup_rows_with_pair now p w rl ms _ Hnd) as Hnd'.
  pose proof (find_rows_with_pair now p w rl ms (inventory d)) as Hr.
  rewrite (@on_row_other _ _ _ _ _ _ _ _ (inv_with_quantity q) Hnd' Hr eq_refl Hx' Hne).
  rewrite (@on_row_other _ _ _ _ _ _ _ _ (inv_with_last_updated now)
             Hnd' Hr eq_refl Hx' Hne).
  reflexivity.
Qed.

Lemma stock_write_movements :
  stock_movements (stock_write now p w rl ms q mvs d) = stock_movements d ++ mvs.
Proof. reflexivity. Qed.

Lemma stock_write_constraints :
  integrity_ok d = true ->
  In p (map prod_id (products d)) -> In w (warehouses d) ->
  Forall (fun m => mv_product_id m = p /\ mv_warehouse_id m = w) mvs ->
  constraints_ok (stock_write now p w rl ms q mvs d) = true.
Proof.
  intros Hok Hp Hw Hm. unfold constraints_ok, stock_write. simpl.
  rewrite !update_row_map.
  rewrite !inventory_rows_ok_map
    by first [apply keeps_keys_onupdate
             | apply keeps_keys_on_row;
               first [apply keeps_keys_quantity | apply keeps_keys_last_updated]].
  rewrite inventory_rows_ok_with_pair
    by (try assumption; now apply integrity_inventory).
  rewrite (integrity_orders d Hok), (integrity_items d Hok).
  unfold movement_rows_ok. rewrite forallb_app.
  fold (movement_rows_ok (map prod_id (products d)) (warehouses d) (stock_movements d)).
  rewrite (integrity_movements d Hok). simpl. rewrite !andb_true_r.
  apply forallb_forall. intros m Hin.
  rewrite Forall_forall in Hm. destruct (Hm m Hin) as [-> ->].
  now rewrite (proj2 (mem_Z_In _ _) Hp), (proj2 (mem_Z_In _ _) Hw).
Qed.

Lemma stock_write_columns :
  integrity_ok d = true ->
  fits_integer q = true ->
  forallb movement_fits mvs = true ->
  (find_inventory (inventory d) p w = None ->
   fits_integer rl = true /\ fits_integer ms = true) ->
  columns_ok (stock_write now p w rl ms q mvs d) = true.
Proof.
  intros Hok Hq Hm Hnew. unfold columns_ok, stock_write.
  cbn [flush inventory stock_movements purchase_order_items working committed
       db_with_inventory db_with_stock_movements].
  rewrite (columns_items d Hok), forallb_app, (columns_movements d Hok), Hm.
  rewrite !andb_true_r, !update_row_map.
  apply rows_fit_map; [apply keeps_fit_onupdate|].
  apply rows_fit_map; [apply keeps_fit_on_row, keeps_fit_last_updated|].
  apply rows_fit_map; [now apply keeps_fit_on_row, keeps_fit_quantity|].
  apply rows_fit_with_pair; [apply (columns_inventory d Hok) | exact Hnew].
Qed.

(** The commit of a stock write succeeds when product and warehouse exist
    and what is written fits its column. *)
Lemma stock_write_integrity :
  integrity_ok d = true ->
  In p (map prod_id (products d)) -> In w (warehouses d) ->
  Forall (fun m => mv_product_id m = p /\ mv_warehouse_id m = w) mvs ->
  fits_integer q = true ->
  forallb movement_fits mvs = true ->
  (find_inventory (inventory d) p w = None ->
   fits_integer rl = true /\ fits_integer ms = true) ->
  integrity_ok (stock_write now p w rl ms q mvs d) = true.
Proof.
  intros Hok Hp Hw Hm Hq Hmf Hnew. apply integrity_intro.
  - now apply stock_write_constraints.
  - now apply stock_write_columns.
Qed.

(** The row of the pair after the write. *)
Lemma stock_write_row :
  exists r',
    find_inventory (inventory (stock_write now p w rl ms q mvs d)) p w = Some r'
    /\ inv_id r' = inv_id (row_of_pair now p w rl ms (inventory d))
    /\ inv_quantity r' = q
    /\ inv_last_updated r' = now
    /\ inv_reorder_level r'
       = inv_reorder_level (row_of_pair now p w rl ms (inventory d))
    /\ inv_max_stock_level r'
       = inv_max_stock_level (row_of_pair now p w rl ms (inventory d)).
Proof.
  unfold stock_write.
  cbn [flush inventory working committed db_with_inventory db_with_stock_movements].
  rewrite !update_row_map.
  rewrite !find_inventory_map
    by first [apply keeps_keys_onupdate
             | apply keeps_keys_on_row;
               first [apply keeps_keys_quantity | apply keeps_keys_last_updated]].
  rewrite find_rows_with_pair. cbn [option_map].
  rewrite (on_row_same _ _ _ eq_refl).
  rewrite on_row_same by reflexivity.
  eexists. split; [reflexivity|].
  unfold onupdate.
  destruct (find _ (inventory d)) as [o|]; [destruct (Inventory_eqb o _)|];
    now repeat split.
Qed.

(** The rows of the other pairs are left as they are, [last_updated]
    included. *)
Lemma stock_write_other_row p' w' :
  NoDup (map inv_id (inventory d)) ->
  (p', w') <> (p, w) ->
  find_inventory (inventory (stock_write now p w rl ms q mvs d)) p' w'
  = find_inventory (inventory d) p' w'.
Proof.
  intros Hnd Hne. unfold stock_write.
  cbn [flush inventory working committed db_with_inventory db_with_stock_movements].
  rewrite !update_row_map.
  rewrite !find_inventory_map
    by first [apply keeps_keys_onupdate
             | apply keeps_keys_on_row;
               first [apply keeps_keys_quantity | apply keeps_keys_last_updated]].
  rewrite find_rows_with_pair_other by exact Hne.
  destruct (find_inventory (inventory d) p' w') as [x|] eqn:Hx; [|reflexivity].
  cbn [option_map]. f_equal.
  assert (Hx' : find_inventory (rows_with_pair now p w rl ms (inventory d)) p' w' = Some x)
    by (rewrite find_rows_with_pair_other; assumption).
  pose proof (@NoDup_rows_with_pair now p w rl ms _ Hnd) as Hnd'.
  pose proof (find_rows_with_pair now p w rl ms (inventory d)) as Hr.
  rewrite (@on_row_other _ _ _ _ _ _ _ _ (inv_with_quantity q) Hnd' Hr eq_refl Hx' Hne).
  rewrite (@on_row_other _ _ _ _ _ _ _ _ (inv_with_last_updated now)
             Hnd' Hr eq_refl Hx' Hne).
  unfold onupdate.
  apply find_inventory_some in Hx. destruct Hx as (Hin & _).
  rewrite (find_key_of_member Inventory inv_id (inventory d) x Hnd Hin).
  now rewrite Inventory_eqb_refl.
Qed.

Lemma stock_write_has_row :
  find_inventory (inventory (stock_write now p w rl ms q mvs d)) p w <> None.
Proof.
  destruct stock_write_row as (r' & -> & _). discriminate.
Qed.

End StockWrite.

(** The product that a barcode denotes is a row of the product table. *)
Lemma find_product_by_barcode_member (rows : list Product) (bc : string) (pr : Product) :
  find_product_by_barcode rows bc = Some pr ->
  In (prod_id pr) (map prod_id rows) /\ prod_barcode pr = Some bc.
Proof.
  intros H. unfold find_product_by_barcode in H. apply find_some in H.
  destruct H as [Hin Hb]. split; [now apply in_map|].
  destruct (prod_barcode pr) as [b|]; [|discriminate].
  apply String.eqb_eq in Hb. now subst.
Qed.

(** ** The direct update endpoint *)

Section Put.

Variables (now id : Z) (data : UpdateData).

Definition field_map (v : option Z) (setter : Z -> Inventory -> Inventory)
  : Inventory -> Inventory :=
  match v with
  | Some x => on_row id (setter x)
  | None => fun r => r
  end.

(** All assignments of the loop over [updatable_fields], on one row. *)
Definition put_fields (r : Inventory) : Inventory :=
  field_map (upd_max_stock_level data) inv_with_max_stock_level
    (field_map (upd_reorder_level data) inv_with_reorder_level
       (field_map (upd_quantity data) inv_with_quantity r)).

Definition apply_field (v : option Z) (setter : Z -> Inventory -> Inventory)
    (rows : list Inventory) : list Inventory :=
  match v with
  | Some x => update_row id (setter x) rows
  | None => rows
  end.

(** The working copy handed to [commit]. *)
Definition put_working (d : DB) : DB :=
  db_with_inventory
    (apply_field (upd_max_stock_level data) inv_with_max_stock_level
       (apply_field (upd_reorder_level data) inv_with_reorder_level
          (apply_field (upd_quantity data) inv_with_quantity (inventory d))))
    d.

Definition put_result (d : DB) : DB :=
  flush now {| committed := d; working := put_working d |}.

Lemma apply_field_map v setter rows :
  apply_field v setter rows = map (field_map v setter) rows.
Proof.
  unfold apply_field, field_map. destruct v; [reflexivity|].
  now rewrite map_id.
Qed.

Lemma put_working_map (d : DB) :
  put_working d = db_with_inventory (map put_fields (inventory d)) d.
Proof.
  unfold put_working, put_fields. now rewrite !apply_field_map, !map_map.
Qed.

Lemma keeps_keys_field_map v setter :
  (forall x, keeps_keys (setter x)) -> keeps_keys (field_map v setter).
Proof.
  intros Hs. unfold field_map. destruct v as [x|].
  - apply keeps_keys_on_row, Hs.
  - intros r. now repeat split.
Qed.

Lemma keeps_keys_put_fields : keeps_keys put_fields.
Proof.
  unfold put_fields.
  apply (keeps_keys_compose
           (fun r => field_map (upd_reorder_level data) inv_with_reorder_level
                       (field_map (upd_quantity data) inv_with_quantity r))
           (field_map (upd_max_stock_level data) inv_with_max_stock_level)).
  - apply (keeps_keys_compose
             (field_map (upd_quantity data) inv_with_quantity)
             (field_map (upd_reorder_level data) inv_with_reorder_level)).
    + apply keeps_keys_field_map, keeps_keys_quantity.
    + apply keeps_keys_field_map, keeps_keys_reorder_level.
  - apply keeps_keys_field_map, keeps_keys_max_stock_level.
Qed.

Lemma put_inventory_run (d : DB) (r : Inventory) :
  get_inventory_row (inventory d) id = Some r ->
  put_inventory now id data d =
  if empty_body data then (Failure 400 "No data provided", d)
  else if integrity_ok (put_result d) then
    (Success 200 "Inventory item updated successfully", put_result d)
  else (Failure 500 (str DatabaseError), d).
Proof.
  intros Hr. unfold put_inventory, run_view, update_inventory_item.
  unfold bind at 1. simpl. rewrite Hr.
  assert (Hid : inv_id r = id).
  { apply find_some in Hr. now apply Z.eqb_eq. }
  rewrite Hid.
  destruct (empty_body data); [reflexivity|].
  unfold put_result, put_working, apply_field, set_if_present.
  destruct d as [pr wh su rows ms pos its]. simpl.
  destruct (upd_quantity data), (upd_reorder_level data), (upd_max_stock_level data);
    unfold bind, inv_set, update, commit, ret, flush; simpl;
    normalize_db;
    match goal with
    | |- context [integrity_ok ?x] => destruct (integrity_ok x)
    end; reflexivity.
Qed.

Lemma put_inventory_missing (d : DB) :
  get_inventory_row (inventory d) id = None ->
  put_inventory now id data d = (Failure 500 (str HTTPNotFound), d).
Proof.
  intros Hr. unfold put_inventory, run_view, update_inventory_item.
  unfold bind at 1. simpl. now rewrite Hr.
Qed.

Lemma put_result_constraints (d : DB) :
  integrity_ok d = true -> constraints_ok (put_result d) = true.
Proof.
  intros Hok. apply integrity_constraints in Hok.
  unfold put_result. rewrite put_working_map.
  unfold constraints_ok in *. simpl.
  rewrite !inventory_rows_ok_map
    by first [apply keeps_keys_onupdate | apply keeps_keys_put_fields].
  exact Hok.
Qed.

Lemma keeps_fit_field_map v setter :
  (forall x, fits_integer x = true -> keeps_fit (setter x)) ->
  fits_if_present v = true -> keeps_fit (field_map v setter).
Proof.
  intros Hs Hv. unfold field_map. destruct v as [x|].
  - apply keeps_fit_on_row, Hs, Hv.
  - apply keeps_fit_id.
Qed.

Lemma put_result_columns (d : DB) :
  integrity_ok d = true ->
  fits_if_present (upd_quantity data) = true ->
  fits_if_present (upd_reorder_level data) = true ->
  fits_if_present (upd_max_stock_level data) = true ->
  columns_ok (put_result d) = true.
Proof.
  intros Hok Hq Hrl Hms. unfold put_result. rewrite put_working_map.
  unfold columns_ok.
  cbn [flush inventory stock_movements purchase_order_items working committed
       db_with_inventory].
  rewrite (columns_movements d Hok), (columns_items d Hok), !andb_true_r.
  apply rows_fit_map; [apply keeps_fit_onupdate|].
  apply rows_fit_map; [|apply (columns_inventory d Hok)].
  intros r Hr. unfold put_fields.
  apply keeps_fit_field_map; [apply keeps_fit_max_stock_level | exact Hms |].
  apply keeps_fit_field_map; [apply keeps_fit_reorder_level | exact Hrl |].
  apply keeps_fit_field_map; [apply keeps_fit_quantity | exact Hq | exact Hr].
Qed.

(** The commit of a PUT succeeds when the values it carries fit their
    columns. *)
Lemma put_result_integrity (d : DB) :
  integrity_ok d = true ->
  fits_if_present (upd_quantity data) = true ->
  fits_if_present (upd_reorder_level data) = true ->
  fits_if_present (upd_max_stock_level data) = true ->
  integrity_ok (put_result d) = true.
Proof.
  intros Hok Hq Hrl Hms. apply integrity_intro.
  - now apply put_result_constraints.
  - now apply put_result_columns.
Qed.

Lemma put_result_row (d : DB) (r : Inventory) :
  get_inventory_row (inventory d) id = Some r ->
  get_inventory_row (inventory (put_result d)) id
  = Some (onupdate now (inventory d) (put_fields r)).
Proof.
  intros Hr. unfold put_result. rewrite put_working_map. simpl.
  rewrite !get_inventory_row_map
    by first [apply keeps_keys_onupdate | apply keeps_keys_put_fields].
  now rewrite Hr.
Qed.

Lemma field_map_keeps_quantity v setter r :
  (forall x y, inv_quantity (setter x y) = inv_quantity y) ->
  inv_quantity (field_map v setter r) = inv_quantity r.
Proof.
  intros Hs. unfold field_map, on_row. destruct v; [|reflexivity].
  destruct (inv_id r =? id); [apply Hs | reflexivity].
Qed.

Lemma put_fields_quantity (r : Inventory) (q : Z) :
  inv_id r = id -> upd_quantity data = Some q ->
  inv_quantity (put_fields r) = q.
Proof.
  intros Hid Hq. unfold put_fields.
  rewrite !field_map_keeps_quantity by reflexivity.
  rewrite Hq. unfold field_map. now rewrite on_row_same.
Qed.

End Put.

Lemma find_inventory_member (rows : list Inventory) (r : Inventory) :
  unique_by pair_eqb (map (fun x => (inv_product_id x, inv_warehouse_id x)) rows) = true ->
  In r rows ->
  find_inventory rows (inv_product_id r) (inv_warehouse_id r) = Some r.
Proof.
  induction rows as [|x t IH]; simpl; [contradiction|].
  rewrite andb_true_iff, negb_true_iff. intros [Hx Ht] Hin.
  destruct (same_pair (inv_product_id r) (inv_warehouse_id r) x) eqn:E.
  - destruct Hin as [->|Hin]; [reflexivity|]. exfalso.
    apply same_pair_true in E. destruct E as [E1 E2].
    assert (existsb (pair_eqb (inv_product_id x, inv_warehouse_id x))
              (map (fun y => (inv_product_id y, inv_warehouse_id y)) t) = true).
    { apply existsb_exists. exists (inv_product_id r, inv_warehouse_id r). split.
      - apply in_map_iff. now exists r.
      - unfold pair_eqb. simpl. rewrite E1, E2, !Z.eqb_refl. reflexivity. }
    congruence.
  - destruct Hin as [->|Hin].
    + unfold same_pair in E. now rewrite !Z.eqb_refl in E.
    + now apply IH.
Qed.

(** ** The stock count endpoint *)

Section Count.

Variables (data : CountData) (bc : string) (w c : Z).
Hypothesis Hbc : cnt_barcode data = Some bc.
Hypothesis Hw : cnt_warehouse_id data = Some w.
Hypothesis Hc : cnt_counted_quantity data = Some c.

Definition count_movement (now : Z) (pid old : Z) : StockMovement :=
  {| mv_product_id := pid; mv_warehouse_id := w;
     mv_movement_type := "adjustment"; mv_quantity := Z.abs (c - old);
     mv_reference_type := Some "barcode_count"; mv_reference_id := None;
     mv_notes := Some ("Stock count adjustment: " ++ bc
                       ++ ". Old: " ++ fmt old ++ ", New: " ++ fmt c)%string;
     mv_created_at := now |}.

(** The working copy handed to [commit] by a count of product [pid]. *)
Definition count_working (now : Z) (d : DB) (pid : Z) : DB :=
  let rows := rows_with_pair now pid w 10 1000 (inventory d) in
  let id := inv_id (row_of_pair now pid w 10 1000 (inventory d)) in
  let old := quantity_of d pid w in
  db_with_stock_movements
    (if negb (c - old =? 0)
     then stock_movements d ++ [count_movement now pid old]
     else stock_movements d)
    (db_with_inventory
       (update_row id (inv_with_last_updated now)
          (update_row id (inv_with_quantity c) rows))
       d).

Definition count_result (now : Z) (d : DB) (pid : Z) : DB :=
  flush now {| committed := d; working := count_working now d pid |}.

Lemma count_run (now : Z) (d : DB) :
  NoDup (map inv_id (inventory d)) ->
  count now data d =
  if c <? 0 then (Failure 400 "Counted quantity cannot be negative", d)
  else
    match find_product_by_barcode (products d) bc with
    | None => (Failure 404 "Product not found", d)
    | Some product =>
        if integrity_ok (count_result now d (prod_id product)) then
          (Success 200 "Stock count completed successfully",
           count_result now d (prod_id product))
        else (Failure 500 (str DatabaseError), d)
    end.
Proof.
  intros Hnd. unfold count, run_view, scan_count. rewrite Hbc, Hw, Hc.
  destruct (c <? 0); [reflexivity|].
  unfold bind at 1. unfold query at 1. simpl.
  destruct (find_product_by_barcode (products d) bc) as [product|]; [|reflexivity].
  rewrite get_or_create_run. simpl.
  unfold bind at 1. unfold inv_get at 1. simpl.
  rewrite get_row_of_pair by exact Hnd. rewrite quantity_row_of_pair.
  unfold count_result, count_working.
  destruct (negb (c - quantity_of d (prod_id product) w =? 0));
    unfold bind, inv_set, update, add_movement, commit, ret; simpl;
    settle_commit.
Qed.

(** A count is a stock write of the counted quantity. *)
Lemma count_result_as_write now d pid :
  count_result now d pid
  = stock_write now pid w 10 1000 c
      (if negb (c - quantity_of d pid w =? 0)
       then [count_movement now pid (quantity_of d pid w)] else [])
      d.
Proof.
  unfold count_result, count_working, stock_write.
  destruct (negb (c - quantity_of d pid w =? 0)); [reflexivity|].
  now rewrite app_nil_r.
Qed.

End Count.

(** A count of a quantity that is not negative, for a known barcode and an
    existing warehouse, is committed when the quantity and the size of the
    adjustment fit their column. *)
Lemma count_accepts
    (now : Z) (data : CountData) (d : DB) (bc : string) (w c : Z) (product : Product) :
  integrity_ok d = true ->
  cnt_barcode data = Some bc -> cnt_warehouse_id data = Some w ->
  cnt_counted_quantity data = Some c ->
  0 <= c ->
  find_product_by_barcode (products d) bc = Some product ->
  In w (warehouses d) ->
  fits_integer c = true ->
  fits_integer (Z.abs (c - quantity_of d (prod_id product) w)) = true ->
  count now data d
  = (Success 200 "Stock count completed successfully",
     count_result bc w c now d (prod_id product))
  /\ integrity_ok (count_result bc w c now d (prod_id product)) = true.
Proof.
  intros Hok Hbc Hw Hc Hge Hprod Hwh Hfc Hfd.
  rewrite (count_run data bc w c Hbc Hw Hc now d (integrity_inventory_ids d Hok)).
  assert (Hlt : (c <? 0) = false) by (apply Z.ltb_ge; lia).
  rewrite Hlt, Hprod.
  assert (Hint : integrity_ok (count_result bc w c now d (prod_id product)) = true).
  { rewrite count_result_as_write. apply stock_write_integrity; try assumption.
    - now apply find_product_by_barcode_member in Hprod.
    - destruct (negb _); repeat constructor.
    - destruct (negb _); [|reflexivity].
      cbn [forallb]. unfold movement_fits, count_movement.
      cbn [mv_quantity mv_reference_id fits_if_present]. now rewrite Hfd.
    - intros _. apply fits_default_levels. }
  rewrite Hint. split; reflexivity.
Qed.

(** ** Facts about the purchase order tables *)

Definition keeps_order_keys (g : PurchaseOrder -> PurchaseOrder) : Prop :=
  forall o, po_id (g o) = po_id o
            /\ po_order_number (g o) = po_order_number o
            /\ po_supplier_id (g o) = po_supplier_id o.

Definition on_order (id : Z) (f : PurchaseOrder -> PurchaseOrder) (o : PurchaseOrder)
  : PurchaseOrder :=
  if po_id o =? id then f o else o.

Section OrderFacts.

Lemma keeps_order_keys_on_order id f :
  keeps_order_keys f -> keeps_order_keys (on_order id f).
Proof.
  intros Hf o. unfold on_order. destruct (po_id o =? id); [apply Hf | now repeat split].
Qed.

Lemma keeps_order_keys_status s : keeps_order_keys (po_with_status s).
Proof. intros o. now repeat split. Qed.

Lemma keeps_order_keys_actual_delivery t : keeps_order_keys (po_with_actual_delivery t).
Proof. intros o. now repeat split. Qed.

Lemma keeps_order_keys_total_amount a : keeps_order_keys (po_with_total_amount a).
Proof. intros o. now repeat split. Qed.

Lemma map_po_id_keeps g rows :
  keeps_order_keys g -> map po_id (map g rows) = map po_id rows.
Proof.
  intros Hg. rewrite map_map. apply map_ext. intros o. apply Hg.
Qed.

Lemma order_rows_ok_map sups g rows :
  keeps_order_keys g ->
  order_rows_ok sups (map g rows) = order_rows_ok sups rows.
Proof.
  intros Hg. unfold order_rows_ok. rewrite map_po_id_keeps by exact Hg.
  assert (Hn : map po_order_number (map g rows) = map po_order_number rows).
  { rewrite map_map. apply map_ext. intros o. apply Hg. }
  rewrite Hn. clear Hn. f_equal.
  induction rows as [|o t IH]; simpl; [reflexivity|].
  rewrite IH. destruct (Hg o) as (_ & _ & ->). reflexivity.
Qed.

Lemma get_purchase_order_map g rows id :
  keeps_order_keys g ->
  get_purchase_order (map g rows) id = option_map g (get_purchase_order rows id).
Proof.
  intros Hg. unfold get_purchase_order. apply find_map_stable.
  intros o. destruct (Hg o) as (-> & _). reflexivity.
Qed.

Lemma get_purchase_order_id rows id o :
  get_purchase_order rows id = Some o -> po_id o = id.
Proof.
  intros H. apply find_some in H. now apply Z.eqb_eq.
Qed.

End OrderFacts.

(** ** Cancelling and approving an order *)

Section StatusChange.

Variables (now po : Z).

(** The database after a committed change of the status of order [po]. *)
Definition status_result (status : string) (d : DB) : DB :=
  flush now
    {| committed := d;
       working :=
         db_with_purchase_orders
           (map (on_order po (po_with_status status)) (purchase_orders d)) d |}.

(** A commit that only rewrites order rows, keeping their keys, passes. *)
Lemma orders_rewrite_integrity (g : PurchaseOrder -> PurchaseOrder) d :
  keeps_order_keys g ->
  integrity_ok d = true ->
  integrity_ok
    (flush now
       {| committed := d;
          working := db_with_purchase_orders (map g (purchase_orders d)) d |}) = true.
Proof.
  intros Hg Hok. apply integrity_intro.
  - pose proof (integrity_constraints d Hok) as Hc.
    unfold constraints_ok in *. simpl.
    rewrite inventory_rows_ok_map by apply keeps_keys_onupdate.
    rewrite order_rows_ok_map, map_po_id_keeps by exact Hg.
    exact Hc.
  - unfold columns_ok.
    cbn [flush inventory stock_movements purchase_order_items working committed
         db_with_inventory db_with_purchase_orders].
    rewrite (columns_movements d Hok), (columns_items d Hok), !andb_true_r.
    apply rows_fit_map; [apply keeps_fit_onupdate | apply (columns_inventory d Hok)].
Qed.

(** A commit of a working copy that was not touched passes. *)
Lemma flush_unchanged_integrity d :
  integrity_ok d = true ->
  integrity_ok (flush now {| committed := d; working := d |}) = true.
Proof.
  intros Hok. apply integrity_intro.
  - pose proof (integrity_constraints d Hok) as Hc.
    unfold constraints_ok in *. simpl.
    rewrite inventory_rows_ok_map by apply keeps_keys_onupdate.
    exact Hc.
  - unfold columns_ok.
    cbn [flush inventory stock_movements purchase_order_items working committed
         db_with_inventory].
    rewrite (columns_movements d Hok), (columns_items d Hok), !andb_true_r.
    apply rows_fit_map; [apply keeps_fit_onupdate | apply (columns_inventory d Hok)].
Qed.

Lemma status_result_integrity status d :
  integrity_ok d = true -> integrity_ok (status_result status d) = true.
Proof.
  intros Hok. unfold status_result.
  apply orders_rewrite_integrity; [|exact Hok].
  apply keeps_order_keys_on_order, keeps_order_keys_status.
Qed.

Lemma status_result_inventory status d :
  integrity_ok d = true -> inventory (status_result status d) = inventory d.
Proof.
  intros Hok. unfold status_result. simpl.
  apply flush_untouched_inventory. now apply integrity_inventory_ids.
Qed.

Lemma status_result_order status d o :
  get_purchase_order (purchase_orders d) po = Some o ->
  get_purchase_order (purchase_orders (status_result status d)) po
  = Some (po_with_status status o).
Proof.
  intros Ho. unfold status_result. simpl.
  rewrite get_purchase_order_map
    by apply keeps_order_keys_on_order, keeps_order_keys_status.
  rewrite Ho. simpl. unfold on_order.
  now rewrite (get_purchase_order_id _ _ _ Ho), Z.eqb_refl.
Qed.

Lemma status_result_other_order status d po' :
  po' <> po ->
  get_purchase_order (purchase_orders (status_result status d)) po'
  = get_purchase_order (purchase_orders d) po'.
Proof.
  intros Hne. unfold status_result. simpl.
  rewrite get_purchase_order_map
    by apply keeps_order_keys_on_order, keeps_order_keys_status.
  destruct (get_purchase_order (purchase_orders d) po') as [x|] eqn:Hx; [|reflexivity].
  simpl. unfold on_order. rewrite (get_purchase_order_id _ _ _ Hx).
  apply Z.eqb_neq in Hne. now rewrite Hne.
Qed.

Lemma cancel_run d o :
  get_purchase_order (purchase_orders d) po = Some o ->
  cancel now po d =
  if String.eqb (po_status o) "received" || String.eqb (po_status o) "cancelled" then
    (Failure 409 "Cannot cancel purchase order in current status", d)
  else if integrity_ok (status_result "cancelled" d) then
    (Success 200 "Purchase order cancelled successfully", status_result "cancelled" d)
  else (Failure 500 (str DatabaseError), d).
Proof.
  intros Ho. pose proof (get_purchase_order_id _ _ _ Ho) as Hid.
  unfold cancel, run_view, cancel_purchase_order.
  unfold bind at 1. unfold PurchaseOrder_get_or_404 at 1. simpl. rewrite Ho, Hid.
  unfold bind at 1. unfold po_get at 1. simpl. rewrite Ho.
  destruct (String.eqb (po_status o) "received" || String.eqb (po_status o) "cancelled");
    [reflexivity|].
  unfold bind, po_set, update, commit, ret. simpl.
  change (flush now _) with (status_result "cancelled" d).
  destruct (integrity_ok (status_result "cancelled" d)); reflexivity.
Qed.

Lemma approve_run d o :
  get_purchase_order (purchase_orders d) po = Some o ->
  approve now po d =
  if negb (String.eqb (po_status o) "pending") then
    (Failure 409 "Can only approve pending purchase orders", d)
  else if integrity_ok (status_result "approved" d) then
    (Success 200 "Purchase order approved successfully", status_result "approved" d)
  else (Failure 500 (str DatabaseError), d).
Proof.
  intros Ho. pose proof (get_purchase_order_id _ _ _ Ho) as Hid.
  unfold approve, run_view, approve_purchase_order.
  unfold bind at 1. unfold PurchaseOrder_get_or_404 at 1. simpl. rewrite Ho, Hid.
  unfold bind at 1. unfold po_get at 1. simpl. rewrite Ho.
  destruct (negb (String.eqb (po_status o) "pending")); [reflexivity|].
  unfold bind, po_set, update, commit, ret. simpl.
  change (flush now _) with (status_result "approved" d).
  destruct (integrity_ok (status_result "approved" d)); reflexivity.
Qed.

(** [get_or_404] raises inside the handler's [try]; the [except] clause
    answers 500. *)
Lemma cancel_unknown_order d :
  get_purchase_order (purchase_orders d) po = None ->
  cancel now po d = (Failure 500 (str HTTPNotFound), d).
Proof.
  intros Ho. unfold cancel, run_view, cancel_purchase_order.
  unfold bind at 1. unfold PurchaseOrder_get_or_404 at 1. simpl. now rewrite Ho.
Qed.

End StatusChange.

(** ** Receiving against an order *)

(** Between two states of the item table: the same item, with a received
    quantity that did not decrease. *)
Definition item_grows (x x' : PurchaseOrderItem) : Prop :=
  poi_id x' = poi_id x
  /\ poi_purchase_order_id x' = poi_purchase_order_id x
  /\ poi_product_id x' = poi_product_id x
  /\ poi_quantity x' = poi_quantity x
  /\ poi_unit_price x' = poi_unit_price x
  /\ poi_received_quantity x <= poi_received_quantity x'.

Section ReceiveFacts.

Lemma item_grows_refl x : item_grows x x.
Proof. unfold item_grows. repeat split; lia. Qed.

Lemma item_grows_trans x y z : item_grows x y -> item_grows y z -> item_grows x z.
Proof.
  unfold item_grows. intros (A1 & A2 & A3 & A4 & A5 & A6) (B1 & B2 & B3 & B4 & B5 & B6).
  repeat split; try congruence. lia.
Qed.

Lemma Forall2_item_grows_refl l : Forall2 item_grows l l.
Proof. induction l; constructor; [apply item_grows_refl | assumption]. Qed.

Lemma Forall2_item_grows_trans l1 : forall l2 l3,
  Forall2 item_grows l1 l2 -> Forall2 item_grows l2 l3 -> Forall2 item_grows l1 l3.
Proof.
  induction l1 as [|x t IH]; intros l2 l3 H12 H23.
  - inversion H12; subst. inversion H23; subst. constructor.
  - inversion H12 as [|? y ? t2 Hxy Ht]; subst.
    inversion H23 as [|? z ? t3 Hyz Ht']; subst.
    constructor; [eapply item_grows_trans; eassumption | eapply IH; eassumption].
Qed.

Lemma Forall2_item_grows_ids l1 l2 :
  Forall2 item_grows l1 l2 -> map poi_id l2 = map poi_id l1.
Proof.
  induction 1 as [|x y t1 t2 Hxy _ IH]; simpl; [reflexivity|].
  destruct Hxy as (-> & _). now rewrite IH.
Qed.

Lemma Forall2_map_in (f : PurchaseOrderItem -> PurchaseOrderItem) l :
  (forall x, In x l -> item_grows x (f x)) -> Forall2 item_grows l (map f l).
Proof.
  induction l as [|x t IH]; intros H; simpl; constructor.
  - apply H. now left.
  - apply IH. intros y Hy. apply H. now right.
Qed.

Lemma find_key_member_exists (rows : list Inventory) (r : Inventory) :
  In r rows -> get_inventory_row rows (inv_id r) <> None.
Proof.
  intros Hin H. unfold get_inventory_row in H.
  apply (find_none _ _ H) in Hin. now rewrite Z.eqb_refl in Hin.
Qed.

Lemma row_of_pair_member now p w rl ms rows :
  In (row_of_pair now p w rl ms rows) (rows_with_pair now p w rl ms rows).
Proof.
  pose proof (find_rows_with_pair now p w rl ms rows) as H.
  now apply find_inventory_some in H.
Qed.

Variables (now po warehouse_id : Z) (order_number : string).

(** One line of a receipt: the loop body ends normally, touches neither
    the committed state nor the order table, and no item loses received
    quantity. *)
Lemma receive_line_runs (line : ReceivedItem) (s : Session) :
  NoDup (map poi_id (purchase_order_items (working s))) ->
  exists s',
    receive_line now po warehouse_id order_number line s = (Val tt, s')
    /\ committed s' = committed s
    /\ purchase_orders (working s') = purchase_orders (working s)
    /\ Forall2 item_grows (purchase_order_items (working s))
         (purchase_order_items (working s')).
Proof.
  intros Hnd. unfold receive_line.
  destruct (negb (truthy (rcv_po_item_id line))
            || (get_default (rcv_received_quantity line) 0 <=? 0)) eqn:Hskip.
  { exists s. repeat split; auto using Forall2_item_grows_refl. }
  apply orb_false_iff in Hskip. destruct Hskip as [_ Hpos].
  apply Z.leb_gt in Hpos.
  unfold bind at 1. unfold query at 1. cbn [working].
  destruct (get_purchase_order_item (purchase_order_items (working s))
              (get_default (rcv_po_item_id line) 0)) as [po_item|] eqn:Hitem.
  2:{ exists s. repeat split; auto using Forall2_item_grows_refl. }
  destruct (negb (poi_purchase_order_id po_item =? po)).
  { exists s. repeat split; auto using Forall2_item_grows_refl. }
  unfold bind at 1. unfold poi_set at 1, update at 1.
  rewrite get_or_create_run.
  unfold bind at 1. unfold inv_get at 1. cbn [working committed].
  match goal with
  | |- context [get_inventory_row ?rows ?id] =>
      destruct (get_inventory_row rows id) as [r|] eqn:Hrow
  end.
  2:{ exfalso. revert Hrow. cbn [inventory db_with_inventory db_with_purchase_order_items].
      apply find_key_member_exists, row_of_pair_member. }
  unfold bind, inv_set, add_movement, update, ret. cbn [working committed].
  eexists. split; [reflexivity|]. cbn [working committed].
  split; [reflexivity|]. split; [reflexivity|].
  cbn [purchase_order_items db_with_stock_movements db_with_inventory
       db_with_purchase_order_items].
  apply Forall2_map_in. intros x Hx.
  destruct (poi_id x =? poi_id po_item) eqn:E; [|apply item_grows_refl].
  apply Z.eqb_eq in E.
  assert (x = po_item).
  { apply (NoDup_key_inj PurchaseOrderItem poi_id
             (purchase_order_items (working s))); auto.
    unfold get_purchase_order_item in Hitem. now apply find_some in Hitem. }
  subst x. unfold item_grows. simpl. repeat split; lia.
Qed.

Lemma receive_lines_run (lines : list ReceivedItem) : forall s,
  NoDup (map poi_id (purchase_order_items (working s))) ->
  exists s',
    for_each lines (receive_line now po warehouse_id order_number) s = (Val tt, s')
    /\ committed s' = committed s
    /\ purchase_orders (working s') = purchase_orders (working s)
    /\ Forall2 item_grows (purchase_order_items (working s))
         (purchase_order_items (working s')).
Proof.
  induction lines as [|line rest IH]; intros s Hnd.
  - exists s. repeat split; auto using Forall2_item_grows_refl.
  - destruct (receive_line_runs line s Hnd) as (s1 & Hrun & Hc & Hp & Hg).
    assert (Hnd1 : NoDup (map poi_id (purchase_order_items (working s1))))
      by (now rewrite (Forall2_item_grows_ids _ _ Hg)).
    destruct (IH s1 Hnd1) as (s2 & Hrun2 & Hc2 & Hp2 & Hg2).
    exists s2. simpl. unfold bind. rewrite Hrun, Hrun2.
    repeat split; try congruence.
    eapply Forall2_item_grows_trans; eassumption.
Qed.

End ReceiveFacts.

Lemma integrity_item_ids (d : DB) :
  integrity_ok d = true -> NoDup (map poi_id (purchase_order_items d)).
Proof.
  intros Hok. pose proof (integrity_items d Hok) as H.
  unfold item_rows_ok in H. apply andb_true_iff in H. now apply unique_by_NoDup.
Qed.

(** What the handler leaves of the order [o] when the receipt commits. *)
Definition received_order (now : Z) (complete : bool) (o : PurchaseOrder) : PurchaseOrder :=
  if complete then po_with_actual_delivery (Some now) (po_with_status "received" o)
  else o.

(** A receipt either fails and leaves the database as it was, or commits a
    consistent state in which no item lost received quantity and the order
    is marked received exactly when every one of its items is complete. *)
Lemma receive_cases (now po : Z) (data : ReceiveData) (d : DB) :
  integrity_ok d = true ->
  (exists st e, receive now po data d = (Failure st e, d))
  \/ (exists d' o,
        receive now po data d
        = (Success 200 "Items received and inventory updated successfully", d')
        /\ integrity_ok d' = true
        /\ get_purchase_order (purchase_orders d) po = Some o
        /\ (po_status o = "approved" \/ po_status o = "ordered")
        /\ Forall2 item_grows (purchase_order_items d) (purchase_order_items d')
        /\ get_purchase_order (purchase_orders d') po
           = Some (received_order now (all_received (items_of d' po)) o)).
Proof.
  intros Hok.
  destruct (receive now po data d) as [resp d'] eqn:Hrun.
  unfold receive, run_view, receive_purchase_order in Hrun.
  unfold bind at 1 in Hrun. unfold PurchaseOrder_get_or_404 at 1 in Hrun.
  cbn [working] in Hrun.
  destruct (get_purchase_order (purchase_orders d) po) as [o|] eqn:Ho;
    [|injection Hrun as <- <-; left; eauto].
  pose proof (get_purchase_order_id _ _ _ Ho) as Hid. rewrite Hid in Hrun.
  unfold bind at 1 in Hrun. unfold po_get at 1 in Hrun. cbn [working] in Hrun.
  rewrite Ho in Hrun.
  destruct (String.eqb (po_status o) "approved" || String.eqb (po_status o) "ordered")
    eqn:Hst; cbn [negb] in Hrun; [|injection Hrun as <- <-; left; eauto].
  assert (Hstatus : po_status o = "approved" \/ po_status o = "ordered").
  { apply orb_true_iff in Hst. destruct Hst as [H|H]; apply String.eqb_eq in H; auto. }
  destruct (negb (truthy (rcv_warehouse_id data))
            || match rcv_received_items data with [] => true | _ :: _ => false end);
    [injection Hrun as <- <-; left; eauto|].
  unfold bind at 1 in Hrun. unfold po_get at 1 in Hrun. cbn [working] in Hrun.
  rewrite Ho in Hrun. unfold bind at 1 in Hrun.
  destruct (receive_lines_run now po (get_default (rcv_warehouse_id data) 0)
              (po_order_number o) (rcv_received_items data)
              {| committed := d; working := d |} (integrity_item_ids d Hok))
    as (s1 & Hloop & Hc & Hp & Hg).
  rewrite Hloop in Hrun. cbn [working committed] in Hc, Hp, Hg.
  unfold bind at 1 in Hrun. unfold query at 1 in Hrun.
  destruct s1 as [c1 w1]. cbn [working committed] in *. subst c1.
  assert (Horder : forall f, keeps_order_keys f ->
            get_purchase_order (map (on_order po f) (purchase_orders w1)) po
            = Some (f o)).
  { intros f Hf. rewrite get_purchase_order_map by now apply keeps_order_keys_on_order.
    rewrite Hp, Ho. simpl. unfold on_order. now rewrite Hid, Z.eqb_refl. }
  destruct (all_received (items_of w1 po)) eqn:Hcomplete.
  - unfold bind, po_set, update, commit, ret in Hrun. cbn [working committed] in Hrun.
    match type of Hrun with
    | context [integrity_ok ?x] => destruct (integrity_ok x) eqn:Hcommit
    end; injection Hrun as <- <-; [|left; eauto].
    right. eexists. exists o. split; [reflexivity|]. split; [exact Hcommit|].
    split; [reflexivity|]. split; [exact Hstatus|]. split; [exact Hg|].
    unfold items_of. cbn [purchase_order_items purchase_orders flush working
      db_with_inventory db_with_purchase_orders].
    fold (items_of w1 po). rewrite Hcomplete. unfold received_order.
    change (map (fun o0 => if po_id o0 =? po then po_with_actual_delivery (Some now) o0 else o0)
              (map (fun o0 => if po_id o0 =? po then po_with_status "received" o0 else o0)
                 (purchase_orders w1)))
      with (map (on_order po (po_with_actual_delivery (Some now)))
              (map (on_order po (po_with_status "received")) (purchase_orders w1))).
    rewrite get_purchase_order_map
      by apply keeps_order_keys_on_order, keeps_order_keys_actual_delivery.
    rewrite Horder by apply keeps_order_keys_status. simpl.
    unfold on_order. simpl. now rewrite Hid, Z.eqb_refl.
  - unfold bind, commit, ret in Hrun. cbn [working committed] in Hrun.
    match type of Hrun with
    | context [integrity_ok ?x] => destruct (integrity_ok x) eqn:Hcommit
    end; injection Hrun as <- <-; [|left; eauto].
    right. eexists. exists o. split; [reflexivity|]. split; [exact Hcommit|].
    split; [reflexivity|]. split; [exact Hstatus|]. split; [exact Hg|].
    unfold items_of. cbn [purchase_order_items purchase_orders flush working
      db_with_inventory].
    fold (items_of w1 po). rewrite Hcomplete. unfold received_order.
    now rewrite Hp.
Qed.
(** ** Creating an order *)

Section Create.

Variables (now : Z) (order_number : string) (data : CreateData) (d : DB).

Definition new_order : PurchaseOrder :=
  {| po_id := next_id (map po_id (purchase_orders d));
     po_order_number := order_number;
     po_supplier_id := get_default (crt_supplier_id data) 0;
     po_status := "pending"; po_order_date := now;
     po_expected_delivery := crt_expected_delivery data;
     po_actual_delivery := None; po_total_amount := 0;
     po_notes := crt_notes data |}.

(** The working copy that the flush of the order row sends to the
    database. *)
Definition order_added : DB :=
  flush now
    {| committed := d;
       working := db_with_purchase_orders (purchase_orders d ++ [new_order]) d |}.

End Create.

(** ** Properties of the stock ledger *)

Definition base_db : DB :=
  {| products := [ {| prod_id := 1; prod_name := "Widget"; prod_sku := "W-1";
                      prod_barcode := Some "000001" |} ];
     warehouses := [1; 2]; suppliers := [1];
     inventory := []; stock_movements := [];
     purchase_orders := []; purchase_order_items := [] |}.

(** The ledger of a pair reconciles when its movements, signed by type, add
    up to the quantity on hand. *)
Definition reconciles (d : DB) (p w : Z) : Prop :=
  signed_sum (movements_of d p w) = quantity_of d p w.

(** C1, as amended.  For every sequence of adjust calls, started in a
    consistent database in which the pair is fresh: the final quantity of the
    pair is 0 plus the sum of the quantity changes of the accepted calls on
    the pair; the pair has exactly one movement per accepted call, carrying
    the absolute value of the change and the movement type sent by the
    caller; and when every accepted call sent type 'in' with a positive
    change and 'out' with a negative one, the movements signed by type add up
    to the final quantity. *)
Theorem adjust_sequence_reconciles (calls : list (Z * AdjustData)) (d : DB) (p w : Z) :
  integrity_ok d = true ->
  fresh d p w ->
  quantity_of (run_adjusts calls d) p w = 0 + sum_Z (map fst (accepted p w calls d))
  /\ map type_and_quantity (movements_of (run_adjusts calls d) p w)
     = map expected_movement (accepted p w calls d)
  /\ (Forall sign_consistent (accepted p w calls d) ->
      reconciles (run_adjusts calls d) p w).
Proof.
  intros Hok [Hrow Hmov].
  destruct (run_adjusts_ledger calls d p w Hok) as [Hq Hm].
  assert (Hq0 : quantity_of d p w = 0) by (unfold quantity_of; now rewrite Hrow).
  rewrite Hmov in Hm. simpl in Hm. rewrite Hq0 in Hq.
  split; [exact Hq|]. split; [exact Hm|].
  intros Hc. unfold reconciles. rewrite Hq.
  now apply signed_sum_consistent.
Qed.

Definition sample_calls : list (Z * AdjustData) :=
  [ (1, mk_adjust 1 2 5 "in"); (2, mk_adjust 1 2 (-7) "out");
    (3, mk_adjust 1 2 (-2) "out"); (4, mk_adjust 1 1 3 "in") ].

Lemma adjust_sequence_reconciles_witness :
  quantity_of (run_adjusts sample_calls db1) 1 2 = 0 + sum_Z [5; -2]
  /\ map type_and_quantity (movements_of (run_adjusts sample_calls db1) 1 2)
     = [("in", 5); ("out", 2)]
  /\ reconciles (run_adjusts sample_calls db1) 1 2.
Proof.
  destruct (adjust_sequence_reconciles sample_calls db1 1 2) as (Hq & Hm & Hr).
  - vm_compute. reflexivity.
  - split; vm_compute; reflexivity.
  - split; [exact Hq|]. split; [exact Hm|]. apply Hr.
    change (accepted 1 2 sample_calls db1) with [(5, "in"); (-2, "out")].
    repeat constructor; simpl; intros; lia.
Defined.

(** C1, as stated, fails: the movement type is whatever the caller sends.
    One accepted call with change +5 and type 'out' on a fresh pair leaves
    quantity 5 while the movements signed by type add up to -5. *)
Lemma adjust_type_from_caller_counterexample :
  ~ (quantity_of (run_adjusts [(1, mk_adjust 1 2 5 "out")] db1) 1 2 = 0 + sum_Z [5]
     /\ signed_sum (movements_of (run_adjusts [(1, mk_adjust 1 2 5 "out")] db1) 1 2)
        = quantity_of (run_adjusts [(1, mk_adjust 1 2 5 "out")] db1) 1 2).
Proof.
  vm_compute. intros [_ H]. discriminate H.
Qed.

(** C2.  An adjust call whose change would make the quantity of the pair
    negative answers 400 'Insufficient stock for this operation' and leaves
    the whole database as it was: no row is created for the pair, no row is
    changed and no movement is recorded. *)
Theorem adjust_insufficient_stock_unchanged
    (now : Z) (data : AdjustData) (d : DB) (p w c : Z) (ty : string) :
  integrity_ok d = true ->
  adj_product_id data = Some p -> adj_warehouse_id data = Some w ->
  adj_quantity_change data = Some c -> adj_movement_type data = Some ty ->
  quantity_of d p w + c < 0 ->
  adjust now data d = (Failure 400 "Insufficient stock for this operation", d).
Proof.
  intros Hok Hp Hw Hc Hty Hneg.
  rewrite (adjust_run now data p w c ty Hp Hw Hc Hty d (integrity_inventory_ids d Hok)).
  apply Z.ltb_lt in Hneg. now rewrite Hneg.
Qed.

Lemma adjust_insufficient_stock_unchanged_witness :
  adjust 7 (mk_adjust 1 2 (-1) "out") db1
  = (Failure 400 "Insufficient stock for this operation", db1)
  /\ adjust 7 (mk_adjust 1 1 (-11) "out") db1
     = (Failure 400 "Insufficient stock for this operation", db1).
Proof.
  split.
  - apply (adjust_insufficient_stock_unchanged 7 (mk_adjust 1 2 (-1) "out") db1 1 2
             (-1) "out"); try reflexivity.
  - apply (adjust_insufficient_stock_unchanged 7 (mk_adjust 1 1 (-11) "out") db1 1 1
             (-11) "out"); try reflexivity.
Defined.

(** C3, as amended.  For transfer(product, A, B, n) in a consistent
    database: if A has no row for the product or its quantity is less than n,
    the answer is 400 'Insufficient stock in source warehouse' and the
    database is unchanged; if A has a row with quantity at least n, A and B
    are different warehouses, B exists, and n, the quantity at A less n and
    the quantity at B plus n fit the integer column, the answer is a success,
    the quantity at A decreases by exactly n, the quantity at B increases by
    exactly n, and exactly two movements are appended, an 'out' at A and an
    'in' at B, each with quantity n. *)
Theorem transfer_moves_stock_between_warehouses
    (now : Z) (data : TransferData) (d : DB) (p a b n : Z) :
  integrity_ok d = true ->
  tr_product_id data = Some p -> tr_from_warehouse_id data = Some a ->
  tr_to_warehouse_id data = Some b -> tr_quantity data = Some n ->
  (find_inventory (inventory d) p a = None \/ quantity_of d p a < n ->
   transfer now data d = (Failure 400 "Insufficient stock in source warehouse", d))
  /\ (find_inventory (inventory d) p a <> None -> n <= quantity_of d p a ->
      a <> b -> In b (warehouses d) ->
      fits_integer n = true ->
      fits_integer (quantity_of d p a - n) = true ->
      fits_integer (quantity_of d p b + n) = true ->
      fst (transfer now data d) = Success 200 "Inventory transferred successfully"
      /\ quantity_of (snd (transfer now data d)) p a = quantity_of d p a - n
      /\ quantity_of (snd (transfer now data d)) p b = quantity_of d p b + n
      /\ stock_movements (snd (transfer now data d))
         = stock_movements d
           ++ [ {| mv_product_id := p; mv_warehouse_id := a;
                   mv_movement_type := "out"; mv_quantity := n;
                   mv_reference_type := Some "transfer"; mv_reference_id := None;
                   mv_notes := Some ("Transfer to warehouse " ++ fmt b)%string;
                   mv_created_at := now |};
                {| mv_product_id := p; mv_warehouse_id := b;
                   mv_movement_type := "in"; mv_quantity := n;
                   mv_reference_type := Some "transfer"; mv_reference_id := None;
                   mv_notes := Some ("Transfer from warehouse " ++ fmt a)%string;
                   mv_created_at := now |} ]).
Proof.
  intros Hok Hp Ha Hb Hn.
  pose proof (transfer_run now data p a b n Hp Ha Hb Hn d
                (integrity_inventory_ids d Hok)) as Hrun.
  destruct (find_inventory (inventory d) p a) as [src|] eqn:Hsrc.
  - assert (Hq : quantity_of d p a = inv_quantity src)
      by (unfold quantity_of; now rewrite Hsrc).
    rewrite Hq. split.
    + intros [H|H]; [discriminate|]. rewrite Hrun.
      apply Z.ltb_lt in H. now rewrite H.
    + intros _ Hge Hab Hin Hfn Hfa Hfb.
      assert (Hlt : (inv_quantity src <? n) = false) by (apply Z.ltb_ge; lia).
      rewrite Hrun, Hlt.
      rewrite (transfer_result_integrity now p a b n d src Hok Hsrc Hin Hab Hfn Hfa Hfb).
      cbn [fst snd].
      split; [reflexivity|]. split; [|split].
      * now apply transfer_result_source.
      * now apply transfer_result_destination.
      * apply transfer_result_movements.
  - split; [intros _; exact Hrun | intros H; now contradiction H].
Qed.

Lemma transfer_moves_stock_between_warehouses_witness :
  fst (transfer 5 (mk_transfer 1 1 2 4) db1)
    = Success 200 "Inventory transferred successfully"
  /\ quantity_of (snd (transfer 5 (mk_transfer 1 1 2 4) db1)) 1 1 = 10 - 4
  /\ quantity_of (snd (transfer 5 (mk_transfer 1 1 2 4) db1)) 1 2 = 0 + 4
  /\ transfer 5 (mk_transfer 1 1 2 11) db1
     = (Failure 400 "Insufficient stock in source warehouse", db1).
Proof.
  pose proof (transfer_moves_stock_between_warehouses 5 (mk_transfer 1 1 2 4) db1
                1 1 2 4 eq_refl eq_refl eq_refl eq_refl eq_refl) as [_ Hmove].
  pose proof (transfer_moves_stock_between_warehouses 5 (mk_transfer 1 1 2 11) db1
                1 1 2 11 eq_refl eq_refl eq_refl eq_refl eq_refl) as [Hfail _].
  assert (Hrow : find_inventory (inventory db1) 1 1 <> None) by discriminate.
  assert (Hge : 4 <= quantity_of db1 1 1) by (vm_compute; discriminate).
  assert (Hab : 1 <> 2) by discriminate.
  assert (Hin : In 2 (warehouses db1)) by (simpl; tauto).
  destruct (Hmove Hrow Hge Hab Hin eq_refl eq_refl eq_refl) as (Hr & Hs & Hd & _).
  split; [exact Hr|]. split; [exact Hs|]. split; [exact Hd|].
  apply Hfail. right. vm_compute. reflexivity.
Defined.

(** C3, as stated, fails when source and destination are the same
    warehouse: both handles denote one row, the debit and the credit cancel,
    and the quantity at A does not decrease although A holds at least n. *)
Lemma transfer_same_warehouse_counterexample :
  ~ (4 <= quantity_of db1 1 1 ->
     quantity_of (snd (transfer 5 (mk_transfer 1 1 1 4) db1)) 1 1
     = quantity_of db1 1 1 - 4).
Proof.
  vm_compute. intros H. assert (Hle : (4 ?= 10) <> Gt) by discriminate.
  specialize (H Hle). discriminate H.
Qed.

(** C4 is violated by the code.  From a state reached by one accepted
    adjustment, a transfer with a negative quantity passes the stock check of
    the source and is answered with success, and the destination is left with
    a negative quantity. *)
Theorem transfer_negative_quantity_breaks_nonnegativity :
  let d0 := snd (adjust 1 (mk_adjust 1 1 10 "in") base_db) in
  fst (adjust 1 (mk_adjust 1 1 10 "in") base_db)
    = Success 200 "Inventory adjusted successfully"
  /\ quantity_of d0 1 1 = 10 /\ quantity_of d0 1 2 = 0
  /\ fst (transfer 2 (mk_transfer 1 1 2 (-4)) d0)
     = Success 200 "Inventory transferred successfully"
  /\ quantity_of (snd (transfer 2 (mk_transfer 1 1 2 (-4)) d0)) 1 2 = -4.
Proof.
  vm_compute. repeat split; reflexivity.
Qed.

(** The sibling handler that issues stock refuses a quantity that is not
    positive before it touches the ledger. *)
Lemma issue_rejects_nonpositive (now : Z) (data : ScanData) (d : DB) (bc : string) (w q : Z) :
  scan_barcode data = Some bc -> scan_warehouse_id data = Some w ->
  scan_quantity data = Some q -> q <= 0 ->
  issue now data d = (Failure 400 "Quantity must be greater than 0", d).
Proof.
  intros Hb Hw Hq Hle. unfold issue, run_view, scan_issue. rewrite Hb, Hw, Hq.
  apply Z.leb_le in Hle. now rewrite Hle.
Qed.

(** An accepted adjustment leaves the adjusted pair with a quantity that is
    not negative. *)
Lemma adjust_accepted_nonnegative
    (now : Z) (data : AdjustData) (d : DB) (p w c : Z) (ty : string) :
  integrity_ok d = true ->
  adj_product_id data = Some p -> adj_warehouse_id data = Some w ->
  adj_quantity_change data = Some c -> adj_movement_type data = Some ty ->
  is_success (fst (adjust now data d)) = true ->
  0 <= quantity_of (snd (adjust now data d)) p w.
Proof.
  intros Hok Hp Hw Hc Hty.
  rewrite (adjust_run now data p w c ty Hp Hw Hc Hty d (integrity_inventory_ids d Hok)).
  destruct (quantity_of d p w + c <? 0) eqn:E; [discriminate|].
  destruct (integrity_ok (adjust_result now data p w c ty d)); [|discriminate].
  cbn [fst snd]. intros _.
  rewrite adjust_result_quantity. apply Z.ltb_ge in E. lia.
Qed.


Definition put_quantity (q : Z) : UpdateData :=
  {| upd_quantity := Some q; upd_reorder_level := None;
     upd_max_stock_level := None; upd_other_keys := false |}.


(** ** Properties of the stock count *)

Definition mk_count (bc : string) (w c : Z) : CountData :=
  {| cnt_barcode := Some bc; cnt_warehouse_id := Some w;
     cnt_counted_quantity := Some c |}.

(** What a count of the quantity on hand leaves: the answer is a success,
    no movement is added, the rows of the other pairs are as they were, and
    the row of the pair, created when there was none, has the same quantity
    and levels and the time of the count. *)
Lemma count_of_quantity_on_hand
    (now : Z) (data : CountData) (d : DB) (bc : string) (w c : Z) (product : Product) :
  integrity_ok d = true ->
  cnt_barcode data = Some bc -> cnt_warehouse_id data = Some w ->
  cnt_counted_quantity data = Some c ->
  find_product_by_barcode (products d) bc = Some product ->
  In w (warehouses d) ->
  0 <= c ->
  c = quantity_of d (prod_id product) w ->
  fst (count now data d) = Success 200 "Stock count completed successfully"
  /\ integrity_ok (snd (count now data d)) = true
  /\ products (snd (count now data d)) = products d
  /\ warehouses (snd (count now data d)) = warehouses d
  /\ stock_movements (snd (count now data d)) = stock_movements d
  /\ (forall p' w',
        (p', w') <> (prod_id product, w) ->
        find_inventory (inventory (snd (count now data d))) p' w'
        = find_inventory (inventory d) p' w')
  /\ exists r',
       find_inventory (inventory (snd (count now data d))) (prod_id product) w = Some r'
       /\ inv_quantity r' = c
       /\ inv_last_updated r' = now
       /\ match find_inventory (inventory d) (prod_id product) w with
          | Some r =>
              inv_id r' = inv_id r
              /\ inv_reorder_level r' = inv_reorder_level r
              /\ inv_max_stock_level r' = inv_max_stock_level r
          | None =>
              inv_id r' = next_id (map inv_id (inventory d))
              /\ inv_reorder_level r' = 10
              /\ inv_max_stock_level r' = 1000
          end.
Proof.
  intros Hok Hbc Hw Hc Hprod Hwh Hge Hcur.
  assert (Hfc : fits_integer c = true) by (rewrite Hcur; now apply quantity_of_fits).
  assert (Hfd : fits_integer (Z.abs (c - quantity_of d (prod_id product) w)) = true)
    by (now rewrite <- Hcur, Z.sub_diag).
  destruct (count_accepts now data d bc w c product Hok Hbc Hw Hc Hge Hprod Hwh Hfc Hfd)
    as [Hrun Hint].
  rewrite Hrun. cbn [fst snd]. split; [reflexivity|]. split; [exact Hint|].
  rewrite count_result_as_write.
  split; [reflexivity|]. split; [reflexivity|]. split.
  { rewrite stock_write_movements, <- Hcur, Z.sub_diag. apply app_nil_r. }
  split.
  { intros p' w' Hne. apply stock_write_other_row; [|exact Hne].
    now apply integrity_inventory_ids. }
  match goal with
  | |- context [stock_write now ?p w ?rl ?ms c ?mvs d] =>
      destruct (stock_write_row now p w rl ms c mvs d)
        as (r' & Hfind & Hid & Hquant & Htime & Hrl & Hms)
  end.
  exists r'. split; [exact Hfind|]. split; [exact Hquant|]. split; [exact Htime|].
  unfold row_of_pair in Hid, Hrl, Hms.
  destruct (find_inventory (inventory d) (prod_id product) w) as [r|];
    now repeat split.
Qed.

(** C5, as amended.  In a consistent database, for a known barcode and an
    existing warehouse: (a) a count below 0 is answered 400 and changes
    nothing; (b) a count equal to the quantity on hand of the pair (0 for a
    pair without a row) succeeds, adds no movement and leaves the rows of
    the other pairs as they were; the row of the pair keeps its quantity and
    levels and takes the time of the count, and is created, with levels 10
    and 1000, when the pair had none; (c) when the counted quantity and the
    size of the adjustment fit the integer column, the same count made a
    second time succeeds as the first did, adds no movement and leaves the
    rows of the other pairs as the first left them; the row of the pair is
    the one the first count left, with the same quantity and levels, and
    with the time of the second count. *)
Theorem count_noop_idempotent_nonnegative
    (now now' : Z) (data : CountData) (d : DB) (bc : string) (w c : Z)
    (product : Product) :
  integrity_ok d = true ->
  cnt_barcode data = Some bc -> cnt_warehouse_id data = Some w ->
  cnt_counted_quantity data = Some c ->
  find_product_by_barcode (products d) bc = Some product ->
  In w (warehouses d) ->
  (c < 0 ->
   count now data d = (Failure 400 "Counted quantity cannot be negative", d))
  /\ (0 <= c -> c = quantity_of d (prod_id product) w ->
      fst (count now data d) = Success 200 "Stock count completed successfully"
      /\ stock_movements (snd (count now data d)) = stock_movements d
      /\ (forall p' w',
            (p', w') <> (prod_id product, w) ->
            find_inventory (inventory (snd (count now data d))) p' w'
            = find_inventory (inventory d) p' w')
      /\ exists r',
           find_inventory (inventory (snd (count now data d))) (prod_id product) w
           = Some r'
           /\ inv_quantity r' = quantity_of d (prod_id product) w
           /\ inv_last_updated r' = now
           /\ match find_inventory (inventory d) (prod_id product) w with
              | Some r =>
                  inv_id r' = inv_id r
                  /\ inv_reorder_level r' = inv_reorder_level r
                  /\ inv_max_stock_level r' = inv_max_stock_level r
              | None =>
                  inv_id r' = next_id (map inv_id (inventory d))
                  /\ inv_reorder_level r' = 10
                  /\ inv_max_stock_level r' = 1000
              end)
  /\ (0 <= c -> fits_integer c = true ->
      fits_integer (Z.abs (c - quantity_of d (prod_id product) w)) = true ->
      fst (count now data d) = Success 200 "Stock count completed successfully"
      /\ fst (count now' data (snd (count now data d)))
         = Success 200 "Stock count completed successfully"
      /\ stock_movements (snd (count now' data (snd (count now data d))))
         = stock_movements (snd (count now data d))
      /\ (forall p' w',
            (p', w') <> (prod_id product, w) ->
            find_inventory
              (inventory (snd (count now' data (snd (count now data d))))) p' w'
            = find_inventory (inventory (snd (count now data d))) p' w')
      /\ exists r1 r2,
           find_inventory (inventory (snd (count now data d))) (prod_id product) w
           = Some r1
           /\ find_inventory
                (inventory (snd (count now' data (snd (count now data d)))))
                (prod_id product) w
              = Some r2
           /\ inv_quantity r1 = c /\ inv_quantity r2 = c
           /\ inv_id r2 = inv_id r1
           /\ inv_reorder_level r2 = inv_reorder_level r1
           /\ inv_max_stock_level r2 = inv_max_stock_level r1
           /\ inv_last_updated r2 = now').
Proof.
  intros Hok Hbc Hw Hc Hprod Hwh. split; [|split].
  - intros Hneg.
    rewrite (count_run data bc w c Hbc Hw Hc now d (integrity_inventory_ids d Hok)).
    apply Z.ltb_lt in Hneg. now rewrite Hneg.
  - intros Hge Hcur.
    destruct (count_of_quantity_on_hand now data d bc w c product
                Hok Hbc Hw Hc Hprod Hwh Hge Hcur)
      as (H1 & _ & _ & _ & H2 & H3 & r' & Hf & Hq & Ht & Hm).
    split; [exact H1|]. split; [exact H2|]. split; [exact H3|].
    exists r'. rewrite <- Hcur. auto.
  - intros Hge Hfc Hfd.
    destruct (count_accepts now data d bc w c product Hok Hbc Hw Hc Hge Hprod Hwh Hfc Hfd)
      as [Hrun Hint].
    assert (Hq1 : quantity_of (snd (count now data d)) (prod_id product) w = c).
    { rewrite Hrun. cbn [snd]. rewrite count_result_as_write.
      apply stock_write_quantity. }
    assert (Hok1 : integrity_ok (snd (count now data d)) = true)
      by (now rewrite Hrun).
    assert (Hprod1 : find_product_by_barcode (products (snd (count now data d))) bc
                     = Some product) by (now rewrite Hrun).
    assert (Hwh1 : In w (warehouses (snd (count now data d)))) by (now rewrite Hrun).
    destruct (count_of_quantity_on_hand now' data (snd (count now data d)) bc w c product
                Hok1 Hbc Hw Hc Hprod1 Hwh1 Hge (eq_sym Hq1))
      as (H1 & _ & _ & _ & H2 & H3 & r2 & Hf2 & Hquant2 & Ht2 & Hm2).
    split; [now rewrite Hrun|]. split; [exact H1|]. split; [exact H2|].
    split; [exact H3|].
    destruct (find_inventory (inventory (snd (count now data d))) (prod_id product) w)
      as [r1|] eqn:Hf1.
    + exists r1, r2. split; [reflexivity|]. split; [exact Hf2|].
      unfold quantity_of in Hq1. rewrite Hf1 in Hq1.
      destruct Hm2 as (Hid & Hrl & Hms). repeat split; assumption.
    + exfalso. revert Hf1. rewrite Hrun. cbn [snd]. rewrite count_result_as_write.
      apply stock_write_has_row.
Qed.

Lemma count_noop_idempotent_nonnegative_witness :
  count 6 (mk_count "000001" 1 (-1)) db1
    = (Failure 400 "Counted quantity cannot be negative", db1)
  /\ stock_movements (snd (count 6 (mk_count "000001" 1 10) db1)) = []
  /\ option_map inv_last_updated
       (find_inventory (inventory (snd (count 6 (mk_count "000001" 1 10) db1))) 1 1)
     = Some 6
  /\ stock_movements (snd (count 7 (mk_count "000001" 1 4)
                             (snd (count 6 (mk_count "000001" 1 4) db1))))
     = stock_movements (snd (count 6 (mk_count "000001" 1 4) db1)).
Proof.
  set (pr := {| prod_id := 1; prod_name := "Widget"; prod_sku := "W-1";
                prod_barcode := Some "000001" |}).
  assert (Hwh : In 1 (warehouses db1)) by (simpl; tauto).
  destruct (count_noop_idempotent_nonnegative 6 7 (mk_count "000001" 1 (-1)) db1
              "000001" 1 (-1) pr eq_refl eq_refl eq_refl eq_refl eq_refl Hwh)
    as (Hneg & _ & _).
  destruct (count_noop_idempotent_nonnegative 6 7 (mk_count "000001" 1 10) db1
              "000001" 1 10 pr eq_refl eq_refl eq_refl eq_refl eq_refl Hwh)
    as (_ & Hcur & _).
  destruct (count_noop_idempotent_nonnegative 6 7 (mk_count "000001" 1 4) db1
              "000001" 1 4 pr eq_refl eq_refl eq_refl eq_refl eq_refl Hwh)
    as (_ & _ & Htwice).
  split; [apply Hneg; reflexivity|].
  destruct Hcur as (_ & Hm & _ & r' & Hf & _ & Ht & _);
    [discriminate | reflexivity |].
  change (prod_id pr) with 1 in Hf.
  split; [exact Hm|]. split; [rewrite Hf; cbn [option_map]; now rewrite Ht|].
  destruct Htwice as (_ & _ & Hm2 & _); [discriminate | reflexivity | reflexivity |].
  exact Hm2.
Defined.

(** C5, as stated, fails.  A count of the quantity on hand changes the row
    of the pair, which takes the time of the count; on a pair without a row
    a count of 0 adds a row; and the same count made twice, at two times,
    does not leave the state that one count leaves. *)
Lemma count_restamps_counterexample :
  inventory (snd (count 6 (mk_count "000001" 1 10) db1)) <> inventory db1
  /\ List.length (inventory (snd (count 6 (mk_count "000001" 2 0) db1)))
     <> List.length (inventory db1)
  /\ snd (count 7 (mk_count "000001" 1 4) (snd (count 6 (mk_count "000001" 1 4) db1)))
     <> snd (count 6 (mk_count "000001" 1 4) db1).
Proof.
  repeat split; vm_compute; intros H; discriminate H.
Qed.

(** ** Properties of cancellation *)

Definition db2 : DB :=
  {| products := [ {| prod_id := 1; prod_name := "Widget"; prod_sku := "W-1";
                      prod_barcode := Some "000001" |} ];
     warehouses := [1; 2]; suppliers := [1];
     inventory := [ {| inv_id := 1; inv_product_id := 1; inv_warehouse_id := 1;
                       inv_quantity := 4; inv_reorder_level := 10;
                       inv_max_stock_level := 1000; inv_last_updated := 0 |} ];
     stock_movements :=
       [ {| mv_product_id := 1; mv_warehouse_id := 1; mv_movement_type := "in";
            mv_quantity := 4; mv_reference_type := Some "purchase_order";
            mv_reference_id := Some 1; mv_notes := Some "Received from PO PO-1";
            mv_created_at := 0 |} ];
     purchase_orders :=
       [ {| po_id := 1; po_order_number := "PO-1"; po_supplier_id := 1;
            po_status := "approved"; po_order_date := 0;
            po_expected_delivery := None; po_actual_delivery := None;
            po_total_amount := 50; po_notes := None |};
         {| po_id := 2; po_order_number := "PO-2"; po_supplier_id := 1;
            po_status := "received"; po_order_date := 0;
            po_expected_delivery := None; po_actual_delivery := Some 0;
            po_total_amount := 10; po_notes := None |} ];
     purchase_order_items :=
       [ {| poi_id := 1; poi_purchase_order_id := 1; poi_product_id := 1;
            poi_quantity := 10; poi_unit_price := 5; poi_received_quantity := 4 |};
         {| poi_id := 2; poi_purchase_order_id := 2; poi_product_id := 1;
            poi_quantity := 2; poi_unit_price := 5; poi_received_quantity := 2 |} ] |}.

(** C7.  In a consistent database, cancelling an order whose status is
    'received' or 'cancelled' is answered with 409 and changes nothing;
    cancelling an order in any other status succeeds and leaves the order
    with status 'cancelled' and every other column as it was; the other
    orders, the inventory table, the movement history and the order items
    are exactly as they were. *)
Theorem cancel_rejected_or_keeps_stock (now po : Z) (d : DB) (o : PurchaseOrder) :
  integrity_ok d = true ->
  get_purchase_order (purchase_orders d) po = Some o ->
  (po_status o = "received" \/ po_status o = "cancelled" ->
   cancel now po d = (Failure 409 "Cannot cancel purchase order in current status", d))
  /\ (po_status o <> "received" -> po_status o <> "cancelled" ->
      fst (cancel now po d) = Success 200 "Purchase order cancelled successfully"
      /\ (exists o',
            get_purchase_order (purchase_orders (snd (cancel now po d))) po = Some o'
            /\ po_status o' = "cancelled"
            /\ po_id o' = po_id o
            /\ po_order_number o' = po_order_number o
            /\ po_supplier_id o' = po_supplier_id o
            /\ po_order_date o' = po_order_date o
            /\ po_expected_delivery o' = po_expected_delivery o
            /\ po_actual_delivery o' = po_actual_delivery o
            /\ po_total_amount o' = po_total_amount o
            /\ po_notes o' = po_notes o)
      /\ (forall po',
            po' <> po ->
            get_purchase_order (purchase_orders (snd (cancel now po d))) po'
            = get_purchase_order (purchase_orders d) po')
      /\ inventory (snd (cancel now po d)) = inventory d
      /\ stock_movements (snd (cancel now po d)) = stock_movements d
      /\ purchase_order_items (snd (cancel now po d)) = purchase_order_items d).
Proof.
  intros Hok Ho. rewrite (cancel_run now po d o Ho). split.
  - intros [H|H]; rewrite H; reflexivity.
  - intros H1 H2.
    apply String.eqb_neq in H1, H2. rewrite H1, H2. cbn [orb].
    rewrite (status_result_integrity now po "cancelled" d Hok). cbn [fst snd].
    split; [reflexivity|]. split.
    { exists (po_with_status "cancelled" o).
      split; [now apply status_result_order|]. repeat split. }
    split; [intros po' Hne; now apply status_result_other_order|].
    split; [now apply status_result_inventory|]. split; reflexivity.
Qed.

Lemma cancel_rejected_or_keeps_stock_witness :
  cancel 9 2 db2 = (Failure 409 "Cannot cancel purchase order in current status", db2)
  /\ fst (cancel 9 1 db2) = Success 200 "Purchase order cancelled successfully"
  /\ option_map po_status (get_purchase_order (purchase_orders (snd (cancel 9 1 db2))) 1)
     = Some "cancelled"
  /\ inventory (snd (cancel 9 1 db2)) = inventory db2
  /\ stock_movements (snd (cancel 9 1 db2)) = stock_movements db2.
Proof.
  pose proof (cancel_rejected_or_keeps_stock 9 2 db2
                {| po_id := 2; po_order_number := "PO-2"; po_supplier_id := 1;
                   po_status := "received"; po_order_date := 0;
                   po_expected_delivery := None; po_actual_delivery := Some 0;
                   po_total_amount := 10; po_notes := None |} eq_refl eq_refl)
    as [Hrej _].
  pose proof (cancel_rejected_or_keeps_stock 9 1 db2
                {| po_id := 1; po_order_number := "PO-1"; po_supplier_id := 1;
                   po_status := "approved"; po_order_date := 0;
                   po_expected_delivery := None; po_actual_delivery := None;
                   po_total_amount := 50; po_notes := None |} eq_refl eq_refl)
    as [_ Hacc].
  split; [apply Hrej; now left|].
  destruct Hacc as (H1 & (o' & Ho' & Hst & _) & _ & H3 & H4 & _);
    [discriminate | discriminate |].
  split; [exact H1|]. split; [rewrite Ho'; cbn [option_map]; now rewrite Hst|].
  split; [exact H3 | exact H4].
Defined.

(** ** Properties of receiving *)

(** A sequence of receive calls: clock reading, order id and body of each. *)
Fixpoint run_receives (calls : list (Z * Z * ReceiveData)) (d : DB) : DB :=
  match calls with
  | [] => d
  | (now, po, data) :: rest => run_receives rest (snd (receive now po data d))
  end.

Lemma run_receives_grow calls : forall d,
  integrity_ok d = true ->
  Forall2 item_grows (purchase_order_items d)
    (purchase_order_items (run_receives calls d)).
Proof.
  induction calls as [|[[now po] data] rest IH]; intros d Hok; simpl.
  - apply Forall2_item_grows_refl.
  - destruct (receive_cases now po data d Hok)
      as [(st & e & ->) | (d' & o & -> & Hok' & _ & _ & Hg & _)]; cbn [snd].
    + now apply IH.
    + eapply Forall2_item_grows_trans; [exact Hg | now apply IH].
Qed.


Definition mk_receive (w item q : Z) : ReceiveData :=
  {| rcv_warehouse_id := Some w;
     rcv_received_items :=
       [ {| rcv_po_item_id := Some item; rcv_received_quantity := Some q |} ] |}.

(** ** Order creation and the sign of quantities *)

Definition mk_item (p q price : Z) : ItemData :=
  {| item_product_id := Some p; item_quantity := Some q;
     item_unit_price := Some price |}.

Definition mk_create (supplier : Z) (items : list ItemData) : CreateData :=
  {| crt_supplier_id := Some supplier; crt_items := items;
     crt_expected_delivery := None; crt_notes := None |}.

(** C8.  The check of an item, [not item_data.get('quantity')], refuses a
    quantity that is missing or 0 and lets a negative one pass, and so for
    the unit price.  A request for -3 units at price 5 from a known supplier
    of a known product is answered 201: a pending order with total amount
    -15 and an item of quantity -3 are stored, where the claim has the
    request refused. *)
Theorem create_accepts_negative_quantity :
  fst (create 3 "PO-3" (mk_create 1 [mk_item 1 (-3) 5]) db2)
    = Success 201 "Purchase order created successfully"
  /\ purchase_orders (snd (create 3 "PO-3" (mk_create 1 [mk_item 1 (-3) 5]) db2))
     = purchase_orders db2
       ++ [ {| po_id := 3; po_order_number := "PO-3"; po_supplier_id := 1;
               po_status := "pending"; po_order_date := 3;
               po_expected_delivery := None; po_actual_delivery := None;
               po_total_amount := -15; po_notes := None |} ]
  /\ purchase_order_items
       (snd (create 3 "PO-3" (mk_create 1 [mk_item 1 (-3) 5]) db2))
     = purchase_order_items db2
       ++ [ {| poi_id := 3; poi_purchase_order_id := 3; poi_product_id := 1;
               poi_quantity := -3; poi_unit_price := 5;
               poi_received_quantity := 0 |} ].
Proof.
  repeat split; vm_compute; reflexivity.
Qed.

(** ** Properties of the turnover report *)

Definition db3 : DB :=
  {| products := [ {| prod_id := 1; prod_name := "Widget"; prod_sku := "W-1";
                      prod_barcode := Some "000001" |} ];
     warehouses := [1; 2]; suppliers := [1];
     inventory :=
       [ {| inv_id := 1; inv_product_id := 1; inv_warehouse_id := 1;
            inv_quantity := 10; inv_reorder_level := 10;
            inv_max_stock_level := 1000; inv_last_updated := 0 |};
         {| inv_id := 2; inv_product_id := 1; inv_warehouse_id := 2;
            inv_quantity := 10; inv_reorder_level := 10;
            inv_max_stock_level := 1000; inv_last_updated := 0 |} ];
     stock_movements :=
       [ {| mv_product_id := 1; mv_warehouse_id := 1; mv_movement_type := "out";
            mv_quantity := 5; mv_reference_type := None; mv_reference_id := None;
            mv_notes := None; mv_created_at := 100 |} ];
     purchase_orders := []; purchase_order_items := [] |}.

(** C9 is violated by the code.  The product has one 'out' movement of 5 in
    the window and stock 10 in each of two warehouses, so its average
    inventory is 10 and its turnover 5 / 10.  The query sums the movement
    quantity over the join with the inventory rows, once per warehouse: the
    report gives total movement 10 and turnover rate 1.00. *)
Theorem turnover_sums_movements_once_per_inventory_row :
  get_inventory_turnover 200 30 db3
  = [ {| row_product_id := 1; row_product_name := "Widget"; row_sku := "W-1";
         row_total_movement := 10; row_avg_inventory := Qmake 20 2;
         row_turnover_rate := Qmake 100 100 |} ].
Proof. vm_compute. reflexivity. Qed.

(** ** Further properties of the adjust endpoint *)

Lemma adjust_result_as_write now data p w c ty d :
  adjust_result now data p w c ty d
  = stock_write now p w (get_default (adj_reorder_level data) 10)
      (get_default (adj_max_stock_level data) 1000) (quantity_of d p w + c)
      [adjust_movement now data p w c ty] d.
Proof. reflexivity. Qed.

(** An adjustment is committed when product and warehouse exist, the new
    quantity is not negative and what is written fits its column. *)
Lemma adjust_accepts
    (now : Z) (data : AdjustData) (d : DB) (p w c : Z) (ty : string) :
  integrity_ok d = true ->
  adj_product_id data = Some p -> adj_warehouse_id data = Some w ->
  adj_quantity_change data = Some c -> adj_movement_type data = Some ty ->
  In p (map prod_id (products d)) -> In w (warehouses d) ->
  0 <= quantity_of d p w + c ->
  fits_integer (quantity_of d p w + c) = true ->
  fits_integer (Z.abs c) = true ->
  fits_if_present (adj_reference_id data) = true ->
  (find_inventory (inventory d) p w = None ->
   fits_integer (get_default (adj_reorder_level data) 10) = true
   /\ fits_integer (get_default (adj_max_stock_level data) 1000) = true) ->
  adjust now data d
  = (Success 200 "Inventory adjusted successfully",
     stock_write now p w (get_default (adj_reorder_level data) 10)
       (get_default (adj_max_stock_level data) 1000) (quantity_of d p w + c)
       [adjust_movement now data p w c ty] d).
Proof.
  intros Hok Hp Hw Hc Hty Hprod Hwh Hge Hfq Hfc Hfr Hnew.
  rewrite (adjust_run now data p w c ty Hp Hw Hc Hty d (integrity_inventory_ids d Hok)).
  assert (Hlt : (quantity_of d p w + c <? 0) = false) by (apply Z.ltb_ge; lia).
  rewrite Hlt, adjust_result_as_write.
  rewrite stock_write_integrity; try assumption; [reflexivity | repeat constructor |].
  cbn [forallb]. unfold movement_fits, adjust_movement.
  cbn [mv_quantity mv_reference_id]. now rewrite Hfc, Hfr.
Qed.



(** X2.  Whatever an adjust call answers, it changes neither the quantity
    nor the movements of any pair other than the one it names. *)
Theorem adjust_leaves_other_pairs
    (now : Z) (data : AdjustData) (d : DB) (p' w' : Z) :
  integrity_ok d = true ->
  targets p' w' data = false ->
  quantity_of (snd (adjust now data d)) p' w' = quantity_of d p' w'
  /\ movements_of (snd (adjust now data d)) p' w' = movements_of d p' w'.
Proof.
  intros Hok Ht.
  destruct (adjust_cases now data d Hok) as
    [(st & e & ->) | (p & w & c & ty & Hp & Hw & Hc & Hty & -> & Hok')];
    cbn [snd]; [split; reflexivity|].
  unfold targets in Ht. rewrite Hp, Hw in Ht.
  assert (Hne : (p', w') <> (p, w)).
  { intros Heq. inversion Heq; subst. now rewrite !Z.eqb_refl in Ht. }
  split.
  - apply adjust_result_other; [now apply integrity_inventory_ids | exact Hne].
  - unfold movements_of. rewrite adjust_result_movements, filter_app.
    cbn [filter adjust_movement mv_product_id mv_warehouse_id].
    rewrite Ht. apply app_nil_r.
Qed.

Lemma adjust_leaves_other_pairs_witness :
  quantity_of (snd (adjust 4 (mk_adjust 1 2 7 "in") db1)) 1 1 = 10
  /\ movements_of (snd (adjust 4 (mk_adjust 1 2 7 "in") db1)) 1 1 = [].
Proof.
  exact (adjust_leaves_other_pairs 4 (mk_adjust 1 2 7 "in") db1 1 1 eq_refl eq_refl).
Defined.

(** ** The barcode receive and issue endpoints *)

Definition scan_in (now : Z) (data : ScanData) (d : DB) : Response * DB :=
  run_view (scan_receive now data) d.

Definition scan_movement (now pid w q : Z) (ty note : string) : StockMovement :=
  {| mv_product_id := pid; mv_warehouse_id := w; mv_movement_type := ty;
     mv_quantity := q; mv_reference_type := Some "barcode_scan";
     mv_reference_id := None; mv_notes := Some note; mv_created_at := now |}.

Section Scan.

Variables (data : ScanData) (bc : string) (w q : Z).
Hypothesis Hbc : scan_barcode data = Some bc.
Hypothesis Hw : scan_warehouse_id data = Some w.
Hypothesis Hq : scan_quantity data = Some q.

Definition scan_in_result (now : Z) (d : DB) (pid : Z) : DB :=
  stock_write now pid w 10 1000 (quantity_of d pid w + q)
    [scan_movement now pid w q "in" ("Barcode scan receive: " ++ bc)%string] d.

Definition issue_result (now : Z) (d : DB) (pid : Z) : DB :=
  stock_write now pid w 10 1000 (quantity_of d pid w - q)
    [scan_movement now pid w q "out" ("Barcode scan issue: " ++ bc)%string] d.

Lemma scan_in_run (now : Z) (d : DB) :
  NoDup (map inv_id (inventory d)) ->
  scan_in now data d =
  if q <=? 0 then (Failure 400 "Quantity must be greater than 0", d)
  else
    match find_product_by_barcode (products d) bc with
    | None => (Failure 404 "Product not found", d)
    | Some product =>
        if integrity_ok (scan_in_result now d (prod_id product)) then
          (Success 200 "Inventory received successfully",
           scan_in_result now d (prod_id product))
        else (Failure 500 (str DatabaseError), d)
    end.
Proof.
  intros Hnd. unfold scan_in, run_view, scan_receive. rewrite Hbc, Hw, Hq.
  destruct (q <=? 0); [reflexivity|].
  unfold bind at 1. unfold query at 1. cbn [working].
  destruct (find_product_by_barcode (products d) bc) as [product|]; [|reflexivity].
  rewrite get_or_create_run. cbn [working committed].
  unfold bind at 1. unfold inv_get at 1. cbn [working inventory db_with_inventory].
  rewrite get_row_of_pair by exact Hnd. rewrite quantity_row_of_pair.
  unfold bind, inv_set, add_movement, update, commit, ret. cbn [working committed].
  settle_commit.
Qed.

Lemma issue_run (now : Z) (d : DB) :
  NoDup (map inv_id (inventory d)) ->
  issue now data d =
  if q <=? 0 then (Failure 400 "Quantity must be greater than 0", d)
  else
    match find_product_by_barcode (products d) bc with
    | None => (Failure 404 "Product not found", d)
    | Some product =>
        match find_inventory (inventory d) (prod_id product) w with
        | None =>
            (Failure 404 "No inventory found for this product in the warehouse", d)
        | Some r =>
            if inv_quantity r <? q then
              (Failure 400
                 ("Insufficient stock. Available: " ++ fmt (inv_quantity r)
                  ++ ", Requested: " ++ fmt q)%string, d)
            else if integrity_ok (issue_result now d (prod_id product)) then
              (Success 200 "Inventory issued successfully",
               issue_result now d (prod_id product))
            else (Failure 500 (str DatabaseError), d)
        end
    end.
Proof.
  intros Hnd. unfold issue, run_view, scan_issue. rewrite Hbc, Hw, Hq.
  destruct (q <=? 0); [reflexivity|].
  unfold bind at 1. unfold query at 1. cbn [working].
  destruct (find_product_by_barcode (products d) bc) as [product|]; [|reflexivity].
  unfold bind at 1. unfold Inventory_first at 1, query at 1. cbn [working].
  destruct (find_inventory (inventory d) (prod_id product) w) as [r|] eqn:Hr;
    [|reflexivity].
  destruct (inv_quantity r <? q); [reflexivity|].
  unfold bind at 1. unfold inv_get at 1. cbn [working].
  rewrite (get_row_of_found _ _ _ _ Hnd Hr).
  unfold issue_result, stock_write, rows_with_pair, row_of_pair, quantity_of.
  rewrite Hr.
  unfold bind, inv_set, add_movement, update, commit, ret. cbn [working committed].
  settle_commit.
Qed.

End Scan.

Definition mk_scan (bc : string) (w q : Z) : ScanData :=
  {| scan_barcode := Some bc; scan_warehouse_id := Some w; scan_quantity := Some q |}.

(** A barcode receive of a positive quantity, for a known barcode and an
    existing warehouse, is committed when the quantity and the new quantity
    on hand fit their column. *)
Lemma scan_in_accepts
    (now : Z) (data : ScanData) (d : DB) (bc : string) (w q : Z) (product : Product) :
  integrity_ok d = true ->
  scan_barcode data = Some bc -> scan_warehouse_id data = Some w ->
  scan_quantity data = Some q ->
  0 < q -> find_product_by_barcode (products d) bc = Some product ->
  In w (warehouses d) ->
  fits_integer q = true ->
  fits_integer (quantity_of d (prod_id product) w + q) = true ->
  scan_in now data d
  = (Success 200 "Inventory received successfully",
     scan_in_result bc w q now d (prod_id product))
  /\ integrity_ok (scan_in_result bc w q now d (prod_id product)) = true.
Proof.
  intros Hok Hbc Hw Hq Hpos Hprod Hwh Hfq Hfn.
  rewrite (scan_in_run data bc w q Hbc Hw Hq now d (integrity_inventory_ids d Hok)).
  apply Z.leb_gt in Hpos. rewrite Hpos, Hprod.
  assert (Hint : integrity_ok (scan_in_result bc w q now d (prod_id product)) = true).
  { apply stock_write_integrity; try assumption.
    - now apply find_product_by_barcode_member in Hprod.
    - repeat constructor.
    - cbn [forallb]. unfold movement_fits, scan_movement.
      cbn [mv_quantity mv_reference_id fits_if_present]. now rewrite Hfq.
    - intros _. apply fits_default_levels. }
  rewrite Hint. split; reflexivity.
Qed.



Lemma issue_accepts
    (now : Z) (data : ScanData) (d : DB) (bc : string) (w q : Z) (product : Product)
    (r : Inventory) :
  integrity_ok d = true ->
  scan_barcode data = Some bc -> scan_warehouse_id data = Some w ->
  scan_quantity data = Some q ->
  0 < q ->
  find_product_by_barcode (products d) bc = Some product ->
  find_inventory (inventory d) (prod_id product) w = Some r ->
  q <= inv_quantity r ->
  issue now data d
  = (Success 200 "Inventory issued successfully",
     issue_result bc w q now d (prod_id product))
  /\ quantity_of (issue_result bc w q now d (prod_id product)) (prod_id product) w
     = inv_quantity r - q.
Proof.
  intros Hok Hbc Hw Hq Hpos Hprod Hr Hge.
  rewrite (issue_run data bc w q Hbc Hw Hq now d (integrity_inventory_ids d Hok)).
  apply Z.leb_gt in Hpos. rewrite Hpos, Hprod, Hr.
  assert (Hlt : (inv_quantity r <? q) = false) by (apply Z.ltb_ge; lia).
  rewrite Hlt.
  assert (Hold : quantity_of d (prod_id product) w = inv_quantity r)
    by (unfold quantity_of; now rewrite Hr).
  assert (Hint : integrity_ok (issue_result bc w q now d (prod_id product)) = true).
  { pose proof (found_quantity_fits d Hok _ _ _ Hr) as Hfr.
    assert (Hf0 : fits_integer 0 = true) by reflexivity.
    apply stock_write_integrity; try assumption.
    - now apply find_product_by_barcode_member in Hprod.
    - pose proof (find_inventory_some _ _ _ _ Hr) as (Hin & _ & Hrw).
      destruct (inventory_row_fk _ _ _ _ (integrity_inventory d Hok) Hin) as [_ H].
      now rewrite Hrw in H.
    - repeat constructor.
    - rewrite Hold.
      apply (fits_integer_between 0 _ (inv_quantity r)); [assumption..|].
      apply Z.leb_gt in Hpos. lia.
    - cbn [forallb]. unfold movement_fits, scan_movement.
      cbn [mv_quantity mv_reference_id fits_if_present].
      rewrite (fits_integer_between 0 q (inv_quantity r)); [reflexivity|assumption..|].
      apply Z.leb_gt in Hpos. lia.
    - intros Hnone. rewrite Hnone in Hr. discriminate. }
  rewrite Hint. split; [reflexivity|].
  unfold issue_result. now rewrite stock_write_quantity, Hold.
Qed.

(** X4.  A barcode issue never leaves a negative quantity.  For a known
    barcode and a positive quantity: without a row for the pair the answer is
    404, with less on hand than requested it is 400, both without any
    change; otherwise it succeeds, lowers the quantity by exactly the
    quantity scanned, which stays at least 0, and appends one 'out' movement
    of that quantity. *)
Theorem scan_issue_takes_available_stock
    (now : Z) (data : ScanData) (d : DB) (bc : string) (w q : Z) (product : Product) :
  integrity_ok d = true ->
  scan_barcode data = Some bc -> scan_warehouse_id data = Some w ->
  scan_quantity data = Some q ->
  0 < q ->
  find_product_by_barcode (products d) bc = Some product ->
  (find_inventory (inventory d) (prod_id product) w = None ->
   issue now data d
   = (Failure 404 "No inventory found for this product in the warehouse", d))
  /\ (forall r,
        find_inventory (inventory d) (prod_id product) w = Some r ->
        (inv_quantity r < q ->
         snd (issue now data d) = d
         /\ exists e, fst (issue now data d) = Failure 400 e)
        /\ (q <= inv_quantity r ->
            fst (issue now data d) = Success 200 "Inventory issued successfully"
            /\ quantity_of (snd (issue now data d)) (prod_id product) w
               = inv_quantity r - q
            /\ 0 <= quantity_of (snd (issue now data d)) (prod_id product) w
            /\ stock_movements (snd (issue now data d))
               = stock_movements d
                 ++ [scan_movement now (prod_id product) w q "out"
                       ("Barcode scan issue: " ++ bc)%string])).
Proof.
  intros Hok Hbc Hw Hq Hpos Hprod. split.
  - intros Hnone.
    rewrite (issue_run data bc w q Hbc Hw Hq now d (integrity_inventory_ids d Hok)).
    apply Z.leb_gt in Hpos. now rewrite Hpos, Hprod, Hnone.
  - intros r Hr. split.
    + intros Hlt.
      rewrite (issue_run data bc w q Hbc Hw Hq now d (integrity_inventory_ids d Hok)).
      apply Z.leb_gt in Hpos. rewrite Hpos, Hprod, Hr.
      apply Z.ltb_lt in Hlt. rewrite Hlt. cbn [fst snd]. eauto.
    + intros Hge.
      destruct (issue_accepts now data d bc w q product r Hok Hbc Hw Hq Hpos Hprod Hr Hge)
        as [Hrun Hquant].
      rewrite Hrun. cbn [fst snd]. split; [reflexivity|].
      rewrite Hquant. split; [reflexivity|]. split; [lia | reflexivity].
Qed.

Lemma scan_issue_takes_available_stock_witness :
  fst (issue 4 (mk_scan "000001" 1 10) db1) = Success 200 "Inventory issued successfully"
  /\ quantity_of (snd (issue 4 (mk_scan "000001" 1 10) db1)) 1 1 = 10 - 10
  /\ snd (issue 4 (mk_scan "000001" 1 11) db1) = db1
  /\ issue 4 (mk_scan "000001" 2 1) db1
     = (Failure 404 "No inventory found for this product in the warehouse", db1).
Proof.
  set (pr := {| prod_id := 1; prod_name := "Widget"; prod_sku := "W-1";
                prod_barcode := Some "000001" |}).
  set (r := {| inv_id := 1; inv_product_id := 1; inv_warehouse_id := 1;
               inv_quantity := 10; inv_reorder_level := 10;
               inv_max_stock_level := 1000; inv_last_updated := 0 |}).
  pose proof (scan_issue_takes_available_stock 4 (mk_scan "000001" 1 10) db1 "000001"
                1 10 pr eq_refl eq_refl eq_refl eq_refl eq_refl eq_refl) as (_ & Ha).
  pose proof (scan_issue_takes_available_stock 4 (mk_scan "000001" 1 11) db1 "000001"
                1 11 pr eq_refl eq_refl eq_refl eq_refl eq_refl eq_refl) as (_ & Hb).
  pose proof (scan_issue_takes_available_stock 4 (mk_scan "000001" 2 1) db1 "000001"
                2 1 pr eq_refl eq_refl eq_refl eq_refl eq_refl eq_refl) as (Hc & _).
  destruct (Ha r eq_refl) as (_ & Hacc). destruct (Hb r eq_refl) as (Hrej & _).
  destruct Hacc as (H1 & H2 & _); [simpl; lia|].
  destruct Hrej as (H3 & _); [simpl; lia|].
  split; [exact H1|]. split; [exact H2|]. split; [exact H3|]. now apply Hc.
Defined.

(** X5.  Receiving a positive quantity by barcode and then issuing the same
    quantity brings the pair back to the quantity it had, when that quantity
    was not negative and the quantity received and the quantity on hand
    after the receipt fit the integer column: both calls succeed, and the
    history keeps both movements, the 'in' and then the 'out'. *)
Theorem scan_receive_then_issue_restores
    (now now' : Z) (data : ScanData) (d : DB) (bc : string) (w q : Z) (product : Product) :
  integrity_ok d = true ->
  scan_barcode data = Some bc -> scan_warehouse_id data = Some w ->
  scan_quantity data = Some q ->
  0 < q ->
  find_product_by_barcode (products d) bc = Some product ->
  In w (warehouses d) ->
  0 <= quantity_of d (prod_id product) w ->
  fits_integer q = true ->
  fits_integer (quantity_of d (prod_id product) w + q) = true ->
  fst (scan_in now data d) = Success 200 "Inventory received successfully"
  /\ fst (issue now' data (snd (scan_in now data d)))
     = Success 200 "Inventory issued successfully"
  /\ quantity_of (snd (issue now' data (snd (scan_in now data d)))) (prod_id product) w
     = quantity_of d (prod_id product) w
  /\ stock_movements (snd (issue now' data (snd (scan_in now data d))))
     = stock_movements d
       ++ [ {| mv_product_id := prod_id product; mv_warehouse_id := w;
               mv_movement_type := "in"; mv_quantity := q;
               mv_reference_type := Some "barcode_scan"; mv_reference_id := None;
               mv_notes := Some ("Barcode scan receive: " ++ bc)%string;
               mv_created_at := now |};
            {| mv_product_id := prod_id product; mv_warehouse_id := w;
               mv_movement_type := "out"; mv_quantity := q;
               mv_reference_type := Some "barcode_scan"; mv_reference_id := None;
               mv_notes := Some ("Barcode scan issue: " ++ bc)%string;
               mv_created_at := now' |} ].
Proof.
  intros Hok Hbc Hw Hq Hpos Hprod Hwh Hnonneg Hfq Hfn.
  destruct (scan_in_accepts now data d bc w q product
              Hok Hbc Hw Hq Hpos Hprod Hwh Hfq Hfn) as [Hrun Hint].
  rewrite Hrun. cbn [fst snd]. split; [reflexivity|].
  set (d1 := scan_in_result bc w q now d (prod_id product)) in *.
  assert (Hprod1 : find_product_by_barcode (products d1) bc = Some product) by exact Hprod.
  assert (Hq1 : quantity_of d1 (prod_id product) w = quantity_of d (prod_id product) w + q)
    by apply stock_write_quantity.
  destruct (find_inventory (inventory d1) (prod_id product) w) as [r|] eqn:Hr;
    [|now apply stock_write_has_row in Hr].
  assert (Hrq : inv_quantity r = quantity_of d (prod_id product) w + q)
    by (unfold quantity_of in Hq1 at 1; now rewrite Hr in Hq1).
  assert (Hge : q <= inv_quantity r) by lia.
  destruct (issue_accepts now' data d1 bc w q product r
              Hint Hbc Hw Hq Hpos Hprod1 Hr Hge) as [Hrun' Hquant].
  rewrite Hrun'. cbn [fst snd]. split; [reflexivity|].
  split; [rewrite Hquant; lia|].
  unfold issue_result. rewrite stock_write_movements.
  unfold d1, scan_in_result. rewrite stock_write_movements.
  now rewrite <- app_assoc.
Qed.

Lemma scan_receive_then_issue_restores_witness :
  quantity_of (snd (issue 5 (mk_scan "000001" 1 3) (snd (scan_in 4 (mk_scan "000001" 1 3) db1))))
    1 1 = 10.
Proof.
  pose proof (scan_receive_then_issue_restores 4 5 (mk_scan "000001" 1 3) db1 "000001"
                1 3
                {| prod_id := 1; prod_name := "Widget"; prod_sku := "W-1";
                   prod_barcode := Some "000001" |}
                eq_refl eq_refl eq_refl eq_refl eq_refl eq_refl) as H.
  destruct H as (_ & _ & H2 & _);
    [simpl; tauto | vm_compute; discriminate | reflexivity | reflexivity | exact H2].
Defined.

(** X6.  A stock count with a counted quantity that is not negative, a known
    barcode and an existing warehouse succeeds when the counted quantity and
    the size of the adjustment fit the integer column, and leaves the pair
    with exactly the counted quantity; it appends one 'adjustment' movement
    carrying the absolute difference when the count differs from the
    quantity on hand, and none when it agrees. *)
Theorem count_sets_quantity
    (now : Z) (data : CountData) (d : DB) (bc : string) (w c : Z) (product : Product) :
  integrity_ok d = true ->
  cnt_barcode data = Some bc -> cnt_warehouse_id data = Some w ->
  cnt_counted_quantity data = Some c ->
  0 <= c ->
  find_product_by_barcode (products d) bc = Some product ->
  In w (warehouses d) ->
  fits_integer c = true ->
  fits_integer (Z.abs (c - quantity_of d (prod_id product) w)) = true ->
  fst (count now data d) = Success 200 "Stock count completed successfully"
  /\ quantity_of (snd (count now data d)) (prod_id product) w = c
  /\ stock_movements (snd (count now data d))
     = stock_movements d
       ++ (if c =? quantity_of d (prod_id product) w then []
           else [ {| mv_product_id := prod_id product; mv_warehouse_id := w;
                     mv_movement_type := "adjustment";
                     mv_quantity := Z.abs (c - quantity_of d (prod_id product) w);
                     mv_reference_type := Some "barcode_count";
                     mv_reference_id := None;
                     mv_notes :=
                       Some ("Stock count adjustment: " ++ bc ++ ". Old: "
                             ++ fmt (quantity_of d (prod_id product) w)
                             ++ ", New: " ++ fmt c)%string;
                     mv_created_at := now |} ]).
Proof.
  intros Hok Hbc Hw Hc Hge Hprod Hwh Hfc Hfd.
  destruct (count_accepts now data d bc w c product Hok Hbc Hw Hc Hge Hprod Hwh Hfc Hfd)
    as [Hrun _].
  rewrite Hrun. cbn [fst snd]. split; [reflexivity|].
  rewrite count_result_as_write.
  split; [apply stock_write_quantity|].
  rewrite stock_write_movements. f_equal.
  destruct (c =? quantity_of d (prod_id product) w) eqn:E.
  - apply Z.eqb_eq in E. rewrite <- E, Z.sub_diag. reflexivity.
  - assert (Hd : (c - quantity_of d (prod_id product) w =? 0) = false).
    { apply Z.eqb_neq. apply Z.eqb_neq in E. lia. }
    rewrite Hd. reflexivity.
Qed.

Lemma count_sets_quantity_witness :
  fst (count 6 (mk_count "000001" 1 4) db1) = Success 200 "Stock count completed successfully"
  /\ quantity_of (snd (count 6 (mk_count "000001" 1 4) db1)) 1 1 = 4
  /\ map mv_quantity (stock_movements (snd (count 6 (mk_count "000001" 1 4) db1))) = [6].
Proof.
  pose proof (count_sets_quantity 6 (mk_count "000001" 1 4) db1 "000001" 1 4
                {| prod_id := 1; prod_name := "Widget"; prod_sku := "W-1";
                   prod_barcode := Some "000001" |}
                eq_refl eq_refl eq_refl eq_refl) as H.
  destruct H as (H1 & H2 & H3);
    [discriminate | reflexivity | simpl; tauto | reflexivity | reflexivity |].
  split; [exact H1|]. split; [exact H2|]. rewrite H3. reflexivity.
Defined.

(** ** Conservation of stock by transfers *)

(** The stock of a product over all warehouses. *)
Definition product_total (d : DB) (p : Z) : Z :=
  sum_Z (map inv_quantity (filter (fun r => inv_product_id r =? p) (inventory d))).

Definition rows_total (p : Z) (rows : list Inventory) : Z :=
  sum_Z (map inv_quantity (filter (fun r => inv_product_id r =? p) rows)).

Section RowsTotal.

Variable p : Z.

Lemma rows_total_cons x rows :
  rows_total p (x :: rows)
  = (if inv_product_id x =? p then inv_quantity x else 0) + rows_total p rows.
Proof.
  unfold rows_total. simpl. destruct (inv_product_id x =? p); reflexivity.
Qed.

Lemma rows_total_snoc rows x :
  rows_total p (rows ++ [x])
  = rows_total p rows + (if inv_product_id x =? p then inv_quantity x else 0).
Proof.
  induction rows as [|y t IH].
  - rewrite app_nil_l, rows_total_cons. unfold rows_total. simpl. lia.
  - rewrite <- app_comm_cons, !rows_total_cons, IH. lia.
Qed.

Lemma rows_total_map g rows :
  (forall r, inv_product_id (g r) = inv_product_id r
             /\ inv_quantity (g r) = inv_quantity r) ->
  rows_total p (map g rows) = rows_total p rows.
Proof.
  intros Hg. induction rows as [|x t IH]; [reflexivity|].
  cbn [map]. rewrite !rows_total_cons, IH.
  destruct (Hg x) as [-> ->]. reflexivity.
Qed.

Lemma on_row_absent id f rows :
  ~ In id (map inv_id rows) -> map (on_row id f) rows = rows.
Proof.
  intros Hn. induction rows as [|x t IH]; [reflexivity|].
  cbn [map]. rewrite IH by (intros H; apply Hn; now right).
  rewrite on_row_diff; [reflexivity|]. intros H. apply Hn. now left.
Qed.

(** Updating the row of one key moves the total by the change of that row. *)
Lemma rows_total_on_row f rows r :
  NoDup (map inv_id rows) -> In r rows -> keeps_keys f ->
  rows_total p (map (on_row (inv_id r) f) rows)
  = rows_total p rows
    + (if inv_product_id r =? p then inv_quantity (f r) - inv_quantity r else 0).
Proof.
  intros Hnd Hin Hf. induction rows as [|x t IH]; [contradiction|].
  cbn [map] in *. inversion Hnd as [|? ? Hx Ht]; subst.
  rewrite !rows_total_cons. destruct Hin as [->|Hin].
  - rewrite on_row_absent by exact Hx. rewrite (on_row_same _ _ r eq_refl).
    destruct (Hf r) as (_ & -> & _). destruct (inv_product_id r =? p); lia.
  - rewrite (IH Ht Hin). rewrite on_row_diff; [lia|].
    intros Heq. apply Hx. rewrite Heq. now apply in_map.
Qed.

End RowsTotal.

Lemma transfer_missing_field now data d :
  tr_product_id data = None \/ tr_from_warehouse_id data = None
  \/ tr_to_warehouse_id data = None \/ tr_quantity data = None ->
  snd (transfer now data d) = d.
Proof.
  intros H. unfold transfer, run_view, transfer_inventory.
  destruct (tr_product_id data), (tr_from_warehouse_id data),
    (tr_to_warehouse_id data), (tr_quantity data);
    try reflexivity; destruct H as [H|[H|[H|H]]]; discriminate.
Qed.

Lemma transfer_result_total now p a b n d src p' :
  integrity_ok d = true ->
  find_inventory (inventory d) p a = Some src ->
  product_total (transfer_result now p a b n d src) p' = product_total d p'.
Proof.
  intros Hok Hsrc. pose proof (integrity_inventory_ids d Hok) as Hnd.
  pose proof (find_inventory_some _ _ _ _ Hsrc) as (Hsin & Hsp & _).
  unfold product_total, transfer_result, transfer_working. simpl.
  fold (rows_total p'
          (map (onupdate now (inventory d))
             (update_row (inv_id (row_of_pair now p b 10 1000 (inventory d)))
                (inv_with_quantity
                   (inv_quantity
                      (on_row (inv_id src) (inv_with_quantity (inv_quantity src - n))
                         (row_of_pair now p b 10 1000 (inventory d))) + n))
                (update_row (inv_id src) (inv_with_quantity (inv_quantity src - n))
                   (rows_with_pair now p b 10 1000 (inventory d)))))).
  fold (rows_total p' (inventory d)).
  set (rows1 := rows_with_pair now p b 10 1000 (inventory d)).
  set (dst := row_of_pair now p b 10 1000 (inventory d)).
  set (f1 := inv_with_quantity (inv_quantity src - n)).
  set (dst2 := on_row (inv_id src) f1 dst).
  rewrite rows_total_map
    by (intros r; split; [apply keeps_keys_onupdate | apply onupdate_quantity]).
  rewrite !update_row_map.
  assert (Hnd1 : NoDup (map inv_id rows1)) by now apply NoDup_rows_with_pair.
  assert (Hdin : In dst rows1) by apply row_of_pair_member.
  assert (Hsin1 : In src rows1) by now apply in_rows_with_pair.
  assert (Hdp : inv_product_id dst = p).
  { pose proof (find_rows_with_pair now p b 10 1000 (inventory d)) as H.
    now apply find_inventory_some in H. }
  assert (Hid2 : inv_id dst2 = inv_id dst)
    by (apply keeps_keys_on_row, keeps_keys_quantity).
  assert (Hp2 : inv_product_id dst2 = p).
  { destruct (keeps_keys_on_row (inv_id src) f1 (keeps_keys_quantity _) dst)
      as (_ & H & _). unfold dst2. now rewrite H. }
  rewrite <- Hid2.
  rewrite rows_total_on_row.
  - rewrite (rows_total_on_row p' f1 rows1 src Hnd1 Hsin1 (keeps_keys_quantity _)).
    assert (Hrows : rows_total p' rows1 = rows_total p' (inventory d)).
    { unfold rows1, rows_with_pair.
      destruct (find_inventory (inventory d) p b); [reflexivity|].
      rewrite rows_total_snoc. simpl. destruct (p =? p'); lia. }
    rewrite Hrows, Hp2, Hsp. simpl. destruct (p =? p'); lia.
  - now rewrite map_inv_id_keeps by (apply keeps_keys_on_row, keeps_keys_quantity).
  - unfold dst2. now apply in_map.
  - apply keeps_keys_quantity.
Qed.

(** X7.  A transfer never creates or destroys stock: whatever it answers,
    and also when source and destination are the same warehouse or the
    quantity is negative, the total quantity of every product over all
    warehouses is the same after the call as before. *)
Theorem transfer_conserves_product_total
    (now : Z) (data : TransferData) (d : DB) (p' : Z) :
  integrity_ok d = true ->
  product_total (snd (transfer now data d)) p' = product_total d p'.
Proof.
  intros Hok.
  destruct (tr_product_id data) as [p|] eqn:Hp;
    [|now rewrite transfer_missing_field by auto].
  destruct (tr_from_warehouse_id data) as [a|] eqn:Ha;
    [|now rewrite transfer_missing_field by auto].
  destruct (tr_to_warehouse_id data) as [b|] eqn:Hb;
    [|now rewrite transfer_missing_field by auto].
  destruct (tr_quantity data) as [n|] eqn:Hn;
    [|now rewrite transfer_missing_field by auto].
  rewrite (transfer_run now data p a b n Hp Ha Hb Hn d (integrity_inventory_ids d Hok)).
  destruct (find_inventory (inventory d) p a) as [src|] eqn:Hsrc; [|reflexivity].
  destruct (inv_quantity src <? n); [reflexivity|].
  destruct (integrity_ok (transfer_result now p a b n d src)); [|reflexivity].
  cbn [snd]. now apply transfer_result_total.
Qed.

Lemma transfer_conserves_product_total_witness :
  product_total (snd (transfer 5 (mk_transfer 1 1 2 4) db1)) 1 = 10
  /\ product_total (snd (transfer 5 (mk_transfer 1 1 1 4) db1)) 1 = 10
  /\ product_total (snd (transfer 5 (mk_transfer 1 1 2 (-4)) db1)) 1 = 10.
Proof.
  split; [|split].
  - exact (transfer_conserves_product_total 5 (mk_transfer 1 1 2 4) db1 1 eq_refl).
  - exact (transfer_conserves_product_total 5 (mk_transfer 1 1 1 4) db1 1 eq_refl).
  - exact (transfer_conserves_product_total 5 (mk_transfer 1 1 2 (-4)) db1 1 eq_refl).
Defined.

(** ** Further properties of the order endpoints *)



Lemma approve_unknown_order now po d :
  get_purchase_order (purchase_orders d) po = None ->
  approve now po d = (Failure 500 (str HTTPNotFound), d).
Proof.
  intros Ho. unfold approve, run_view, approve_purchase_order.
  unfold bind at 1. unfold PurchaseOrder_get_or_404 at 1. simpl. now rewrite Ho.
Qed.

Lemma receive_unknown_order now po data d :
  get_purchase_order (purchase_orders d) po = None ->
  receive now po data d = (Failure 500 (str HTTPNotFound), d).
Proof.
  intros Ho. unfold receive, run_view, receive_purchase_order.
  unfold bind at 1. unfold PurchaseOrder_get_or_404 at 1. simpl. now rewrite Ho.
Qed.

(** X9.  A request on an id that has no row is not answered 404: the
    exception of [get_or_404] is raised inside the handler's [try] and caught
    by its [except Exception], so the PUT on an inventory item and the
    approve, receive and cancel of an order all answer 500, and change
    nothing. *)
Theorem missing_row_answers_500
    (now id : Z) (upd : UpdateData) (rcv : ReceiveData) (d : DB) :
  (get_inventory_row (inventory d) id = None ->
   exists e, put_inventory now id upd d = (Failure 500 e, d))
  /\ (get_purchase_order (purchase_orders d) id = None ->
      (exists e, approve now id d = (Failure 500 e, d))
      /\ (exists e, receive now id rcv d = (Failure 500 e, d))
      /\ (exists e, cancel now id d = (Failure 500 e, d))).
Proof.
  split.
  - intros H. eexists. now apply put_inventory_missing.
  - intros H. split; [|split]; eexists.
    + now apply approve_unknown_order.
    + now apply receive_unknown_order.
    + now apply cancel_unknown_order.
Qed.

Lemma missing_row_answers_500_witness :
  (exists e, put_inventory 1 7 (put_quantity 3) db1 = (Failure 500 e, db1))
  /\ (exists e, cancel 1 7 db2 = (Failure 500 e, db2)).
Proof.
  destruct (missing_row_answers_500 1 7 (put_quantity 3) (mk_receive 1 1 1) db1)
    as [Hput _].
  destruct (missing_row_answers_500 1 7 (put_quantity 3) (mk_receive 1 1 1) db2)
    as [_ Hpo].
  split; [apply Hput; reflexivity|].
  destruct (Hpo eq_refl) as (_ & _ & Hc). exact Hc.
Defined.

(** X10.  A PUT on an existing inventory item whose body is empty is answered
    400; one whose body names none of quantity, reorder_level and
    max_stock_level is answered with success and leaves the database exactly
    as it was, [last_updated] included. *)
Theorem put_without_updatable_field
    (now id : Z) (data : UpdateData) (d : DB) (r : Inventory) :
  integrity_ok d = true ->
  get_inventory_row (inventory d) id = Some r ->
  upd_quantity data = None -> upd_reorder_level data = None ->
  upd_max_stock_level data = None ->
  put_inventory now id data d
  = if upd_other_keys data
    then (Success 200 "Inventory item updated successfully", d)
    else (Failure 400 "No data provided", d).
Proof.
  intros Hok Hr Hq Hrl Hms. rewrite (put_inventory_run now id data d r Hr).
  unfold empty_body. rewrite Hq, Hrl, Hms.
  destruct (upd_other_keys data); cbn [negb]; [|reflexivity].
  assert (Hres : put_result now id data d = d).
  { unfold put_result, put_working, apply_field, flush. rewrite Hq, Hrl, Hms.
    cbn [working committed inventory db_with_inventory].
    rewrite flush_untouched_inventory by now apply integrity_inventory_ids.
    destruct d; reflexivity. }
  now rewrite Hres, Hok.
Qed.

Lemma put_without_updatable_field_witness :
  put_inventory 9 1
    {| upd_quantity := None; upd_reorder_level := None;
       upd_max_stock_level := None; upd_other_keys := true |} db1
  = (Success 200 "Inventory item updated successfully", db1).
Proof.
  exact (put_without_updatable_field 9 1
           {| upd_quantity := None; upd_reorder_level := None;
              upd_max_stock_level := None; upd_other_keys := true |} db1
           {| inv_id := 1; inv_product_id := 1; inv_warehouse_id := 1;
              inv_quantity := 10; inv_reorder_level := 10;
              inv_max_stock_level := 1000; inv_last_updated := 0 |}
           eq_refl eq_refl eq_refl eq_refl eq_refl).
Defined.

(** ** Further properties of the turnover report *)

From Stdlib Require Import Sorted Permutation.

(** Descending order of the rate: each row's rate is at most that of the row
    before it. *)
Definition rate_ge (x y : TurnoverRow) : Prop :=
  (row_turnover_rate y <= row_turnover_rate x)%Q.

Section SortDesc.

Lemma insert_desc_perm x l : Permutation (x :: l) (insert_desc x l).
Proof.
  induction l as [|y t IH]; simpl; [apply Permutation_refl|].
  destruct (Qle_bool (row_turnover_rate y) (row_turnover_rate x)).
  - apply Permutation_refl.
  - eapply perm_trans; [apply perm_swap|]. now apply perm_skip.
Qed.

Lemma sort_desc_perm l : Permutation l (sort_desc l).
Proof.
  induction l as [|x t IH]; simpl; [constructor|].
  eapply perm_trans; [apply perm_skip, IH | apply insert_desc_perm].
Qed.

Lemma insert_desc_hd x y l :
  rate_ge y x -> HdRel rate_ge y l -> HdRel rate_ge y (insert_desc x l).
Proof.
  intros Hyx Hl. destruct l as [|z t]; simpl; [now constructor|].
  destruct (Qle_bool (row_turnover_rate z) (row_turnover_rate x));
    constructor; [exact Hyx|]. now inversion Hl.
Qed.

Lemma insert_desc_sorted x l : Sorted rate_ge l -> Sorted rate_ge (insert_desc x l).
Proof.
  induction l as [|y t IH]; intros Hs; simpl.
  - repeat constructor.
  - destruct (Qle_bool (row_turnover_rate y) (row_turnover_rate x)) eqn:E.
    + constructor; [exact Hs|]. constructor. now apply Qle_bool_iff.
    + inversion Hs as [|? ? Ht Hhd]; subst. constructor; [now apply IH|].
      apply insert_desc_hd; [|exact Hhd].
      unfold rate_ge. apply Qlt_le_weak, Qnot_le_lt. intros H.
      apply Qle_bool_iff in H. congruence.
Qed.

Lemma sort_desc_sorted l : Sorted rate_ge (sort_desc l).
Proof.
  induction l as [|x t IH]; simpl; [constructor|]. now apply insert_desc_sorted.
Qed.

End SortDesc.

(** X11.  The turnover report is in descending order of the rounded
    turnover rate, and sorting loses and invents no row: the report is a
    permutation of the rows computed from the grouped query. *)
Theorem turnover_report_sorted (now days : Z) (d : DB) :
  Sorted rate_ge (get_inventory_turnover now days d)
  /\ Permutation
       (map turnover_row (turnover_data (now - days * seconds_per_day) d))
       (get_inventory_turnover now days d).
Proof.
  unfold get_inventory_turnover. split; [apply sort_desc_sorted | apply sort_desc_perm].
Qed.

(** The 'out' movements of a product inside the window, and its stock rows. *)
Definition out_movements (start_date : Z) (d : DB) (p : Product) : list StockMovement :=
  filter (fun m => (prod_id p =? mv_product_id m) && (start_date <=? mv_created_at m)
                   && String.eqb (mv_movement_type m) "out")
    (stock_movements d).

Definition stock_rows (d : DB) (p : Product) : list Inventory :=
  filter (fun i => prod_id p =? inv_product_id i) (inventory d).

(** The joined rows of one product. *)
Definition product_join (start_date : Z) (d : DB) (p : Product)
  : list (Product * StockMovement * Inventory) :=
  flat_map (fun m =>
    flat_map (fun i =>
      if (prod_id p =? mv_product_id m) && (prod_id p =? inv_product_id i)
         && (start_date <=? mv_created_at m)
         && String.eqb (mv_movement_type m) "out"
      then [(p, m, i)] else [])
      (inventory d))
    (stock_movements d).

Section Join.

Variables (start_date : Z) (d : DB).

Lemma turnover_join_unfold :
  turnover_join start_date d = flat_map (product_join start_date d) (products d).
Proof. reflexivity. Qed.

Lemma product_join_fst p t :
  In t (product_join start_date d p) -> fst (fst t) = p.
Proof.
  unfold product_join. rewrite in_flat_map. intros (m & _ & Hm).
  rewrite in_flat_map in Hm. destruct Hm as (i & _ & Hi).
  destruct (_ && _) in Hi; [|contradiction].
  destruct Hi as [<-|[]]. reflexivity.
Qed.

Lemma filter_all (A : Type) (f : A -> bool) (l : list A) :
  (forall x, In x l -> f x = true) -> filter f l = l.
Proof.
  induction l as [|x t IH]; intros H; simpl; [reflexivity|].
  rewrite (H x (or_introl eq_refl)), IH; [reflexivity|].
  intros y Hy. apply H. now right.
Qed.

Lemma filter_none (A : Type) (f : A -> bool) (l : list A) :
  (forall x, In x l -> f x = false) -> filter f l = [].
Proof.
  induction l as [|x t IH]; intros H; simpl; [reflexivity|].
  rewrite (H x (or_introl eq_refl)). apply IH. intros y Hy. apply H. now right.
Qed.

(** With distinct product keys, the rows of the join that the grouping
    assigns to a product are the joined rows of that product. *)
Lemma group_rows ps p :
  NoDup (map prod_id ps) -> In p ps ->
  filter (fun t => prod_id (fst (fst t)) =? prod_id p)
    (flat_map (product_join start_date d) ps)
  = product_join start_date d p.
Proof.
  intros Hnd Hin. induction ps as [|x t IH]; [contradiction|].
  cbn [flat_map]. rewrite filter_app.
  cbn [map] in Hnd. inversion Hnd as [|? ? Hx Ht]; subst.
  destruct Hin as [->|Hin].
  - rewrite filter_all.
    + rewrite filter_none; [apply app_nil_r|].
      intros y Hy. rewrite in_flat_map in Hy. destruct Hy as (q & Hq & Hy).
      rewrite (product_join_fst q y Hy). apply Z.eqb_neq. intros Heq.
      apply Hx. rewrite <- Heq. now apply in_map.
    + intros y Hy. rewrite (product_join_fst p y Hy). apply Z.eqb_refl.
  - rewrite filter_none.
    + now apply IH.
    + intros y Hy. rewrite (product_join_fst x y Hy). apply Z.eqb_neq. intros Heq.
      apply Hx. rewrite Heq. now apply in_map.
Qed.

Variable p : Product.

Let is_out (m : StockMovement) : bool :=
  (prod_id p =? mv_product_id m) && (start_date <=? mv_created_at m)
  && String.eqb (mv_movement_type m) "out".

Let is_stock (i : Inventory) : bool := prod_id p =? inv_product_id i.

Lemma join_of_movement m rows :
  flat_map (fun i =>
    if (prod_id p =? mv_product_id m) && (prod_id p =? inv_product_id i)
       && (start_date <=? mv_created_at m)
       && String.eqb (mv_movement_type m) "out"
    then [(p, m, i)] else []) rows
  = if is_out m then map (fun i => (p, m, i)) (filter is_stock rows) else [].
Proof.
  unfold is_out, is_stock. induction rows as [|i t IH]; simpl.
  - now destruct (_ && _).
  - rewrite IH.
    destruct (prod_id p =? mv_product_id m), (prod_id p =? inv_product_id i),
      (start_date <=? mv_created_at m), (String.eqb (mv_movement_type m) "out");
      reflexivity.
Qed.

Lemma product_join_as_product :
  product_join start_date d p
  = flat_map (fun m => map (fun i => (p, m, i)) (stock_rows d p))
      (out_movements start_date d p).
Proof.
  unfold product_join, out_movements, stock_rows.
  fold is_out. fold is_stock.
  induction (stock_movements d) as [|m t IH]; [reflexivity|].
  cbn [flat_map filter]. rewrite join_of_movement, IH.
  destruct (is_out m); reflexivity.
Qed.

Lemma product_join_length :
  List.length (product_join start_date d p)
  = (List.length (out_movements start_date d p) * List.length (stock_rows d p))%nat.
Proof.
  rewrite product_join_as_product.
  induction (out_movements start_date d p) as [|m t IH]; [reflexivity|].
  cbn [flat_map]. rewrite length_app, length_map, IH. reflexivity.
Qed.

Lemma product_join_movement_sum :
  sum_Z (map (fun t => mv_quantity (snd (fst t))) (product_join start_date d p))
  = Z.of_nat (List.length (stock_rows d p))
    * sum_Z (map mv_quantity (out_movements start_date d p)).
Proof.
  rewrite product_join_as_product.
  induction (out_movements start_date d p) as [|m t IH]; [simpl; lia|].
  cbn [flat_map map]. rewrite map_app, sum_Z_app, IH.
  change (sum_Z (mv_quantity m :: map mv_quantity t))
    with (mv_quantity m + sum_Z (map mv_quantity t)).
  assert (H : forall rows,
            sum_Z (map (fun t0 : Product * StockMovement * Inventory =>
                          mv_quantity (snd (fst t0)))
                     (map (fun i => (p, m, i)) rows))
            = Z.of_nat (List.length rows) * mv_quantity m).
  { induction rows as [|i rows IHr]; [reflexivity|].
    cbn [map List.length].
    change (sum_Z (?x :: ?l)) with (x + sum_Z l). rewrite IHr. cbn [fst snd]. lia. }
  rewrite H. lia.
Qed.

Lemma product_join_stock_sum :
  sum_Z (map (fun t => inv_quantity (snd t)) (product_join start_date d p))
  = Z.of_nat (List.length (out_movements start_date d p))
    * sum_Z (map inv_quantity (stock_rows d p)).
Proof.
  rewrite product_join_as_product.
  induction (out_movements start_date d p) as [|m t IH]; [simpl; lia|].
  cbn [flat_map map List.length]. rewrite map_app, sum_Z_app, IH.
  rewrite map_map. cbn [snd].
  replace (map (fun x : Inventory => inv_quantity x) (stock_rows d p))
    with (map inv_quantity (stock_rows d p)) by reflexivity.
  lia.
Qed.

End Join.

Lemma Zpos_of_nat (n : nat) : n <> 0%nat -> Zpos (Pos.of_nat n) = Z.of_nat n.
Proof.
  intros Hn. rewrite <- positive_nat_Z. now rewrite Nat2Pos.id.
Qed.

(** The group that the query produces for a product with joined rows. *)
Definition group_of (start_date : Z) (d : DB) (p : Product) : TurnoverGroup :=
  {| grp_product := p;
     grp_total_movement :=
       sum_Z (map (fun t => mv_quantity (snd (fst t))) (product_join start_date d p));
     grp_avg_inventory :=
       Qmake (sum_Z (map (fun t => inv_quantity (snd t)) (product_join start_date d p)))
             (Pos.of_nat (List.length (product_join start_date d p))) |}.

Lemma turnover_data_groups start_date d :
  NoDup (map prod_id (products d)) ->
  forall g,
    In g (turnover_data start_date d)
    <-> exists p, In p (products d) /\ product_join start_date d p <> []
                  /\ g = group_of start_date d p.
Proof.
  intros Hnd g. unfold turnover_data. rewrite in_flat_map. split.
  - intros (p & Hp & Hg). exists p. split; [exact Hp|].
    rewrite turnover_join_unfold, (group_rows start_date d _ p Hnd Hp) in Hg.
    unfold group_of.
    destruct (product_join start_date d p) as [|t rest] eqn:E; [contradiction|].
    destruct Hg as [<-|[]]. split; [discriminate | reflexivity].
  - intros (p & Hp & Hne & ->). exists p. split; [exact Hp|].
    rewrite turnover_join_unfold, (group_rows start_date d _ p Hnd Hp).
    unfold group_of.
    destruct (product_join start_date d p) as [|t rest] eqn:E; [now contradiction Hne|].
    now left.
Qed.



(** ** Creating an inventory item directly *)

Section PostInventory.

Variables (now : Z) (data : NewInventoryData) (d : DB).

Let p := get_default (ninv_product_id data) 0.
Let w := get_default (ninv_warehouse_id data) 0.

Definition posted_row : Inventory :=
  {| inv_id := next_id (map inv_id (inventory d));
     inv_product_id := get_default (ninv_product_id data) 0;
     inv_warehouse_id := get_default (ninv_warehouse_id data) 0;
     inv_quantity := get_default (ninv_quantity data) 0;
     inv_reorder_level := get_default (ninv_reorder_level data) 10;
     inv_max_stock_level := get_default (ninv_max_stock_level data) 1000;
     inv_last_updated := now |}.

Definition post_result : DB :=
  flush now {| committed := d;
               working := db_with_inventory (inventory d ++ [posted_row]) d |}.

Hypothesis Hok : integrity_ok d = true.
Hypothesis Hfresh : find_inventory (inventory d) p w = None.

Lemma post_result_inventory : inventory post_result = inventory d ++ [posted_row].
Proof.
  unfold post_result. cbn [flush inventory working committed db_with_inventory].
  rewrite map_app. f_equal.
  - apply flush_untouched_inventory. now apply integrity_inventory_ids.
  - cbn [map]. unfold onupdate.
    destruct (find (fun o => inv_id o =? inv_id posted_row) (inventory d)) as [o|] eqn:E;
      [|reflexivity].
    apply find_some in E. destruct E as [Hin Heq]. apply Z.eqb_eq in Heq.
    exfalso. apply (next_id_fresh (map inv_id (inventory d))).
    cbn [posted_row inv_id] in Heq. rewrite <- Heq. now apply in_map.
Qed.

Lemma post_result_constraints :
  In p (map prod_id (products d)) -> In w (warehouses d) ->
  constraints_ok post_result = true.
Proof.
  intros Hp Hw.
  assert (Hrows : inventory d ++ [posted_row]
                  = map (on_row (next_id (map inv_id (inventory d)))
                           (inv_with_quantity (get_default (ninv_quantity data) 0)))
                      (rows_with_pair now p w
                         (get_default (ninv_reorder_level data) 10)
                         (get_default (ninv_max_stock_level data) 1000) (inventory d))).
  { unfold rows_with_pair. rewrite Hfresh, map_app.
    rewrite on_row_absent by apply next_id_fresh.
    cbn [map]. now rewrite on_row_same by reflexivity. }
  unfold constraints_ok, post_result.
  cbn [flush inventory products warehouses suppliers stock_movements purchase_orders
       purchase_order_items working committed db_with_inventory].
  rewrite Hrows.
  rewrite !inventory_rows_ok_map
    by first [apply keeps_keys_onupdate | apply keeps_keys_on_row, keeps_keys_quantity].
  rewrite inventory_rows_ok_with_pair
    by (try assumption; now apply integrity_inventory).
  now rewrite (integrity_movements d Hok), (integrity_orders d Hok),
    (integrity_items d Hok).
Qed.

Lemma post_result_columns :
  fits_integer (get_default (ninv_quantity data) 0) = true ->
  fits_integer (get_default (ninv_reorder_level data) 10) = true ->
  fits_integer (get_default (ninv_max_stock_level data) 1000) = true ->
  columns_ok post_result = true.
Proof.
  intros Hq Hrl Hms. unfold columns_ok, post_result.
  cbn [flush inventory stock_movements purchase_order_items working committed
       db_with_inventory].
  rewrite (columns_movements d Hok), (columns_items d Hok), !andb_true_r.
  apply rows_fit_map; [apply keeps_fit_onupdate|].
  rewrite forallb_app, (columns_inventory d Hok). cbn [forallb].
  unfold inventory_fits, posted_row.
  cbn [inv_quantity inv_reorder_level inv_max_stock_level].
  now rewrite Hq, Hrl, Hms.
Qed.

Lemma post_result_integrity :
  In p (map prod_id (products d)) -> In w (warehouses d) ->
  fits_integer (get_default (ninv_quantity data) 0) = true ->
  fits_integer (get_default (ninv_reorder_level data) 10) = true ->
  fits_integer (get_default (ninv_max_stock_level data) 1000) = true ->
  integrity_ok post_result = true.
Proof.
  intros Hp Hw Hq Hrl Hms. apply integrity_intro.
  - now apply post_result_constraints.
  - now apply post_result_columns.
Qed.

End PostInventory.

(** X13.  Creating an inventory item for a product id and warehouse id that
    are present and not 0, in a consistent database: an unknown product or
    warehouse is answered 404 and a pair that already has a row 409, without
    any change; otherwise, when the quantity and the levels of the new row
    fit the integer column, the answer is 201, one row is added for the pair
    with the quantity sent (0 when none is sent) and the defaults 10 and 1000
    for the levels not sent, and no stock movement is recorded for that
    opening quantity. *)
Theorem post_inventory_creates_row_without_movement
    (now : Z) (data : NewInventoryData) (d : DB) (p w : Z) :
  integrity_ok d = true ->
  ninv_product_id data = Some p -> ninv_warehouse_id data = Some w ->
  p <> 0 -> w <> 0 ->
  (~ In p (map prod_id (products d)) ->
   post_inventory now data d = (Failure 404 "Product not found", d))
  /\ (In p (map prod_id (products d)) -> ~ In w (warehouses d) ->
      post_inventory now data d = (Failure 404 "Warehouse not found", d))
  /\ (In p (map prod_id (products d)) -> In w (warehouses d) ->
      find_inventory (inventory d) p w <> None ->
      post_inventory now data d
      = (Failure 409
           "Inventory item already exists for this product-warehouse combination", d))
  /\ (In p (map prod_id (products d)) -> In w (warehouses d) ->
      find_inventory (inventory d) p w = None ->
      fits_integer (get_default (ninv_quantity data) 0) = true ->
      fits_integer (get_default (ninv_reorder_level data) 10) = true ->
      fits_integer (get_default (ninv_max_stock_level data) 1000) = true ->
      fst (post_inventory now data d) = Success 201 "Inventory item created successfully"
      /\ inventory (snd (post_inventory now data d))
         = inventory d
           ++ [ {| inv_id := next_id (map inv_id (inventory d));
                   inv_product_id := p; inv_warehouse_id := w;
                   inv_quantity := get_default (ninv_quantity data) 0;
                   inv_reorder_level := get_default (ninv_reorder_level data) 10;
                   inv_max_stock_level := get_default (ninv_max_stock_level data) 1000;
                   inv_last_updated := now |} ]
      /\ quantity_of (snd (post_inventory now data d)) p w
         = get_default (ninv_quantity data) 0
      /\ stock_movements (snd (post_inventory now data d)) = stock_movements d).
Proof.
  intros Hok Hp Hw Hp0 Hw0.
  assert (Hrun : post_inventory now data d =
                 match find (fun x => prod_id x =? p) (products d) with
                 | None => (Failure 404 "Product not found", d)
                 | Some _ =>
                     if negb (mem_Z w (warehouses d)) then
                       (Failure 404 "Warehouse not found", d)
                     else
                       match find_inventory (inventory d) p w with
                       | Some _ =>
                           (Failure 409
                              "Inventory item already exists for this product-warehouse combination",
                            d)
                       | None =>
                           if integrity_ok (post_result now data d) then
                             (Success 201 "Inventory item created successfully",
                              post_result now data d)
                           else (Failure 500 (str DatabaseError), d)
                       end
                 end).
  { unfold post_inventory, run_view, create_inventory_item. rewrite Hp, Hw.
    cbn [truthy get_default].
    apply Z.eqb_neq in Hp0, Hw0. rewrite Hp0, Hw0. cbn [negb orb].
    unfold bind at 1. unfold query at 1. cbn [working].
    unfold bind at 1. unfold query at 1. cbn [working].
    destruct (find (fun x => prod_id x =? p) (products d)); [|reflexivity].
    destruct (negb (mem_Z w (warehouses d))); [reflexivity|].
    unfold bind at 1. unfold Inventory_first at 1, query at 1. cbn [working].
    destruct (find_inventory (inventory d) p w); [reflexivity|].
    unfold bind, update, commit, ret. cbn [working committed].
    unfold post_result, posted_row. rewrite Hp, Hw. cbn [get_default].
    settle_commit. }
  rewrite Hrun. clear Hrun.
  assert (Hfind : In p (map prod_id (products d)) ->
                  find (fun x => prod_id x =? p) (products d) <> None).
  { intros Hin H. apply in_map_iff in Hin. destruct Hin as (x & Hx & Hin).
    apply (find_none _ _ H) in Hin. rewrite Hx, Z.eqb_refl in Hin. discriminate. }
  split; [|split; [|split]].
  - intros Hn. destruct (find _ (products d)) as [x|] eqn:E; [|reflexivity].
    exfalso. apply Hn. apply find_some in E. destruct E as [Hin Heq].
    apply Z.eqb_eq in Heq. rewrite <- Heq. now apply in_map.
  - intros Hin Hn. destruct (find _ (products d)); [|now apply Hfind in Hin].
    destruct (mem_Z w (warehouses d)) eqn:E; [|reflexivity].
    apply mem_Z_In in E. contradiction.
  - intros Hin Hwin Hex. destruct (find _ (products d)); [|now apply Hfind in Hin].
    rewrite (proj2 (mem_Z_In _ _) Hwin). cbn [negb].
    destruct (find_inventory (inventory d) p w); [reflexivity | now contradiction Hex].
  - intros Hin Hwin Hnone Hfq Hfrl Hfms.
    destruct (find _ (products d)); [|now apply Hfind in Hin].
    rewrite (proj2 (mem_Z_In _ _) Hwin). cbn [negb]. rewrite Hnone.
    assert (Hfresh : find_inventory (inventory d)
                       (get_default (ninv_product_id data) 0)
                       (get_default (ninv_warehouse_id data) 0) = None)
      by now rewrite Hp, Hw.
    rewrite post_result_integrity; try assumption;
      try (rewrite ?Hp, ?Hw; assumption).
    cbn [fst snd]. split; [reflexivity|].
    assert (Hinv := post_result_inventory now data d Hok).
    unfold posted_row in Hinv. rewrite Hp, Hw in Hinv. cbn [get_default] in Hinv.
    split; [exact Hinv|]. split; [|reflexivity].
    unfold quantity_of, find_inventory. rewrite Hinv, find_snoc.
    unfold find_inventory in Hnone. rewrite Hnone.
    unfold same_pair. cbn [inv_product_id inv_warehouse_id inv_quantity].
    now rewrite !Z.eqb_refl.
Qed.

Definition mk_post (p w q : Z) : NewInventoryData :=
  {| ninv_product_id := Some p; ninv_warehouse_id := Some w;
     ninv_quantity := Some q; ninv_reorder_level := None;
     ninv_max_stock_level := None |}.

Lemma post_inventory_creates_row_without_movement_witness :
  post_inventory 2 (mk_post 1 1 5) db1
    = (Failure 409
         "Inventory item already exists for this product-warehouse combination", db1)
  /\ fst (post_inventory 2 (mk_post 1 2 5) db1)
     = Success 201 "Inventory item created successfully"
  /\ quantity_of (snd (post_inventory 2 (mk_post 1 2 5) db1)) 1 2 = 5
  /\ stock_movements (snd (post_inventory 2 (mk_post 1 2 5) db1)) = [].
Proof.
  assert (Hp : In 1 (map prod_id (products db1))) by (simpl; tauto).
  pose proof (post_inventory_creates_row_without_movement 2 (mk_post 1 1 5) db1 1 1
                eq_refl eq_refl eq_refl) as H1.
  pose proof (post_inventory_creates_row_without_movement 2 (mk_post 1 2 5) db1 1 2
                eq_refl eq_refl eq_refl) as H2.
  destruct H1 as (_ & _ & Hdup & _); [discriminate | discriminate |].
  destruct H2 as (_ & _ & _ & Hnew); [discriminate | discriminate |].
  split.
  - apply Hdup; [exact Hp | simpl; tauto | discriminate].
  - destruct Hnew as (Ha & _ & Hb & Hc);
      [exact Hp | simpl; tauto | reflexivity | reflexivity | reflexivity | reflexivity |].
    split; [exact Ha|]. split; [exact Hb | exact Hc].
Defined.

(** ** Updating an order directly *)

Section PutOrder.

Variables (now po : Z) (data : OrderUpdate).

Definition order_field_map {A : Type} (v : option A)
    (setter : A -> PurchaseOrder -> PurchaseOrder) : PurchaseOrder -> PurchaseOrder :=
  match v with
  | Some x => on_order po (setter x)
  | None => fun o => o
  end.

Definition apply_order_field {A : Type} (v : option A)
    (setter : A -> PurchaseOrder -> PurchaseOrder) (rows : list PurchaseOrder)
  : list PurchaseOrder :=
  match v with
  | Some x => map (on_order po (setter x)) rows
  | None => rows
  end.

(** All assignments of the loop over [updatable_fields], on one row. *)
Definition update_fields (o : PurchaseOrder) : PurchaseOrder :=
  order_field_map (upo_notes data) po_with_notes
    (order_field_map (upo_expected_delivery data) po_with_expected_delivery
       (order_field_map (upo_status data) po_with_status o)).

Definition put_order_result (d : DB) : DB :=
  flush now
    {| committed := d;
       working :=
         db_with_purchase_orders
           (apply_order_field (upo_notes data) po_with_notes
              (apply_order_field (upo_expected_delivery data) po_with_expected_delivery
                 (apply_order_field (upo_status data) po_with_status
                    (purchase_orders d))))
           d |}.

Lemma apply_order_field_map (A : Type) (v : option A) setter rows :
  apply_order_field v setter rows = map (order_field_map v setter) rows.
Proof.
  unfold apply_order_field, order_field_map. destruct v; [reflexivity|].
  now rewrite map_id.
Qed.

Lemma put_order_result_orders d :
  purchase_orders (put_order_result d) = map update_fields (purchase_orders d).
Proof.
  unfold put_order_result, update_fields.
  cbn [flush purchase_orders working db_with_inventory db_with_purchase_orders].
  now rewrite !apply_order_field_map, !map_map.
Qed.

Lemma keeps_order_keys_field_map (A : Type) (v : option A) setter :
  (forall x, keeps_order_keys (setter x)) -> keeps_order_keys (order_field_map v setter).
Proof.
  intros Hs. unfold order_field_map. destruct v.
  - apply keeps_order_keys_on_order, Hs.
  - intros o. now repeat split.
Qed.

Lemma keeps_order_keys_update_fields : keeps_order_keys update_fields.
Proof.
  intros o. unfold update_fields.
  destruct (keeps_order_keys_field_map _ (upo_notes data) po_with_notes
              (fun x o' => conj eq_refl (conj eq_refl eq_refl))
              (order_field_map (upo_expected_delivery data) po_with_expected_delivery
                 (order_field_map (upo_status data) po_with_status o)))
    as (-> & -> & ->).
  destruct (keeps_order_keys_field_map _ (upo_expected_delivery data)
              po_with_expected_delivery
              (fun x o' => conj eq_refl (conj eq_refl eq_refl))
              (order_field_map (upo_status data) po_with_status o))
    as (-> & -> & ->).
  apply keeps_order_keys_field_map. intros x. apply keeps_order_keys_status.
Qed.

Lemma order_field_map_keeps (A B : Type) (proj : PurchaseOrder -> B) (v : option A)
    setter o :
  (forall x y, proj (setter x y) = proj y) ->
  proj (order_field_map v setter o) = proj o.
Proof.
  intros Hs. unfold order_field_map, on_order. destruct v; [|reflexivity].
  destruct (po_id o =? po); [apply Hs | reflexivity].
Qed.

Lemma update_fields_columns o :
  po_id o = po ->
  po_status (update_fields o) = get_default (upo_status data) (po_status o)
  /\ po_actual_delivery (update_fields o) = po_actual_delivery o
  /\ po_total_amount (update_fields o) = po_total_amount o.
Proof.
  intros Hid. unfold update_fields.
  rewrite !(order_field_map_keeps _ _ po_status _ po_with_notes) by reflexivity.
  rewrite !(order_field_map_keeps _ _ po_status _ po_with_expected_delivery)
    by reflexivity.
  rewrite !(order_field_map_keeps _ _ po_actual_delivery) by reflexivity.
  rewrite !(order_field_map_keeps _ _ po_total_amount) by reflexivity.
  split; [|split; reflexivity].
  unfold order_field_map, on_order. destruct (upo_status data); [|reflexivity].
  now rewrite Hid, Z.eqb_refl.
Qed.

Lemma put_order_result_integrity d :
  integrity_ok d = true -> integrity_ok (put_order_result d) = true.
Proof.
  intros Hok.
  assert (Hshape : put_order_result d
                   = flush now
                       {| committed := d;
                          working := db_with_purchase_orders
                                       (map update_fields (purchase_orders d)) d |}).
  { unfold put_order_result, update_fields.
    now rewrite !apply_order_field_map, !map_map. }
  rewrite Hshape.
  apply orders_rewrite_integrity; [apply keeps_order_keys_update_fields | exact Hok].
Qed.

Lemma put_order_run d o :
  get_purchase_order (purchase_orders d) po = Some o ->
  put_order now po data d =
  if empty_update data then (Failure 400 "No data provided", d)
  else if negb (String.eqb (po_status o) "pending" || String.eqb (po_status o) "approved")
  then (Failure 409 "Cannot update purchase order in current status", d)
  else if integrity_ok (put_order_result d) then
    (Success 200 "Purchase order updated successfully", put_order_result d)
  else (Failure 500 (str DatabaseError), d).
Proof.
  intros Ho. pose proof (get_purchase_order_id _ _ _ Ho) as Hid.
  unfold put_order, run_view, update_purchase_order.
  unfold bind at 1. unfold PurchaseOrder_get_or_404 at 1. cbn [working].
  rewrite Ho, Hid.
  destruct (empty_update data); [reflexivity|].
  unfold bind at 1. unfold po_get at 1. cbn [working]. rewrite Ho.
  destruct (negb (String.eqb (po_status o) "pending"
                  || String.eqb (po_status o) "approved")); [reflexivity|].
  unfold put_order_result, apply_order_field, set_order_field.
  destruct (upo_status data), (upo_expected_delivery data), (upo_notes data);
    unfold bind, po_set, update, commit, ret; cbn [working committed];
    settle_commit.
Qed.

End PutOrder.



(** ** Further properties of receiving *)

Definition on_item (id : Z) (f : PurchaseOrderItem -> PurchaseOrderItem)
    (x : PurchaseOrderItem) : PurchaseOrderItem :=
  if poi_id x =? id then f x else x.

Definition keeps_item_keys (g : PurchaseOrderItem -> PurchaseOrderItem) : Prop :=
  forall x, poi_id (g x) = poi_id x
            /\ poi_purchase_order_id (g x) = poi_purchase_order_id x
            /\ poi_product_id (g x) = poi_product_id x.

Section ItemFacts.

Lemma keeps_item_keys_on_item id q :
  keeps_item_keys (on_item id (poi_with_received_quantity q)).
Proof.
  intros x. unfold on_item. destruct (poi_id x =? id); now repeat split.
Qed.

Lemma item_rows_ok_map order_ids product_ids g rows :
  keeps_item_keys g ->
  item_rows_ok order_ids product_ids (map g rows)
  = item_rows_ok order_ids product_ids rows.
Proof.
  intros Hg. unfold item_rows_ok.
  assert (Hids : map poi_id (map g rows) = map poi_id rows).
  { rewrite map_map. apply map_ext. intros x. apply Hg. }
  rewrite Hids. clear Hids. f_equal.
  induction rows as [|x t IH]; simpl; [reflexivity|].
  rewrite IH. destruct (Hg x) as (_ & -> & ->). reflexivity.
Qed.

Lemma get_purchase_order_item_map g rows id :
  keeps_item_keys g ->
  get_purchase_order_item (map g rows) id
  = option_map g (get_purchase_order_item rows id).
Proof.
  intros Hg. unfold get_purchase_order_item. apply find_map_stable.
  intros x. destruct (Hg x) as (-> & _). reflexivity.
Qed.

Lemma item_fk order_ids product_ids rows x :
  item_rows_ok order_ids product_ids rows = true -> In x rows ->
  In (poi_product_id x) product_ids.
Proof.
  unfold item_rows_ok. rewrite andb_true_iff, forallb_forall. intros [_ H] Hin.
  specialize (H x Hin). apply andb_true_iff in H. apply mem_Z_In. tauto.
Qed.

End ItemFacts.

Section ReceiveOne.

Variables (now po w i q : Z) (d : DB) (o : PurchaseOrder) (it : PurchaseOrderItem).

Definition receipt_movement : StockMovement :=
  {| mv_product_id := poi_product_id it; mv_warehouse_id := w;
     mv_movement_type := "in"; mv_quantity := q;
     mv_reference_type := Some "purchase_order"; mv_reference_id := Some po;
     mv_notes := Some ("Received from PO " ++ po_order_number o)%string;
     mv_created_at := now |}.

(** The working copy after the one line has been processed. *)
Definition receive_one_working : DB :=
  let rows := rows_with_pair now (poi_product_id it) w 10 1000 (inventory d) in
  let id := inv_id (row_of_pair now (poi_product_id it) w 10 1000 (inventory d)) in
  db_with_stock_movements (stock_movements d ++ [receipt_movement])
    (db_with_inventory
       (update_row id
          (inv_with_quantity (quantity_of d (poi_product_id it) w + q)) rows)
       (db_with_purchase_order_items
          (map (on_item (poi_id it)
                  (poi_with_received_quantity (poi_received_quantity it + q)))
             (purchase_order_items d))
          d)).

Definition receive_one_result : DB :=
  flush now
    {| committed := d;
       working :=
         if all_received (items_of receive_one_working po) then
           db_with_purchase_orders
             (map (on_order po (po_with_actual_delivery (Some now)))
                (map (on_order po (po_with_status "received"))
                   (purchase_orders receive_one_working)))
             receive_one_working
         else receive_one_working |}.

Hypothesis Hok : integrity_ok d = true.
Hypothesis Ho : get_purchase_order (purchase_orders d) po = Some o.
Hypothesis Hst : po_status o = "approved" \/ po_status o = "ordered".
Hypothesis Hw0 : w <> 0.
Hypothesis Hi0 : i <> 0.
Hypothesis Hq : 0 < q.
Hypothesis Hit : get_purchase_order_item (purchase_order_items d) i = Some it.
Hypothesis Hpo : poi_purchase_order_id it = po.

Lemma receive_line_one :
  receive_line now po w (po_order_number o)
    {| rcv_po_item_id := Some i; rcv_received_quantity := Some q |}
    {| committed := d; working := d |}
  = (Val tt, {| committed := d; working := receive_one_working |}).
Proof.
  unfold receive_line. cbn [rcv_po_item_id rcv_received_quantity get_default truthy].
  apply Z.eqb_neq in Hi0. rewrite Hi0.
  assert (Hle : (q <=? 0) = false) by (apply Z.leb_gt; lia).
  rewrite Hle. cbn [negb orb].
  unfold bind at 1. unfold query at 1. cbn [working]. rewrite Hit.
  rewrite Hpo, Z.eqb_refl. cbn [negb].
  unfold bind at 1. unfold poi_set at 1, update at 1.
  rewrite get_or_create_run. cbn [working committed].
  unfold bind at 1. unfold inv_get at 1.
  cbn [working inventory db_with_inventory db_with_purchase_order_items].
  rewrite get_row_of_pair by now apply integrity_inventory_ids.
  rewrite quantity_row_of_pair.
  unfold bind, inv_set, add_movement, update, ret. cbn [working committed].
  reflexivity.
Qed.

Lemma receive_one_run (data : ReceiveData) :
  rcv_warehouse_id data = Some w ->
  rcv_received_items data
  = [ {| rcv_po_item_id := Some i; rcv_received_quantity := Some q |} ] ->
  receive now po data d =
  if integrity_ok receive_one_result then
    (Success 200 "Items received and inventory updated successfully",
     receive_one_result)
  else (Failure 500 (str DatabaseError), d).
Proof.
  intros Hw Hlines. pose proof (get_purchase_order_id _ _ _ Ho) as Hid.
  unfold receive, run_view, receive_purchase_order.
  unfold bind at 1. unfold PurchaseOrder_get_or_404 at 1. cbn [working].
  rewrite Ho, Hid.
  unfold bind at 1. unfold po_get at 1. cbn [working]. rewrite Ho.
  assert (Hs : String.eqb (po_status o) "approved" || String.eqb (po_status o) "ordered"
               = true).
  { apply orb_true_iff. destruct Hst as [H|H]; rewrite H; [left|right]; reflexivity. }
  rewrite Hs, Hw, Hlines. cbn [negb truthy get_default orb].
  apply Z.eqb_neq in Hw0. rewrite Hw0. cbn [negb orb].
  unfold bind at 1. unfold po_get at 1. cbn [working]. rewrite Ho.
  unfold bind at 1. cbn [for_each]. unfold bind at 1.
  rewrite receive_line_one. unfold ret at 1.
  unfold bind at 1. unfold query at 1. cbn [working].
  unfold receive_one_result.
  destruct (all_received (items_of receive_one_working po));
    unfold bind, po_set, update, commit, ret; cbn [working committed];
    settle_commit.
Qed.

Lemma receive_one_constraints :
  In w (warehouses d) -> constraints_ok receive_one_result = true.
Proof.
  intros Hw.
  assert (Hitem : In it (purchase_order_items d)).
  { unfold get_purchase_order_item in Hit. now apply find_some in Hit. }
  pose proof (item_fk _ _ _ _ (integrity_items d Hok) Hitem) as Hprod.
  assert (Hbase :
    inventory_rows_ok (map prod_id (products d)) (warehouses d)
      (map (onupdate now (inventory d))
         (update_row
            (inv_id (row_of_pair now (poi_product_id it) w 10 1000 (inventory d)))
            (inv_with_quantity (quantity_of d (poi_product_id it) w + q))
            (rows_with_pair now (poi_product_id it) w 10 1000 (inventory d)))) = true
    /\ movement_rows_ok (map prod_id (products d)) (warehouses d)
         (stock_movements d ++ [receipt_movement]) = true
    /\ item_rows_ok (map po_id (purchase_orders d)) (map prod_id (products d))
         (map (on_item (poi_id it)
                 (poi_with_received_quantity (poi_received_quantity it + q)))
            (purchase_order_items d)) = true).
  { split; [|split].
    - rewrite update_row_map.
      rewrite !inventory_rows_ok_map
        by first [apply keeps_keys_onupdate
                 | apply keeps_keys_on_row, keeps_keys_quantity].
      apply inventory_rows_ok_with_pair; try assumption.
      now apply integrity_inventory.
    - rewrite movement_rows_ok_snoc, (integrity_movements d Hok).
      cbn [receipt_movement mv_product_id mv_warehouse_id].
      now rewrite (proj2 (mem_Z_In _ _) Hprod), (proj2 (mem_Z_In _ _) Hw).
    - rewrite item_rows_ok_map by apply keeps_item_keys_on_item.
      now apply integrity_items. }
  destruct Hbase as (Hinv & Hmov & Hitems).
  unfold constraints_ok, receive_one_result.
  destruct (all_received (items_of receive_one_working po));
    cbn [flush inventory products warehouses suppliers stock_movements purchase_orders
         purchase_order_items working committed db_with_inventory
         db_with_stock_movements db_with_purchase_orders db_with_purchase_order_items
         receive_one_working].
  - rewrite Hinv, Hmov.
    rewrite !order_rows_ok_map, !map_po_id_keeps
      by first [apply keeps_order_keys_on_order, keeps_order_keys_actual_delivery
               | apply keeps_order_keys_on_order, keeps_order_keys_status].
    now rewrite (integrity_orders d Hok), Hitems.
  - now rewrite Hinv, Hmov, (integrity_orders d Hok), Hitems.
Qed.

Lemma items_fit_received v :
  fits_integer v = true ->
  forallb item_fits
    (map (on_item (poi_id it) (poi_with_received_quantity v)) (purchase_order_items d))
  = true.
Proof.
  intros Hv. pose proof (columns_items d Hok) as Hall.
  rewrite forallb_forall in *. intros x Hx.
  apply in_map_iff in Hx. destruct Hx as (y & <- & Hy).
  specialize (Hall y Hy). unfold on_item.
  destruct (poi_id y =? poi_id it); [|exact Hall].
  unfold item_fits in *. cbn [poi_with_received_quantity poi_quantity
    poi_received_quantity]. rewrite andb_true_iff in *. tauto.
Qed.

Lemma receive_one_columns :
  fits_integer q = true ->
  fits_integer po = true ->
  fits_integer (poi_received_quantity it + q) = true ->
  fits_integer (quantity_of d (poi_product_id it) w + q) = true ->
  columns_ok receive_one_result = true.
Proof.
  intros Hfq Hfpo Hfr Hfs.
  assert (Hinv :
    forallb inventory_fits
      (map (onupdate now (inventory d))
         (update_row
            (inv_id (row_of_pair now (poi_product_id it) w 10 1000 (inventory d)))
            (inv_with_quantity (quantity_of d (poi_product_id it) w + q))
            (rows_with_pair now (poi_product_id it) w 10 1000 (inventory d)))) = true).
  { rewrite update_row_map.
    apply rows_fit_map; [apply keeps_fit_onupdate|].
    apply rows_fit_map; [now apply keeps_fit_on_row, keeps_fit_quantity|].
    apply rows_fit_with_pair; [apply (columns_inventory d Hok)|].
    intros _. apply fits_default_levels. }
  assert (Hmov : forallb movement_fits (stock_movements d ++ [receipt_movement]) = true).
  { rewrite forallb_app, (columns_movements d Hok). cbn [forallb].
    unfold movement_fits, receipt_movement.
    cbn [mv_quantity mv_reference_id fits_if_present]. now rewrite Hfq, Hfpo. }
  pose proof (items_fit_received _ Hfr) as Hitems.
  unfold columns_ok, receive_one_result.
  destruct (all_received (items_of receive_one_working po));
    cbn [flush inventory stock_movements purchase_order_items working committed
         db_with_inventory db_with_stock_movements db_with_purchase_orders
         db_with_purchase_order_items receive_one_working];
    now rewrite Hinv, Hmov, Hitems.
Qed.

Lemma receive_one_integrity :
  In w (warehouses d) ->
  fits_integer q = true ->
  fits_integer po = true ->
  fits_integer (poi_received_quantity it + q) = true ->
  fits_integer (quantity_of d (poi_product_id it) w + q) = true ->
  integrity_ok receive_one_result = true.
Proof.
  intros Hw Hfq Hfpo Hfr Hfs. apply integrity_intro.
  - now apply receive_one_constraints.
  - now apply receive_one_columns.
Qed.

End ReceiveOne.

(** X15.  A receipt of one line, for an item of an approved or ordered order
    and a positive quantity, into an existing warehouse, succeeds in a
    consistent database when what it writes fits the integer column (the
    quantity, the order id, the new received quantity and the new stock).
    The item's received quantity grows by exactly the quantity of the line,
    whatever was ordered (there is no cap at the ordered quantity), and its
    other columns stay; the stock of the item's product in the warehouse
    grows by the same quantity; and exactly one 'in' movement of that
    quantity is appended, referring to the purchase order. *)
Theorem receive_one_line_adds_uncapped
    (now po w i q : Z) (data : ReceiveData) (d : DB)
    (o : PurchaseOrder) (it : PurchaseOrderItem) :
  integrity_ok d = true ->
  get_purchase_order (purchase_orders d) po = Some o ->
  po_status o = "approved" \/ po_status o = "ordered" ->
  rcv_warehouse_id data = Some w -> w <> 0 -> In w (warehouses d) ->
  rcv_received_items data
  = [ {| rcv_po_item_id := Some i; rcv_received_quantity := Some q |} ] ->
  i <> 0 -> 0 < q ->
  get_purchase_order_item (purchase_order_items d) i = Some it ->
  poi_purchase_order_id it = po ->
  fits_integer q = true ->
  fits_integer po = true ->
  fits_integer (poi_received_quantity it + q) = true ->
  fits_integer (quantity_of d (poi_product_id it) w + q) = true ->
  fst (receive now po data d)
    = Success 200 "Items received and inventory updated successfully"
  /\ (exists it',
        get_purchase_order_item (purchase_order_items (snd (receive now po data d))) i
        = Some it'
        /\ poi_received_quantity it' = poi_received_quantity it + q
        /\ poi_id it' = poi_id it
        /\ poi_purchase_order_id it' = poi_purchase_order_id it
        /\ poi_product_id it' = poi_product_id it
        /\ poi_quantity it' = poi_quantity it
        /\ poi_unit_price it' = poi_unit_price it)
  /\ quantity_of (snd (receive now po data d)) (poi_product_id it) w
     = quantity_of d (poi_product_id it) w + q
  /\ stock_movements (snd (receive now po data d))
     = stock_movements d
       ++ [ {| mv_product_id := poi_product_id it; mv_warehouse_id := w;
               mv_movement_type := "in"; mv_quantity := q;
               mv_reference_type := Some "purchase_order";
               mv_reference_id := Some po;
               mv_notes := Some ("Received from PO " ++ po_order_number o)%string;
               mv_created_at := now |} ].
Proof.
  intros Hok Ho Hst Hw Hw0 Hwin Hlines Hi0 Hq Hit Hpo Hfq Hfpo Hfr Hfs.
  rewrite (receive_one_run now po w i q d o it Hok Ho Hst Hw0 Hi0 Hq Hit Hpo data
             Hw Hlines).
  assert (Hint : integrity_ok (receive_one_result now po w q d o it) = true)
    by (eapply receive_one_integrity; eassumption).
  rewrite Hint.
  cbn [fst snd].
  assert (Hid : poi_id it = i).
  { unfold get_purchase_order_item in Hit. apply find_some in Hit.
    now apply Z.eqb_eq. }
  split; [reflexivity|]. split; [|split].
  - assert (Hitems : purchase_order_items (receive_one_result now po w q d o it)
                     = map (on_item (poi_id it)
                              (poi_with_received_quantity (poi_received_quantity it + q)))
                         (purchase_order_items d)).
    { unfold receive_one_result.
      destruct (all_received (items_of (receive_one_working now po w q d o it) po));
        reflexivity. }
    rewrite Hitems, get_purchase_order_item_map by apply keeps_item_keys_on_item.
    rewrite Hit. cbn [option_map]. unfold on_item. rewrite Z.eqb_refl.
    eexists. split; [reflexivity|]. repeat split.
  - unfold receive_one_result. rewrite quantity_of_flush.
    assert (Hinv : forall b : bool,
              inventory
                (working
                   {| committed := d;
                      working :=
                        if b then
                          db_with_purchase_orders
                            (map (on_order po (po_with_actual_delivery (Some now)))
                               (map (on_order po (po_with_status "received"))
                                  (purchase_orders
                                     (receive_one_working now po w q d o it))))
                            (receive_one_working now po w q d o it)
                        else receive_one_working now po w q d o it |})
              = inventory (receive_one_working now po w q d o it))
      by (intros []; reflexivity).
    unfold quantity_of at 1. rewrite Hinv.
    unfold receive_one_working. cbn [inventory db_with_stock_movements db_with_inventory].
    rewrite update_row_map.
    rewrite find_inventory_map by apply keeps_keys_on_row, keeps_keys_quantity.
    rewrite find_rows_with_pair. cbn [option_map].
    now rewrite on_row_same by reflexivity.
  - unfold receive_one_result.
    destruct (all_received (items_of (receive_one_working now po w q d o it) po));
      reflexivity.
Qed.

Lemma receive_one_line_adds_uncapped_witness :
  fst (receive 7 1 (mk_receive 1 1 100) db2)
    = Success 200 "Items received and inventory updated successfully"
  /\ option_map poi_received_quantity
       (get_purchase_order_item
          (purchase_order_items (snd (receive 7 1 (mk_receive 1 1 100) db2))) 1)
     = Some (4 + 100)
  /\ quantity_of (snd (receive 7 1 (mk_receive 1 1 100) db2)) 1 1 = 4 + 100.
Proof.
  pose proof (receive_one_line_adds_uncapped 7 1 1 1 100 (mk_receive 1 1 100) db2
                {| po_id := 1; po_order_number := "PO-1"; po_supplier_id := 1;
                   po_status := "approved"; po_order_date := 0;
                   po_expected_delivery := None; po_actual_delivery := None;
                   po_total_amount := 50; po_notes := None |}
                {| poi_id := 1; poi_purchase_order_id := 1; poi_product_id := 1;
                   poi_quantity := 10; poi_unit_price := 5;
                   poi_received_quantity := 4 |}
                eq_refl eq_refl (or_introl eq_refl) eq_refl) as H.
  destruct H as (H1 & (it' & Hget & Hrec & _) & H3 & _);
    try reflexivity; try discriminate; [simpl; tauto|].
  split; [exact H1|]. split; [rewrite Hget; cbn [option_map]; now rewrite Hrec | exact H3].
Defined.

(** X16.  A receive call on an order that is neither approved nor ordered
    is answered 409; on an approved or ordered order, a body without a
    warehouse id (or with 0) or without received items is answered 400; in
    both cases nothing changes. *)
Theorem receive_rejects_closed_order_or_empty_body
    (now po : Z) (data : ReceiveData) (d : DB) (o : PurchaseOrder) :
  get_purchase_order (purchase_orders d) po = Some o ->
  (po_status o <> "approved" -> po_status o <> "ordered" ->
   receive now po data d
   = (Failure 409 "Can only receive from approved or ordered purchase orders", d))
  /\ (po_status o = "approved" \/ po_status o = "ordered" ->
      truthy (rcv_warehouse_id data) = false \/ rcv_received_items data = [] ->
      receive now po data d
      = (Failure 400 "Warehouse ID and received items are required", d)).
Proof.
  intros Ho. pose proof (get_purchase_order_id _ _ _ Ho) as Hid.
  assert (Hrun : forall k,
            run_view
              (purchase_order <- PurchaseOrder_get_or_404 po ;;
               status <- po_get purchase_order po_status ;;
               k purchase_order status) d
            = run_view (k po (po_status o)) d).
  { intros k. unfold run_view. unfold bind at 1.
    unfold PurchaseOrder_get_or_404 at 1. cbn [working]. rewrite Ho, Hid.
    unfold bind at 1. unfold po_get at 1. cbn [working]. now rewrite Ho. }
  unfold receive, receive_purchase_order.
  rewrite (Hrun (fun purchase_order status =>
    if negb (String.eqb status "approved" || String.eqb status "ordered") then
      return_ (Failure 409 "Can only receive from approved or ordered purchase orders")
    else if negb (truthy (rcv_warehouse_id data))
            || match rcv_received_items data with [] => true | _ => false end
    then return_ (Failure 400 "Warehouse ID and received items are required")
    else
      order_number <- po_get purchase_order po_order_number ;;
      for_each (rcv_received_items data)
        (receive_line now po (get_default (rcv_warehouse_id data) 0) order_number) ;;;
      items <- query (fun d => items_of d purchase_order) ;;
      (if all_received items then
         po_set purchase_order (po_with_status "received") ;;;
         po_set purchase_order (po_with_actual_delivery (Some now))
       else ret tt) ;;;
      commit now ;;;
      ret (Success 200 "Items received and inventory updated successfully"))).
  split.
  - intros H1 H2. apply String.eqb_neq in H1, H2. now rewrite H1, H2.
  - intros Hst Hbody.
    assert (Hs : String.eqb (po_status o) "approved" || String.eqb (po_status o) "ordered"
                 = true).
    { apply orb_true_iff. destruct Hst as [H|H]; rewrite H; [left|right]; reflexivity. }
    rewrite Hs. cbn [negb].
    destruct Hbody as [H|H]; rewrite H; [reflexivity|].
    now rewrite orb_true_r.
Qed.

Lemma receive_rejects_closed_order_or_empty_body_witness :
  receive 7 2 (mk_receive 1 2 1) db2
    = (Failure 409 "Can only receive from approved or ordered purchase orders", db2)
  /\ receive 7 1 {| rcv_warehouse_id := Some 1; rcv_received_items := [] |} db2
     = (Failure 400 "Warehouse ID and received items are required", db2).
Proof.
  pose proof (receive_rejects_closed_order_or_empty_body 7 2 (mk_receive 1 2 1) db2
                {| po_id := 2; po_order_number := "PO-2"; po_supplier_id := 1;
                   po_status := "received"; po_order_date := 0;
                   po_expected_delivery := None; po_actual_delivery := Some 0;
                   po_total_amount := 10; po_notes := None |} eq_refl) as [H1 _].
  pose proof (receive_rejects_closed_order_or_empty_body 7 1
                {| rcv_warehouse_id := Some 1; rcv_received_items := [] |} db2
                {| po_id := 1; po_order_number := "PO-1"; po_supplier_id := 1;
                   po_status := "approved"; po_order_date := 0;
                   po_expected_delivery := None; po_actual_delivery := None;
                   po_total_amount := 50; po_notes := None |} eq_refl) as [_ H2].
  split; [apply H1; discriminate | apply H2; [now left | now right]].
Defined.

(** ** Receipt lines that the loop passes over *)

(** The line meets one of the two [continue] of the loop: no item id, a
    quantity that is not positive, an unknown item, or an item of another
    order. *)
Definition line_skipped (d : DB) (po : Z) (line : ReceivedItem) : bool :=
  negb (truthy (rcv_po_item_id line))
  || (get_default (rcv_received_quantity line) 0 <=? 0)
  || match get_purchase_order_item (purchase_order_items d)
             (get_default (rcv_po_item_id line) 0) with
     | None => true
     | Some po_item => negb (poi_purchase_order_id po_item =? po)
     end.

(** The database after a receipt that processed no line. *)
Definition receive_nothing_result (now po : Z) (d : DB) : DB :=
  flush now
    {| committed := d;
       working :=
         if all_received (items_of d po) then
           db_with_purchase_orders
             (map (on_order po (po_with_actual_delivery (Some now)))
                (map (on_order po (po_with_status "received")) (purchase_orders d)))
             d
         else d |}.

Section SkippedLines.

Variables (now po w : Z) (number : string).

Lemma receive_line_skipped (line : ReceivedItem) (s : Session) :
  line_skipped (working s) po line = true ->
  receive_line now po w number line s = (Val tt, s).
Proof.
  unfold line_skipped, receive_line. intros H.
  destruct (negb (truthy (rcv_po_item_id line))
            || (get_default (rcv_received_quantity line) 0 <=? 0)); [reflexivity|].
  cbn [orb] in H. unfold bind, query.
  destruct (get_purchase_order_item (purchase_order_items (working s))
              (get_default (rcv_po_item_id line) 0)) as [po_item|]; [|reflexivity].
  now rewrite H.
Qed.

Lemma receive_lines_skipped (lines : list ReceivedItem) (s : Session) :
  forallb (line_skipped (working s) po) lines = true ->
  for_each lines (receive_line now po w number) s = (Val tt, s).
Proof.
  induction lines as [|line rest IH]; intros H; [reflexivity|].
  cbn [forallb] in H. apply andb_true_iff in H. destruct H as [Hl Hr].
  cbn [for_each]. unfold bind. rewrite (receive_line_skipped line s Hl).
  now apply IH.
Qed.

End SkippedLines.

Lemma receive_nothing_integrity now po d :
  integrity_ok d = true -> integrity_ok (receive_nothing_result now po d) = true.
Proof.
  intros Hok. unfold receive_nothing_result.
  destruct (all_received (items_of d po)).
  - rewrite map_map.
    apply (orders_rewrite_integrity now
             (fun o => on_order po (po_with_actual_delivery (Some now))
                         (on_order po (po_with_status "received") o)));
      [|exact Hok].
    intros o.
    destruct (keeps_order_keys_on_order po _
                (keeps_order_keys_actual_delivery (Some now))
                (on_order po (po_with_status "received") o)) as (-> & -> & ->).
    apply keeps_order_keys_on_order, keeps_order_keys_status.
  - now apply flush_unchanged_integrity.
Qed.

Lemma receive_nothing_run now po data d o w :
  get_purchase_order (purchase_orders d) po = Some o ->
  po_status o = "approved" \/ po_status o = "ordered" ->
  rcv_warehouse_id data = Some w -> w <> 0 ->
  rcv_received_items data <> [] ->
  forallb (line_skipped d po) (rcv_received_items data) = true ->
  receive now po data d =
  if integrity_ok (receive_nothing_result now po d) then
    (Success 200 "Items received and inventory updated successfully",
     receive_nothing_result now po d)
  else (Failure 500 (str DatabaseError), d).
Proof.
  intros Ho Hst Hw Hw0 Hne Hskip. pose proof (get_purchase_order_id _ _ _ Ho) as Hid.
  unfold receive, run_view, receive_purchase_order.
  unfold bind at 1. unfold PurchaseOrder_get_or_404 at 1. cbn [working].
  rewrite Ho, Hid.
  unfold bind at 1. unfold po_get at 1. cbn [working]. rewrite Ho.
  assert (Hs : String.eqb (po_status o) "approved" || String.eqb (po_status o) "ordered"
               = true).
  { apply orb_true_iff. destruct Hst as [H|H]; rewrite H; [left|right]; reflexivity. }
  rewrite Hs, Hw. cbn [negb truthy get_default orb].
  apply Z.eqb_neq in Hw0. rewrite Hw0. cbn [negb orb].
  destruct (rcv_received_items data) as [|line rest] eqn:Hlines; [congruence|].
  unfold bind at 1. unfold po_get at 1. cbn [working]. rewrite Ho.
  unfold bind at 1.
  rewrite (receive_lines_skipped now po w (po_order_number o) (line :: rest)
             {| committed := d; working := d |} Hskip).
  unfold bind at 1. unfold query at 1. cbn [working].
  unfold receive_nothing_result.
  destruct (all_received (items_of d po));
    unfold bind, po_set, update, commit, ret; cbn [working committed];
    settle_commit.
Qed.


Definition db_complete : DB :=
  {| products := products db2; warehouses := warehouses db2;
     suppliers := suppliers db2; inventory := inventory db2;
     stock_movements := stock_movements db2;
     purchase_orders :=
       [ {| po_id := 1; po_order_number := "PO-1"; po_supplier_id := 1;
            po_status := "approved"; po_order_date := 0;
            po_expected_delivery := None; po_actual_delivery := None;
            po_total_amount := 50; po_notes := None |} ];
     purchase_order_items :=
       [ {| poi_id := 1; poi_purchase_order_id := 1; poi_product_id := 1;
            poi_quantity := 4; poi_unit_price := 5; poi_received_quantity := 4 |} ] |}.


(** ** An order number that is already in use *)

Lemma order_rows_ok_number_taken sups rows o :
  In (po_order_number o) (map po_order_number rows) ->
  order_rows_ok sups (rows ++ [o]) = false.
Proof.
  intros Hin. unfold order_rows_ok. rewrite !map_app. cbn [map].
  rewrite (unique_by_snoc string String.eqb).
  assert (Hex : existsb (fun y => String.eqb y (po_order_number o))
                  (map po_order_number rows) = true).
  { apply existsb_exists. exists (po_order_number o). split; [exact Hin|].
    apply String.eqb_refl. }
  rewrite Hex. cbn [negb]. now rewrite andb_false_r, andb_false_r.
Qed.

Lemma order_added_number_taken now number data d :
  In number (map po_order_number (purchase_orders d)) ->
  integrity_ok (order_added now number data d) = false.
Proof.
  intros Hin. unfold integrity_ok, constraints_ok, order_added.
  cbn [flush inventory products warehouses suppliers stock_movements purchase_orders
       purchase_order_items working committed db_with_inventory
       db_with_purchase_orders].
  rewrite (order_rows_ok_number_taken (suppliers d) (purchase_orders d)
             (new_order now number data d) Hin).
  now rewrite andb_false_r.
Qed.

(** X19.  The order number is not retried.  When the generated number is
    already carried by a stored order, a request with a known supplier and
    at least one item is answered 500, with the text of the database error,
    at the flush of the order row, before any item is looked at, and nothing
    is stored. *)
Theorem create_with_used_number_stores_nothing
    (now : Z) (number : string) (data : CreateData) (d : DB) :
  truthy (crt_supplier_id data) = true ->
  In (get_default (crt_supplier_id data) 0) (suppliers d) ->
  crt_items data <> [] ->
  In number (map po_order_number (purchase_orders d)) ->
  exists e, create now number data d = (Failure 500 e, d).
Proof.
  intros Ht Hs Hne Hin. exists (str DatabaseError).
  unfold create, run_view, create_purchase_order.
  rewrite Ht. destruct (crt_items data) as [|i0 rest]; [now contradiction Hne|].
  cbn [negb orb].
  unfold bind at 1. unfold query at 1. cbn [working].
  rewrite (proj2 (mem_Z_In _ _) Hs). cbn [negb].
  unfold bind at 1. cbn [working committed].
  unfold bind at 1. unfold session_flush at 1.
  change (flush now _) with (order_added now number data d).
  now rewrite (order_added_number_taken now number data d Hin).
Qed.

Lemma create_with_used_number_stores_nothing_witness :
  exists e,
    create 3 "PO-1" (mk_create 1 [mk_item 1 2 5]) db2 = (Failure 500 e, db2).
Proof.
  apply (create_with_used_number_stores_nothing 3 "PO-1" (mk_create 1 [mk_item 1 2 5]) db2).
  - reflexivity.
  - simpl. tauto.
  - discriminate.
  - simpl. tauto.
Defined.

(** ** The thresholds of the row that an adjustment touches *)


Definition mk_adjust_levels (p w c rl ms : Z) : AdjustData :=
  {| adj_product_id := Some p; adj_warehouse_id := Some w;
     adj_quantity_change := Some c; adj_movement_type := Some "in";
     adj_reorder_level := Some rl; adj_max_stock_level := Some ms;
     adj_reference_type := None; adj_reference_id := None; adj_notes := None |}.

